(** * AI-TodoList: task API, hierarchy guard and breakdown parser

    A shallow embedding of the task API of the repository:

      - [validateCreateRequest] of [pages/api/tasks/index.ts],
      - [pages/api/tasks/[id].ts]       (get / patch / delete),
      - [pages/api/tasks/breakdown.ts]  (AI breakdown),

    together with the JavaScript primitives they rely on and the table of
    [supabase-schema.sql] behind them.

    Conventions.
    - A JavaScript string is a sequence of UTF-16 code units ([jsstring]);
      [.length], [trim], [split] and the regular expressions of the source
      all work on code units.
    - A JavaScript number is modelled by its exact value in [Q] or [Z].
      [parseInt] rounds what it reads to the nearest double ([to_double]);
      the numbers of a JSON text are kept exact, and the overflow of
      IEEE-754 doubles to [Infinity] is outside the model.
    - A request body or a store row is a JSON value ([JSValue]); a missing
      property reads as [JUndefined].
    - A handler is a finite interaction with the store and the text
      generator ([Prog]); [run] executes it against an in-memory table that
      follows [supabase-schema.sql]. *)

From Stdlib Require Import List ZArith NArith QArith Bool Lia String Ascii DecimalString
  DecimalNat Sorted.
Import ListNotations.

Local Open Scope N_scope.

(* ===================================================================== *)
(** * JavaScript values                                                   *)
(* ===================================================================== *)

Module Js.

(** A UTF-16 code unit and a JavaScript string. *)
Definition char16 := N.
Definition jsstring := list char16.

(** Decoding of a UTF-8 byte sequence (the encoding of this file's string
    literals) into UTF-16 code units. Malformed bytes are kept as they are. *)
Fixpoint utf16_of_utf8 (bs : list N) : jsstring :=
  match bs with
  | [] => []
  | b0 :: r0 =>
    if b0 <? 0x80 then b0 :: utf16_of_utf8 r0
    else
      match r0 with
      | [] => [b0]
      | b1 :: r1 =>
        if b0 <? 0xE0 then
          N.lor (N.shiftl (N.land b0 0x1F) 6) (N.land b1 0x3F) :: utf16_of_utf8 r1
        else
          match r1 with
          | [] => [b0; b1]
          | b2 :: r2 =>
            if b0 <? 0xF0 then
              N.lor (N.shiftl (N.land b0 0x0F) 12)
                    (N.lor (N.shiftl (N.land b1 0x3F) 6) (N.land b2 0x3F))
                :: utf16_of_utf8 r2
            else
              match r2 with
              | [] => [b0; b1; b2]
              | b3 :: r3 =>
                let cp :=
                  N.lor (N.shiftl (N.land b0 0x07) 18)
                    (N.lor (N.shiftl (N.land b1 0x3F) 12)
                       (N.lor (N.shiftl (N.land b2 0x3F) 6) (N.land b3 0x3F))) in
                let v := cp - 0x10000 in
                (0xD800 + N.shiftr v 10) :: (0xDC00 + N.land v 0x3FF)
                  :: utf16_of_utf8 r3
              end
          end
      end
  end.

(** [js "..."] is the JavaScript string written by the literal. *)
Definition js (s : string) : jsstring :=
  utf16_of_utf8 (map N_of_ascii (list_ascii_of_string s)).

(** A literal in which the apostrophe stands for the quotation mark. *)
Definition jsq (s : string) : jsstring :=
  map (fun c => if c =? 39 then 34 else c) (js s).

(** Equality of strings, code unit by code unit. *)
Fixpoint str_eqb (a b : jsstring) : bool :=
  match a, b with
  | [], [] => true
  | x :: a', y :: b' => (x =? y) && str_eqb a' b'
  | _, _ => false
  end.

(** [s.length] *)
Definition strlen (s : jsstring) : N := N.of_nat (List.length s).

(** WhiteSpace and LineTerminator code points of ECMAScript: what
    [String.prototype.trim] removes and what [\s] matches. *)
Definition is_space (c : char16) : bool :=
  (c =? 9) || (c =? 10) || (c =? 11) || (c =? 12) || (c =? 13) || (c =? 32)
  || (c =? 0xA0) || (c =? 0x1680)
  || ((0x2000 <=? c) && (c <=? 0x200A))
  || (c =? 0x2028) || (c =? 0x2029) || (c =? 0x202F) || (c =? 0x205F)
  || (c =? 0x3000) || (c =? 0xFEFF).

Fixpoint drop_while (p : char16 -> bool) (s : jsstring) : jsstring :=
  match s with
  | [] => []
  | c :: r => if p c then drop_while p r else s
  end.

Definition drop_while_end (p : char16 -> bool) (s : jsstring) : jsstring :=
  rev (drop_while p (rev s)).

(** [s.trim()] *)
Definition trim (s : jsstring) : jsstring :=
  drop_while_end is_space (drop_while is_space s).

(** [parts.join(sep)] *)
Fixpoint join (sep : jsstring) (parts : list jsstring) : jsstring :=
  match parts with
  | [] => []
  | [p] => p
  | p :: rest => p ++ sep ++ join sep rest
  end.

(** [s.split(sep)] on one code unit. *)
Fixpoint split (sep : char16) (s : jsstring) : list jsstring :=
  match s with
  | [] => [[]]
  | c :: r =>
    if c =? sep then [] :: split sep r
    else match split sep r with
         | [] => [[c]]
         | x :: xs => (c :: x) :: xs
         end
  end.

(** JSON values as JavaScript sees them, plus [undefined]. *)
#[local] Unset Elimination Schemes.
Inductive JSValue : Type :=
| JUndefined
| JNull
| JBool (b : bool)
| JNum (q : Q)
| JStr (s : jsstring)
| JArr (items : list JSValue)
| JObj (fields : list (jsstring * JSValue)).
#[local] Set Elimination Schemes.

Inductive JSType := TUndefined | TObject | TBoolean | TNumber | TString.

(** [typeof v] *)
Definition typeof (v : JSValue) : JSType :=
  match v with
  | JUndefined => TUndefined
  | JNull => TObject
  | JBool _ => TBoolean
  | JNum _ => TNumber
  | JStr _ => TString
  | JArr _ => TObject
  | JObj _ => TObject
  end.

(** [typeof v === 'string'] and [typeof v === 'number'] *)
Definition is_string (v : JSValue) : bool :=
  match typeof v with TString => true | _ => false end.

Definition is_number (v : JSValue) : bool :=
  match typeof v with TNumber => true | _ => false end.

Definition is_undefined (v : JSValue) : bool :=
  match v with JUndefined => true | _ => false end.

Definition is_null (v : JSValue) : bool :=
  match v with JNull => true | _ => false end.

(** [v == null]: the values on which a property access throws. *)
Definition nullish (v : JSValue) : bool := is_undefined v || is_null v.

(** ToBoolean. *)
Definition truthy (v : JSValue) : bool :=
  match v with
  | JUndefined | JNull => false
  | JBool b => b
  | JNum q => negb (Qnum q =? 0)%Z
  | JStr s => match s with [] => false | _ => true end
  | JArr _ | JObj _ => true
  end.

(** [Number.isInteger(q)] for a finite number. *)
Definition number_is_integer (q : Q) : bool :=
  (Qnum q mod Zpos (Qden q) =? 0)%Z.

(** [Number.isInteger(v)] *)
Definition isInteger (v : JSValue) : bool :=
  match v with JNum q => number_is_integer q | _ => false end.

(** [a === b] on primitives; two arrays or objects produced by different
    evaluations are never identical. *)
Definition strict_eq (a b : JSValue) : bool :=
  match a, b with
  | JUndefined, JUndefined => true
  | JNull, JNull => true
  | JBool x, JBool y => Bool.eqb x y
  | JNum x, JNum y => Qeq_bool x y
  | JStr x, JStr y => str_eqb x y
  | _, _ => false
  end.

(** Lookup of an own property in a field list. *)
Fixpoint lookup (k : jsstring) (fields : list (jsstring * JSValue)) : option JSValue :=
  match fields with
  | [] => None
  | (k', v) :: rest => if str_eqb k k' then Some v else lookup k rest
  end.

(** [v.k] for a non-nullish [v] and a key that no prototype defines. *)
Definition get (v : JSValue) (k : jsstring) : JSValue :=
  match v with
  | JObj fields => match lookup k fields with Some x => x | None => JUndefined end
  | _ => JUndefined
  end.

(** [o.k = v] on a field list: overwrite in place or append. *)
Fixpoint set (k : jsstring) (v : JSValue) (fields : list (jsstring * JSValue))
  : list (jsstring * JSValue) :=
  match fields with
  | [] => [(k, v)]
  | (k', v') :: rest =>
    if str_eqb k k' then (k', v) :: rest else (k', v') :: set k v rest
  end.

(** [arr.includes(v)] for an array of strings (SameValueZero). *)
Definition includes (arr : list jsstring) (v : JSValue) : bool :=
  match v with
  | JStr s => existsb (str_eqb s) arr
  | _ => false
  end.

(** The integer as a JavaScript number. *)
Definition num (z : Z) : JSValue := JNum (inject_Z z).

(** The outcome of evaluating code that can throw. *)
Inductive Completion (A : Type) : Type :=
| Normal (a : A)
| Throw.
Arguments Normal {A} a.
Arguments Throw {A}.

End Js.
Import Js.

(* ===================================================================== *)
(** * Task validator                                                      *)
(* ===================================================================== *)

Module Validator.

(** [types/task.ts]: the members of [TaskStatus] and [TaskPriority]. *)
Definition validStatuses : list jsstring := [js "pending"; js "completed"].
Definition validPriorities : list jsstring := [js "low"; js "medium"; js "high"].

(** The messages pushed by the two validators. *)
Definition msg_title_required : jsstring := js "title 是必填字段且必须是字符串".
Definition msg_title_type : jsstring := js "title 必须是字符串".
Definition msg_title_empty : jsstring := js "title 不能为空".
Definition msg_title_long : jsstring := js "title 长度不能超过 200 字符".
Definition msg_description_type : jsstring := js "description 必须是字符串".
Definition msg_description_type_or_null : jsstring := js "description 必须是字符串或 null".
Definition msg_description_long : jsstring := js "description 长度不能超过 1000 字符".
Definition msg_status : jsstring :=
  js "status 必须是 " ++ join (js " 或 ") validStatuses.
Definition msg_priority : jsstring :=
  js "priority 必须是 " ++ join (js "、") validPriorities.
Definition msg_parent_id_integer : jsstring := js "parent_id 必须是整数".
Definition msg_parent_id_integer_or_null : jsstring := js "parent_id 必须是整数或 null".

(** The length of a string value, [0] for anything else. *)
Definition length_of (v : JSValue) : N :=
  match v with JStr s => strlen s | _ => 0 end.

(** The trimmed text of a string value. *)
Definition trimmed (v : JSValue) : jsstring :=
  match v with JStr s => trim s | _ => [] end.

(** ** [validateCreateRequest] of [pages/api/tasks/index.ts]

    Each block of the source pushes at most one message; the blocks run one
    after the other on the same [errors] array. *)

Definition create_title_errors (title : JSValue) : list jsstring :=
  if negb (truthy title) || negb (is_string title) then [msg_title_required]
  else if strlen (trimmed title) =? 0 then [msg_title_empty]
  else if 200 <? length_of title then [msg_title_long]
  else [].

Definition create_description_errors (description : JSValue) : list jsstring :=
  if negb (is_undefined description) && negb (is_null description) then
    if negb (is_string description) then [msg_description_type]
    else if 1000 <? length_of description then [msg_description_long]
    else []
  else [].

Definition status_errors (status : JSValue) : list jsstring :=
  if negb (is_undefined status) then
    if negb (includes validStatuses status) then [msg_status] else []
  else [].

Definition priority_errors (priority : JSValue) : list jsstring :=
  if negb (is_undefined priority) then
    if negb (includes validPriorities priority) then [msg_priority] else []
  else [].

Definition create_parent_id_errors (parent_id : JSValue) : list jsstring :=
  if negb (is_undefined parent_id) && negb (is_null parent_id) then
    if negb (is_number parent_id) || negb (isInteger parent_id)
    then [msg_parent_id_integer] else []
  else [].

Definition validateCreateRequest (body : JSValue) : Completion (list jsstring) :=
  if nullish body then Throw
  else
    Normal (create_title_errors (get body (js "title"))
            ++ create_description_errors (get body (js "description"))
            ++ status_errors (get body (js "status"))
            ++ priority_errors (get body (js "priority"))
            ++ create_parent_id_errors (get body (js "parent_id"))).

(** ** [validateUpdateRequest] of [pages/api/tasks/[id].ts]

    The state threaded through the blocks is the pair of the [errors] array
    and the [updateData] object. *)

Record UpdateState := mkUpdateState {
  errors : list jsstring;
  updateData : list (jsstring * JSValue)
}.

Definition push (m : jsstring) (st : UpdateState) : UpdateState :=
  mkUpdateState (errors st ++ [m]) (updateData st).

Definition assign (k : jsstring) (v : JSValue) (st : UpdateState) : UpdateState :=
  mkUpdateState (errors st) (set k v (updateData st)).

Definition update_title (title : JSValue) (st : UpdateState) : UpdateState :=
  if negb (is_undefined title) then
    if negb (is_string title) then push msg_title_type st
    else if strlen (trimmed title) =? 0 then push msg_title_empty st
    else if 200 <? length_of title then push msg_title_long st
    else assign (js "title") (JStr (trimmed title)) st
  else st.

(** [body.description?.trim() || null] *)
Definition description_or_null (description : JSValue) : JSValue :=
  match description with
  | JStr s => match trim s with [] => JNull | t => JStr t end
  | _ => JNull
  end.

Definition update_description (description : JSValue) (st : UpdateState) : UpdateState :=
  if negb (is_undefined description) then
    if negb (is_null description) && negb (is_string description)
    then push msg_description_type_or_null st
    else if truthy description && (1000 <? length_of description)
    then push msg_description_long st
    else assign (js "description") (description_or_null description) st
  else st.

Definition update_status (status : JSValue) (st : UpdateState) : UpdateState :=
  if negb (is_undefined status) then
    if negb (includes validStatuses status) then push msg_status st
    else assign (js "status") status st
  else st.

Definition update_priority (priority : JSValue) (st : UpdateState) : UpdateState :=
  if negb (is_undefined priority) then
    if negb (includes validPriorities priority) then push msg_priority st
    else assign (js "priority") priority st
  else st.

Definition update_parent_id (parent_id : JSValue) (st : UpdateState) : UpdateState :=
  if negb (is_undefined parent_id) then
    if negb (is_null parent_id)
       && (negb (is_number parent_id) || negb (isInteger parent_id))
    then push msg_parent_id_integer_or_null st
    else assign (js "parent_id") parent_id st
  else st.

Definition validateUpdateRequest (body : JSValue) : Completion UpdateState :=
  if nullish body then Throw
  else
    Normal (update_parent_id (get body (js "parent_id"))
             (update_priority (get body (js "priority"))
               (update_status (get body (js "status"))
                 (update_description (get body (js "description"))
                   (update_title (get body (js "title"))
                     (mkUpdateState [] [])))))).

(** The state of [validateUpdateRequest] before its last block: the
    messages and the assignments of [title], [description], [status] and
    [priority]. *)
Definition before_parent_id (body : JSValue) : UpdateState :=
  update_priority (get body (js "priority"))
    (update_status (get body (js "status"))
      (update_description (get body (js "description"))
        (update_title (get body (js "title")) (mkUpdateState [] [])))).

(** ** The rules, field by field

    The rules of the validator as the specification words them, with the
    [parent_id] rule as the code has it (an integer of any sign). *)

(** Non-empty after trimming, and at most 200 characters. *)
Definition title_rule (v : JSValue) : bool :=
  match v with
  | JStr s => negb (strlen (trim s) =? 0) && (strlen s <=? 200)
  | _ => false
  end.

(** If present and non-null, a string of at most 1000 characters. *)
Definition description_rule (v : JSValue) : bool :=
  match v with
  | JUndefined | JNull => true
  | JStr s => strlen s <=? 1000
  | _ => false
  end.

(** If present, one of the names. *)
Definition enum_rule (names : list jsstring) (v : JSValue) : bool :=
  match v with
  | JUndefined => true
  | JStr s => existsb (str_eqb s) names
  | _ => false
  end.

(** If present and non-null, an integer. *)
Definition parent_id_rule (v : JSValue) : bool :=
  match v with
  | JUndefined | JNull => true
  | JNum q => number_is_integer q
  | _ => false
  end.

Definition one_if_broken (rule : bool) : nat := if rule then 0%nat else 1%nat.

Definition broken (rules : list bool) : nat := List.length (filter negb rules).

(** The number of rules a create payload breaks; the title is required. *)
Definition create_violations (body : JSValue) : nat :=
  broken [ title_rule (get body (js "title"));
           description_rule (get body (js "description"));
           enum_rule validStatuses (get body (js "status"));
           enum_rule validPriorities (get body (js "priority"));
           parent_id_rule (get body (js "parent_id")) ].

(** The number of rules an update payload breaks; every field is optional. *)
Definition update_violations (body : JSValue) : nat :=
  broken [ is_undefined (get body (js "title")) || title_rule (get body (js "title"));
           description_rule (get body (js "description"));
           enum_rule validStatuses (get body (js "status"));
           enum_rule validPriorities (get body (js "priority"));
           parent_id_rule (get body (js "parent_id")) ].

End Validator.
Import Validator.

(* ===================================================================== *)
(** * The task store                                                      *)
(* ===================================================================== *)

Module Store.

(** The store is a service outside the repository. What follows is its
    behaviour as far as [supabase-schema.sql] and the contract of its client
    fix it: a call resolves to a [{ data, error }] pair, [single()] fails
    unless exactly one row matches, [insert] and [update] return the rows
    they wrote, a constraint that does not hold makes the whole call fail,
    and deleting a row deletes its descendants. *)

(** ** Rows of the table [tasks] ([supabase-schema.sql]) *)

Inductive TaskStatus := pending | completed.
Inductive TaskPriority := low | medium | high.

Record Task := mkTask {
  id : Z;                         (* BIGSERIAL PRIMARY KEY *)
  title : jsstring;               (* TEXT NOT NULL *)
  description : option jsstring;  (* TEXT *)
  status : TaskStatus;            (* TEXT, CHECK (status IN ...) *)
  priority : TaskPriority;        (* TEXT, CHECK (priority IN ...) *)
  parent_id : option Z;           (* BIGINT REFERENCES tasks(id) ON DELETE CASCADE *)
  created_at : jsstring           (* TIMESTAMPTZ, as the text the client receives *)
}.

Definition status_text (s : TaskStatus) : jsstring :=
  match s with pending => js "pending" | completed => js "completed" end.

Definition priority_text (p : TaskPriority) : jsstring :=
  match p with low => js "low" | medium => js "medium" | high => js "high" end.

Definition nullable {A} (f : A -> JSValue) (o : option A) : JSValue :=
  match o with Some a => f a | None => JNull end.

(** The JSON object the client receives for a row with every column. *)
Definition row (t : Task) : list (jsstring * JSValue) :=
  [ (js "id", num (id t));
    (js "title", JStr (title t));
    (js "description", nullable JStr (description t));
    (js "status", JStr (status_text (status t)));
    (js "priority", JStr (priority_text (priority t)));
    (js "parent_id", nullable num (parent_id t));
    (js "created_at", JStr (created_at t)) ].

(** ** Requests of the client, as the handlers build them *)

Inductive StoreCall :=
  (** [from('tasks').select(columns).eq(column, value).single()] *)
| SelectSingle (columns column : jsstring) (value : JSValue)
  (** [from('tasks').select(columns).eq(column, value).order(order_by, { ascending })] *)
| SelectOrdered (columns column : jsstring) (value : JSValue)
                (order_by : jsstring) (ascending : bool)
  (** [from('tasks').update(values).eq(column, value).select()] *)
| Update (values : list (jsstring * JSValue)) (column : jsstring) (value : JSValue)
  (** [from('tasks').delete().eq(column, value)] *)
| Delete (column : jsstring) (value : JSValue)
  (** [from('tasks').insert(rows).select()] *)
| Insert (rows : list JSValue).

Record StoreError := mkStoreError { code : jsstring; message : jsstring }.

(** The [{ data, error }] pair every call resolves to. *)
Record StoreResponse := mkStoreResponse { data : JSValue; error : option StoreError }.

Definition ok (d : JSValue) : StoreResponse := mkStoreResponse d None.
Definition failed (c m : string) : StoreResponse :=
  mkStoreResponse JNull (Some (mkStoreError (js c) (js m))).

(** Calls that can change the table. *)
Definition mutating (c : StoreCall) : bool :=
  match c with
  | Update _ _ _ | Delete _ _ | Insert _ => true
  | SelectSingle _ _ _ | SelectOrdered _ _ _ _ _ => false
  end.

(** ** The table and its behaviour *)

Record Table := mkTable {
  tasks : list Task;
  next_id : Z;          (* next value of the BIGSERIAL sequence *)
  now : jsstring        (* NOW() during the request *)
}.

(** Column list of a [select]: ['*'] or names separated by commas. *)
Definition columns_of (columns : jsstring) : list jsstring :=
  map trim (split 44 columns).

Definition is_star (columns : jsstring) : bool := str_eqb (trim columns) (js "*").

(** The projection of a row on the selected columns; [None] when a column
    does not exist. *)
Fixpoint pick (names : list jsstring) (r : list (jsstring * JSValue))
  : option (list (jsstring * JSValue)) :=
  match names with
  | [] => Some []
  | n :: rest =>
    match lookup n r, pick rest r with
    | Some v, Some fs => Some ((n, v) :: fs)
    | _, _ => None
    end
  end.

Definition project (columns : jsstring) (t : Task) : option JSValue :=
  if is_star columns then Some (JObj (row t))
  else option_map JObj (pick (columns_of columns) (row t)).

Fixpoint project_all (columns : jsstring) (ts : list Task) : option (list JSValue) :=
  match ts with
  | [] => Some []
  | t :: rest =>
    match project columns t, project_all columns rest with
    | Some v, Some vs => Some (v :: vs)
    | _, _ => None
    end
  end.

(** The filter [eq(column, value)]: the handlers filter on the BIGINT
    columns [id] and [parent_id] with a number. *)
Definition as_bigint (v : JSValue) : option Z :=
  match v with
  | JNum q => if number_is_integer q then Some (Qnum q / Zpos (Qden q))%Z else None
  | _ => None
  end.

Definition eq_filter (column : jsstring) (z : Z) : option (Task -> bool) :=
  if str_eqb column (js "id") then Some (fun t => (id t =? z)%Z)
  else if str_eqb column (js "parent_id") then
    Some (fun t => match parent_id t with Some p => (p =? z)%Z | None => false end)
  else None.

(** Rows in the order of a text column, by insertion sort. *)
Fixpoint str_leb (a b : jsstring) : bool :=
  match a, b with
  | [], _ => true
  | _ :: _, [] => false
  | x :: a', y :: b' => if x <? y then true else if y <? x then false else str_leb a' b'
  end.

Fixpoint insert_by (le : Task -> Task -> bool) (t : Task) (ts : list Task) : list Task :=
  match ts with
  | [] => [t]
  | u :: rest => if le t u then t :: ts else u :: insert_by le t rest
  end.

Definition sort_by (le : Task -> Task -> bool) (ts : list Task) : list Task :=
  fold_right (insert_by le) [] ts.

Definition order_rows (order_by : jsstring) (ascending : bool) (ts : list Task)
  : option (list Task) :=
  if str_eqb order_by (js "created_at") then
    Some (sort_by (fun a b => if ascending then str_leb (created_at a) (created_at b)
                              else str_leb (created_at b) (created_at a)) ts)
  else None.

Definition has_id (z : Z) (ts : list Task) : bool :=
  existsb (fun t => (id t =? z)%Z) ts.

(** One assignment of an [update], checked against the column's type and
    constraints; [None] when the store refuses it. *)
Definition status_of (v : JSValue) : option TaskStatus :=
  match v with
  | JStr s => if str_eqb s (js "pending") then Some pending
              else if str_eqb s (js "completed") then Some completed else None
  | _ => None
  end.

Definition priority_of (v : JSValue) : option TaskPriority :=
  match v with
  | JStr s => if str_eqb s (js "low") then Some low
              else if str_eqb s (js "medium") then Some medium
              else if str_eqb s (js "high") then Some high else None
  | _ => None
  end.

Definition assign_column (all : list Task) (k : jsstring) (v : JSValue) (t : Task)
  : option Task :=
  if str_eqb k (js "title") then
    match v with
    | JStr s => Some (mkTask (id t) s (description t) (status t) (priority t)
                             (parent_id t) (created_at t))
    | _ => None
    end
  else if str_eqb k (js "description") then
    match v with
    | JStr s => Some (mkTask (id t) (title t) (Some s) (status t) (priority t)
                             (parent_id t) (created_at t))
    | JNull => Some (mkTask (id t) (title t) None (status t) (priority t)
                            (parent_id t) (created_at t))
    | _ => None
    end
  else if str_eqb k (js "status") then
    match status_of v with
    | Some s => Some (mkTask (id t) (title t) (description t) s (priority t)
                             (parent_id t) (created_at t))
    | None => None
    end
  else if str_eqb k (js "priority") then
    match priority_of v with
    | Some p => Some (mkTask (id t) (title t) (description t) (status t) p
                             (parent_id t) (created_at t))
    | None => None
    end
  else if str_eqb k (js "parent_id") then
    match v with
    | JNull => Some (mkTask (id t) (title t) (description t) (status t) (priority t)
                            None (created_at t))
    | _ =>
      match as_bigint v with
      | Some p => if has_id p all
                  then Some (mkTask (id t) (title t) (description t) (status t)
                                    (priority t) (Some p) (created_at t))
                  else None
      | None => None
      end
    end
  else None.

Fixpoint assign_columns (all : list Task) (values : list (jsstring * JSValue)) (t : Task)
  : option Task :=
  match values with
  | [] => Some t
  | (k, v) :: rest =>
    match assign_column all k v t with
    | Some t' => assign_columns all rest t'
    | None => None
    end
  end.

(** The table after an update of the rows selected by [f], with the rows
    that changed; [None] when a row is refused. *)
Fixpoint update_rows (all : list Task) (values : list (jsstring * JSValue))
         (f : Task -> bool) (ts : list Task) : option (list Task * list Task) :=
  match ts with
  | [] => Some ([], [])
  | t :: rest =>
    match update_rows all values f rest with
    | None => None
    | Some (ts', changed) =>
      if f t then
        match assign_columns all values t with
        | Some t' => Some (t' :: ts', t' :: changed)
        | None => None
        end
      else Some (t :: ts', changed)
    end
  end.

(** ON DELETE CASCADE: the rows whose parent is gone go too, as long as
    there are any. *)
Fixpoint cascade (fuel : nat) (gone : list Z) (ts : list Task) : list Task :=
  match fuel with
  | O => ts
  | S fuel' =>
    let orphan t :=
      match parent_id t with
      | Some p => existsb (Z.eqb p) gone
      | None => false
      end in
    match filter orphan ts with
    | [] => ts
    | dead => cascade fuel' (map id dead) (filter (fun t => negb (orphan t)) ts)
    end
  end.

Definition delete_rows (f : Task -> bool) (ts : list Task) : list Task :=
  let dead := filter f ts in
  cascade (List.length ts) (map id dead) (filter (fun t => negb (f t)) ts).

(** One row of a bulk insert: the defaults of the schema apply to the
    columns that are absent. *)
Definition new_task (all : list Task) (fresh : Z) (stamp : jsstring) (v : JSValue)
  : option Task :=
  match v with
  | JObj fields =>
    match lookup (js "title") fields with
    | Some (JStr s) =>
      assign_columns all
        (filter (fun kv => negb (str_eqb (fst kv) (js "title"))) fields)
        (mkTask fresh s None pending medium None stamp)
    | _ => None
    end
  | _ => None
  end.

Fixpoint new_tasks (all : list Task) (fresh : Z) (stamp : jsstring) (vs : list JSValue)
  : option (list Task) :=
  match vs with
  | [] => Some []
  | v :: rest =>
    match new_task all fresh stamp v, new_tasks all (fresh + 1)%Z stamp rest with
    | Some t, Some ts => Some (t :: ts)
    | _, _ => None
    end
  end.

Definition no_rows : StoreResponse :=
  failed "PGRST116" "JSON object requested, multiple (or no) rows returned".
Definition bad_value : StoreResponse :=
  failed "22P02" "invalid input syntax for type bigint".
Definition bad_column : StoreResponse :=
  failed "42703" "column does not exist".
Definition refused : StoreResponse :=
  failed "23000" "integrity constraint violation".

Definition with_filter (column : jsstring) (value : JSValue)
           (k : (Task -> bool) -> StoreResponse * Table) (tb : Table)
  : StoreResponse * Table :=
  match as_bigint value with
  | None => (bad_value, tb)
  | Some z =>
    match eq_filter column z with
    | None => (bad_column, tb)
    | Some f => k f
    end
  end.

(** What the table answers to a call, and the table afterwards. *)
Definition exec (c : StoreCall) (tb : Table) : StoreResponse * Table :=
  match c with
  | SelectSingle columns column value =>
    with_filter column value (fun f =>
      match filter f (tasks tb) with
      | [t] => match project columns t with
               | Some v => (ok v, tb)
               | None => (bad_column, tb)
               end
      | _ => (no_rows, tb)
      end) tb
  | SelectOrdered columns column value order_by ascending =>
    with_filter column value (fun f =>
      match order_rows order_by ascending (filter f (tasks tb)) with
      | Some ts => match project_all columns ts with
                   | Some vs => (ok (JArr vs), tb)
                   | None => (bad_column, tb)
                   end
      | None => (bad_column, tb)
      end) tb
  | Update values column value =>
    with_filter column value (fun f =>
      match update_rows (tasks tb) values f (tasks tb) with
      | Some (ts', changed) =>
        (ok (JArr (map (fun t => JObj (row t)) changed)),
         mkTable ts' (next_id tb) (now tb))
      | None => (refused, tb)
      end) tb
  | Delete column value =>
    with_filter column value (fun f =>
      (ok JNull, mkTable (delete_rows f (tasks tb)) (next_id tb) (now tb))) tb
  | Insert rows =>
    match new_tasks (tasks tb) (next_id tb) (now tb) rows with
    | Some ts =>
      (ok (JArr (map (fun t => JObj (row t)) ts)),
       mkTable (tasks tb ++ ts) (next_id tb + Z.of_nat (List.length ts))%Z (now tb))
    | None => (refused, tb)
    end
  end.

(** The identifiers come from the BIGSERIAL sequence: they are positive
    and below its next value. *)
Definition serial (tb : Table) : Prop :=
  (0 < next_id tb)%Z
  /\ Forall (fun t => (0 < id t < next_id tb)%Z) (tasks tb).

End Store.
Import Store.

(* ===================================================================== *)
(** * Handlers as interactions                                            *)
(* ===================================================================== *)

Module Http.

(** What the text generator answers: the call throws, or resolves with
    [choices[0]?.message?.content] ([None] for a missing content). *)
Inductive AiOutcome :=
| AiThrows (message : option jsstring)
| AiContent (content : option jsstring).

(** A handler either answers, or awaits the store or the generator and goes
    on with the result. *)
Inductive Prog (A : Type) : Type :=
| Ret (a : A)
| Call (c : StoreCall) (k : StoreResponse -> Prog A)
| Chat (prompt : jsstring) (k : AiOutcome -> Prog A).
Arguments Ret {A} a.
Arguments Call {A} c k.
Arguments Chat {A} prompt k.

(** The world a request runs in: the table, the store failures to come (one
    entry per call, [Some e] makes the call fail with [e] before it reaches
    the table), what the generator will answer, and the calls issued so far. *)
Record World := mkWorld {
  table : Table;
  faults : list (option StoreError);
  generator : AiOutcome;
  journal : list StoreCall
}.

Definition answer (c : StoreCall) (w : World) : StoreResponse * World :=
  match faults w with
  | Some e :: rest =>
    (mkStoreResponse JNull (Some e),
     mkWorld (table w) rest (generator w) (journal w ++ [c]))
  | None :: rest =>
    let (r, tb) := exec c (table w) in
    (r, mkWorld tb rest (generator w) (journal w ++ [c]))
  | [] =>
    let (r, tb) := exec c (table w) in
    (r, mkWorld tb [] (generator w) (journal w ++ [c]))
  end.

Fixpoint run {A} (p : Prog A) (w : World) : A * World :=
  match p with
  | Ret a => (a, w)
  | Call c k => let (r, w') := answer c w in run (k r) w'
  | Chat _ k => run (k (generator w)) w
  end.

(** [Returns p calls a]: for some answers of the store and of the
    generator, whatever they are, [p] issues the store calls [calls] in
    this order and then answers [a]. *)
Inductive Returns {A : Type} : Prog A -> list StoreCall -> A -> Prop :=
| Returns_Ret (a : A) :
    Returns (Ret a) [] a
| Returns_Call (c : StoreCall) (k : StoreResponse -> Prog A) (r : StoreResponse)
               (calls : list StoreCall) (a : A) :
    Returns (k r) calls a -> Returns (Call c k) (c :: calls) a
| Returns_Chat (prompt : jsstring) (k : AiOutcome -> Prog A) (o : AiOutcome)
               (calls : list StoreCall) (a : A) :
    Returns (k o) calls a -> Returns (Chat prompt k) calls a.

(** The request, as far as the handlers read it. *)
Inductive QueryValue :=
| QUndefined
| QString (s : jsstring)
| QArray (l : list jsstring).

Record Request := mkRequest {
  method : jsstring;
  query_id : QueryValue;    (* [req.query.id] *)
  body : JSValue            (* [req.body] *)
}.

(** [res.status(statusCode).json({ success, data, error })], with the
    [Allow] header when it was set. *)
Record Response := mkResponse {
  statusCode : N;
  allow : option (list jsstring);
  success : bool;
  payload : JSValue;        (* the [data] member *)
  failure : JSValue         (* the [error] member *)
}.

Definition successResponse (d : JSValue) (status : N) : Response :=
  mkResponse status None true d JNull.

Definition errorResponse (m : jsstring) (status : N) : Response :=
  mkResponse status None false JNull (JStr m).

Definition setHeaderAllow (methods : list jsstring) (r : Response) : Response :=
  mkResponse (statusCode r) (Some methods) (success r) (payload r) (failure r).

End Http.
Import Http.

(* ===================================================================== *)
(** * [pages/api/tasks/[id].ts]                                           *)
(* ===================================================================== *)

Module TaskById.

Definition is_digit (c : char16) : bool := (48 <=? c) && (c <=? 57).

(** The value of a digit in the given radix. *)
Definition digit_value (radix : N) (c : char16) : option N :=
  let d := if is_digit c then Some (c - 48)
           else if (97 <=? c) && (c <=? 122) then Some (c - 97 + 10)
           else if (65 <=? c) && (c <=? 90) then Some (c - 65 + 10)
           else None in
  match d with
  | Some n => if n <? radix then Some n else None
  | None => None
  end.

(** The value of the longest prefix of digits; [acc] is the value read so
    far, [None] before the first digit. *)
Fixpoint digits_prefix (radix : N) (s : jsstring) (acc : option N) : option N :=
  match s with
  | [] => acc
  | c :: r =>
    match digit_value radix c with
    | Some d => digits_prefix radix r (Some (match acc with Some a => a | None => 0 end * radix + d))
    | None => acc
    end
  end.

(** The Number value of a natural number: the nearest double, which keeps
    the 53 leading binary digits and rounds the rest to nearest, a tie to
    the even neighbour.  Every natural number below [2 ^ 53] is its own
    value.  The doubles end below [2 ^ 1024], where the code goes on with
    [Infinity]; the numbers here have no such value, and nothing below is
    stated of an identifier that large. *)
Definition to_double (n : N) : N :=
  let bits := N.size n in
  if bits <=? 53 then n
  else
    let shift := bits - 53 in
    let kept := N.shiftr n shift in
    let rest := N.land n (N.ones shift) in
    let half := N.shiftl 1 (shift - 1) in
    let up := (half <? rest) || ((rest =? half) && N.odd kept) in
    N.shiftl (if up then kept + 1 else kept) shift.

(** [parseInt(s)] without a radix; [None] is NaN.  The result is a Number:
    the double nearest to the digits read. *)
Definition parseInt (s : jsstring) : option Z :=
  let s1 := drop_while is_space s in
  let negative := match s1 with c :: _ => c =? 45 | [] => false end in
  let s2 := match s1 with
            | c :: r => if (c =? 45) || (c =? 43) then r else s1
            | [] => s1
            end in
  let hex := match s2 with
             | c0 :: c1 :: _ => (c0 =? 48) && ((c1 =? 120) || (c1 =? 88))
             | _ => false
             end in
  let s3 := if hex then skipn 2 s2 else s2 in
  match digits_prefix (if hex then 16 else 10) s3 None with
  | None => None
  | Some n =>
    let value := to_double n in
    Some (if negative then - Z.of_N value else Z.of_N value)%Z
  end.

(** [validateId]: [None] is [null]. *)
Definition validateId (id : QueryValue) : option Z :=
  match id with
  | QString [] => None
  | QString s =>
    match parseInt s with
    | None => None
    | Some numId => if (numId <=? 0)%Z then None else Some numId
    end
  | QUndefined | QArray _ => None
  end.

(** The text of an identifier after its leading white space and one sign,
    where [parseInt] looks for digits. *)
Definition unsigned_part (s : jsstring) : jsstring :=
  match drop_while is_space s with
  | c :: r => if (c =? 45) || (c =? 43) then r else c :: r
  | [] => []
  end.

Definition starts_with_digit (s : jsstring) : bool :=
  match s with c :: _ => is_digit c | [] => false end.

Definition msg_bad_id : jsstring := js "无效的任务 ID，必须是正整数".
Definition msg_not_found : jsstring := js "任务不存在".
Definition msg_get_failed : jsstring := js "获取任务失败: ".
Definition msg_nothing_to_update : jsstring := js "没有提供任何要更新的字段".
Definition msg_self_parent : jsstring := js "任务不能成为自己的子任务".
Definition msg_parent_missing : jsstring := js "父任务不存在".
Definition msg_cycle : jsstring := js "不能创建循环的父子关系".
Definition msg_update_failed : jsstring := js "更新任务失败: ".
Definition msg_delete_failed : jsstring := js "删除任务失败: ".
Definition msg_deleted : jsstring := js "任务已删除".
Definition msg_method : jsstring := js "不支持的请求方法: ".
Definition msg_internal : jsstring := js "服务器内部错误".

(** [{ ...v }] for an object; nothing is copied from [null]. *)
Definition spread (v : JSValue) : list (jsstring * JSValue) :=
  match v with JObj fields => fields | _ => [] end.

(** [v.length] and [v[0]] for the arrays the store returns. *)
Definition length_is_zero (v : JSValue) : bool :=
  match v with
  | JArr items => Nat.eqb (List.length items) 0
  | JStr s => Nat.eqb (List.length s) 0
  | _ => strict_eq (get v (js "length")) (num 0)
  end.

Definition first (v : JSValue) : JSValue :=
  match v with
  | JArr items => nth 0 items JUndefined
  | _ => get v (js "0")
  end.

Definition is_some {A} (o : option A) : bool :=
  match o with Some _ => true | None => false end.

(** The GET branch. *)
Definition handle_get (taskId : Z) : Prog Response :=
  Call (SelectSingle (js "*") (js "id") (num taskId)) (fun r =>
    match error r with
    | Some e =>
      if str_eqb (code e) (js "PGRST116")
      then Ret (errorResponse msg_not_found 404)
      else Ret (errorResponse (msg_get_failed ++ message e) 500)
    | None =>
      Call (SelectOrdered (js "*") (js "parent_id") (num taskId) (js "created_at") true)
        (fun r2 =>
          let subtasks := data r2 in
          let taskWithSubtasks :=
            JObj (set (js "subtasks") (if truthy subtasks then subtasks else JArr [])
                      (spread (data r))) in
          Ret (successResponse taskWithSubtasks 200))
    end).

(** The store update that ends the PATCH branch. *)
Definition apply_update (taskId : Z) (updateData : list (jsstring * JSValue))
  : Prog Response :=
  Call (Update updateData (js "id") (num taskId)) (fun r =>
    match error r with
    | Some e => Ret (errorResponse (msg_update_failed ++ message e) 500)
    | None =>
      if negb (truthy (data r)) || length_is_zero (data r)
      then Ret (errorResponse msg_not_found 404)
      else Ret (successResponse (first (data r)) 200)
    end).

(** The PATCH branch. *)
Definition handle_patch (taskId : Z) (body : JSValue) : Prog Response :=
  match validateUpdateRequest body with
  | Throw => Ret (errorResponse msg_internal 500)
  | Normal st =>
    let errors := Validator.errors st in
    let updateData := Validator.updateData st in
    if Nat.ltb 0 (List.length errors)
    then Ret (errorResponse (join (js "; ") errors) 400)
    else if Nat.eqb (List.length updateData) 0
    then Ret (errorResponse msg_nothing_to_update 400)
    else if strict_eq (get (JObj updateData) (js "parent_id")) (num taskId)
    then Ret (errorResponse msg_self_parent 400)
    else if truthy (get (JObj updateData) (js "parent_id")) then
      Call (SelectSingle (js "id, parent_id") (js "id")
                         (get (JObj updateData) (js "parent_id")))
        (fun r =>
          let parentTask := data r in
          if is_some (error r) || negb (truthy parentTask)
          then Ret (errorResponse msg_parent_missing 400)
          else if strict_eq (get parentTask (js "parent_id")) (num taskId)
          then Ret (errorResponse msg_cycle 400)
          else apply_update taskId updateData)
    else apply_update taskId updateData
  end.

(** The DELETE branch. *)
Definition handle_delete (taskId : Z) : Prog Response :=
  Call (SelectSingle (js "id, title") (js "id") (num taskId)) (fun r =>
    let existingTask := data r in
    if is_some (error r) || negb (truthy existingTask)
    then Ret (errorResponse msg_not_found 404)
    else
      Call (Delete (js "id") (num taskId)) (fun r2 =>
        match error r2 with
        | Some e => Ret (errorResponse (msg_delete_failed ++ message e) 500)
        | None =>
          Ret (successResponse
                 (JObj [(js "message", JStr msg_deleted); (js "deleted", existingTask)])
                 200)
        end)).

(** The default export. *)
Definition handler (req : Request) : Prog Response :=
  match validateId (query_id req) with
  | None => Ret (errorResponse msg_bad_id 400)
  | Some taskId =>
    if (taskId =? 0)%Z then Ret (errorResponse msg_bad_id 400)
    else if str_eqb (method req) (js "GET") then handle_get taskId
    else if str_eqb (method req) (js "PATCH") then handle_patch taskId (body req)
    else if str_eqb (method req) (js "DELETE") then handle_delete taskId
    else
      Ret (setHeaderAllow [js "GET"; js "PATCH"; js "DELETE"]
             (errorResponse (msg_method ++ method req) 405))
  end.

End TaskById.
Import TaskById.

(* ===================================================================== *)
(** * [JSON.parse]                                                        *)
(* ===================================================================== *)

Module Json.

Definition json_space (c : char16) : bool :=
  (c =? 32) || (c =? 9) || (c =? 10) || (c =? 13).

Definition skip_ws (s : jsstring) : jsstring := drop_while json_space s.

Fixpoint span (p : char16 -> bool) (s : jsstring) : jsstring * jsstring :=
  match s with
  | [] => ([], [])
  | c :: r => if p c then let (a, b) := span p r in (c :: a, b) else ([], s)
  end.

Fixpoint starts_with (p s : jsstring) : bool :=
  match p, s with
  | [], _ => true
  | x :: p', y :: s' => (x =? y) && starts_with p' s'
  | _ :: _, [] => false
  end.

Definition hex_value (c : char16) : option N :=
  if is_digit c then Some (c - 48)
  else if (97 <=? c) && (c <=? 102) then Some (c - 97 + 10)
  else if (65 <=? c) && (c <=? 70) then Some (c - 65 + 10)
  else None.

Definition hex4 (a b c d : char16) : option char16 :=
  match hex_value a, hex_value b, hex_value c, hex_value d with
  | Some x, Some y, Some z, Some w => Some (((x * 16 + y) * 16 + z) * 16 + w)
  | _, _, _, _ => None
  end.

(** The character an escape letter stands for. *)
Definition escape (c : char16) : option char16 :=
  if c =? 34 then Some 34            (* quotation mark *)
  else if c =? 92 then Some 92       (* reverse solidus *)
  else if c =? 47 then Some 47       (* solidus *)
  else if c =? 98 then Some 8        (* b: backspace *)
  else if c =? 102 then Some 12      (* f: form feed *)
  else if c =? 110 then Some 10      (* n: line feed *)
  else if c =? 114 then Some 13      (* r: carriage return *)
  else if c =? 116 then Some 9       (* t: tab *)
  else None.

(** The rest of a string literal after its opening quote; [acc] holds the
    characters read so far, last first. *)
Fixpoint parse_string (s : jsstring) (acc : jsstring) : option (jsstring * jsstring) :=
  match s with
  | [] => None
  | c :: r =>
    if c =? 34 then Some (rev acc, r)
    else if c <? 32 then None
    else if c =? 92 then
      match r with
      | [] => None
      | e :: r1 =>
        if e =? 117 then
          match r1 with
          | h1 :: h2 :: h3 :: h4 :: r2 =>
            match hex4 h1 h2 h3 h4 with
            | Some u => parse_string r2 (u :: acc)
            | None => None
            end
          | _ => None
          end
        else
          match escape e with
          | Some x => parse_string r1 (x :: acc)
          | None => None
          end
      end
    else parse_string r (c :: acc)
  end.

Definition digits_value (ds : jsstring) : N :=
  fold_left (fun a c => a * 10 + (c - 48)) ds 0.

(** A number literal: [-? int frac? exp?]. *)
Definition parse_number (s : jsstring) : option (Q * jsstring) :=
  let negative := match s with c :: _ => c =? 45 | [] => false end in
  let s1 := if negative then skipn 1 s else s in
  let (int, s2) := span is_digit s1 in
  let leading_zero := match int with c :: _ :: _ => c =? 48 | _ => false end in
  match int with
  | [] => None
  | _ =>
    if leading_zero then None
    else
      let has_frac := match s2 with c :: _ => c =? 46 | [] => false end in
      let (frac, s3) := if has_frac then span is_digit (skipn 1 s2) else ([], s2) in
      if has_frac && Nat.eqb (List.length frac) 0 then None
      else
        let has_exp := match s3 with c :: _ => (c =? 101) || (c =? 69) | [] => false end in
        let s4 := if has_exp then skipn 1 s3 else s3 in
        let exp_negative := has_exp && match s4 with c :: _ => c =? 45 | [] => false end in
        let exp_signed := has_exp && match s4 with c :: _ => (c =? 45) || (c =? 43) | [] => false end in
        let s5 := if exp_signed then skipn 1 s4 else s4 in
        let (ex, s6) := if has_exp then span is_digit s5 else ([], s5) in
        if has_exp && Nat.eqb (List.length ex) 0 then None
        else
          let mantissa := Z.of_N (digits_value (int ++ frac)) in
          let signed := if negative then (- mantissa)%Z else mantissa in
          let e := ((if exp_negative then - Z.of_N (digits_value ex) else Z.of_N (digits_value ex))
                    - Z.of_nat (List.length frac))%Z in
          let q := if (0 <=? e)%Z then Qmake (signed * 10 ^ e) 1
                   else Qmake signed (Z.to_pos (10 ^ (- e))) in
          Some (q, s6)
  end.

(** A value, the elements of an array after its first element started, and
    the members of an object; [fuel] bounds the nesting of the calls. *)
Fixpoint parse_value (fuel : nat) (s : jsstring) : option (JSValue * jsstring) :=
  match fuel with
  | O => None
  | S fuel' =>
    match skip_ws s with
    | [] => None
    | c :: r =>
      if c =? 91 then
        match skip_ws r with
        | c1 :: r1 => if c1 =? 93 then Some (JArr [], r1) else parse_elements fuel' r []
        | [] => None
        end
      else if c =? 123 then
        match skip_ws r with
        | c1 :: r1 => if c1 =? 125 then Some (JObj [], r1) else parse_members fuel' r []
        | [] => None
        end
      else if c =? 34 then
        match parse_string r [] with
        | Some (str, r1) => Some (JStr str, r1)
        | None => None
        end
      else if starts_with (js "true") (c :: r) then Some (JBool true, skipn 4 (c :: r))
      else if starts_with (js "false") (c :: r) then Some (JBool false, skipn 5 (c :: r))
      else if starts_with (js "null") (c :: r) then Some (JNull, skipn 4 (c :: r))
      else
        match parse_number (c :: r) with
        | Some (q, r1) => Some (JNum q, r1)
        | None => None
        end
    end
  end
with parse_elements (fuel : nat) (s : jsstring) (acc : list JSValue)
  : option (JSValue * jsstring) :=
  match fuel with
  | O => None
  | S fuel' =>
    match parse_value fuel' s with
    | None => None
    | Some (v, r) =>
      match skip_ws r with
      | c :: r1 =>
        if c =? 44 then parse_elements fuel' r1 (v :: acc)
        else if c =? 93 then Some (JArr (rev (v :: acc)), r1)
        else None
      | [] => None
      end
    end
  end
with parse_members (fuel : nat) (s : jsstring) (acc : list (jsstring * JSValue))
  : option (JSValue * jsstring) :=
  match fuel with
  | O => None
  | S fuel' =>
    match skip_ws s with
    | c :: r =>
      if c =? 34 then
        match parse_string r [] with
        | None => None
        | Some (key, r1) =>
          match skip_ws r1 with
          | c1 :: r2 =>
            if c1 =? 58 then
              match parse_value fuel' r2 with
              | None => None
              | Some (v, r3) =>
                match skip_ws r3 with
                | c2 :: r4 =>
                  if c2 =? 44 then parse_members fuel' r4 (set key v acc)
                  else if c2 =? 125 then Some (JObj (set key v acc), r4)
                  else None
                | [] => None
                end
              end
            else None
          | [] => None
          end
        end
      else None
    | [] => None
    end
  end.

(** [JSON.parse(text)]; [None] when it throws a SyntaxError. Two units of
    fuel per character cover every nesting a text of that length can have. *)
Definition parse (text : jsstring) : option JSValue :=
  match parse_value (2 * List.length text + 2) text with
  | Some (v, rest) => match skip_ws rest with [] => Some v | _ => None end
  | None => None
  end.

End Json.

(* ===================================================================== *)
(** * [pages/api/tasks/breakdown.ts]                                      *)
(* ===================================================================== *)

Module Breakdown.

Import Json.

(** ** The regular expressions of the handler *)

Definition lower (c : char16) : char16 :=
  if (65 <=? c) && (c <=? 90) then c + 32 else c.

(** A prefix test that ignores the case of ASCII letters (flag [i]). *)
Fixpoint starts_with_ci (p s : jsstring) : bool :=
  match p, s with
  | [], _ => true
  | x :: p', y :: s' => (lower x =? lower y) && starts_with_ci p' s'
  | _ :: _, [] => false
  end.

Definition ends_with (p s : jsstring) : bool := starts_with (rev p) (rev s).

Definition fence : jsstring := js "```".

(** [s.replace(/^```json\s*/i, '')] *)
Definition strip_json_fence (s : jsstring) : jsstring :=
  if starts_with_ci (js "```json") s then drop_while is_space (skipn 7 s) else s.

(** [s.replace(/^```\s*/i, '')] *)
Definition strip_fence (s : jsstring) : jsstring :=
  if starts_with fence s then drop_while is_space (skipn 3 s) else s.

(** [s.replace(/\s*```$/i, '')]: the leftmost match takes the whole run of
    white space before the closing fence. *)
Definition strip_closing_fence (s : jsstring) : jsstring :=
  if ends_with fence s
  then drop_while_end is_space (firstn (List.length s - 3) s)
  else s.

(** The shortest prefix of [s] that ends with [c]. *)
Fixpoint up_to (c : char16) (s : jsstring) : option jsstring :=
  match s with
  | [] => None
  | x :: r => if x =? c then Some [x] else option_map (cons x) (up_to c r)
  end.

(** [s.match(/\[[\s\S]*?\]/)]: from the first opening bracket to the first
    closing bracket after it. *)
Definition match_array (s : jsstring) : option jsstring :=
  match drop_while (fun c => negb (c =? 91)) s with
  | [] => None
  | b :: r => option_map (cons b) (up_to 93 r)
  end.

(** [s.replace(/pat/g, by)] for a literal, non-empty pattern; [skip] counts
    the characters of a match still to be dropped. *)
Fixpoint replace_all_from (starts : jsstring -> jsstring -> bool) (pat by_ : jsstring)
         (skip : nat) (s : jsstring) : jsstring :=
  match s with
  | [] => []
  | c :: r =>
    match skip with
    | S k => replace_all_from starts pat by_ k r
    | O =>
      if starts pat s
      then by_ ++ replace_all_from starts pat by_ (List.length pat - 1) r
      else c :: replace_all_from starts pat by_ 0 r
    end
  end.

Definition replace_all (starts : jsstring -> jsstring -> bool) (pat by_ s : jsstring)
  : jsstring :=
  replace_all_from starts pat by_ 0 s.

(** The first class of the clean-up expression: quotation mark, apostrophe,
    opening bracket, comma, white space. *)
Definition opening_junk (c : char16) : bool :=
  (c =? 34) || (c =? 39) || (c =? 91) || (c =? 44) || is_space c.

(** Its second class: quotation mark, apostrophe, closing bracket, white
    space, comma. *)
Definition closing_junk (c : char16) : bool :=
  (c =? 34) || (c =? 39) || (c =? 93) || is_space c || (c =? 44).

(** The clean-up expression [^A+|B+$] with flag [g], replaced by nothing:
    the run of the first class at the start goes, then the run of the
    second class at the end of what is left. *)
Definition strip_junk (s : jsstring) : jsstring :=
  drop_while_end closing_junk (drop_while opening_junk s).

(** The class [[\d\-•\*\.]] *)
Definition marker (c : char16) : bool :=
  is_digit c || (c =? 45) || (c =? 0x2022) || (c =? 42) || (c =? 46).

(** [s.replace(/^[\d\-•\*\.]\s*/, '')]: one marker character and the
    white space after it. *)
Definition strip_marker (s : jsstring) : jsstring :=
  match s with
  | c :: r => if marker c then drop_while is_space r else s
  | [] => s
  end.

(** [line.match(/^(```|步骤|Step|Task|JSON)/i)] *)
Definition is_heading (line : jsstring) : bool :=
  starts_with_ci fence line || starts_with_ci (js "步骤") line
  || starts_with_ci (js "Step") line || starts_with_ci (js "Task") line
  || starts_with_ci (js "JSON") line.

(** [line.match(/^[\[\],]+$/)] *)
Definition only_brackets (line : jsstring) : bool :=
  match line with
  | [] => false
  | _ => forallb (fun c => (c =? 91) || (c =? 93) || (c =? 44)) line
  end.

Definition non_empty (s : jsstring) : bool :=
  match s with [] => false | _ => true end.

(** ** The three layers of the reply parser *)

(** The last attempt: the steps, line by line. *)
Definition line_steps (aiResponse : jsstring) : list jsstring :=
  let lines :=
    filter (fun line => negb (is_heading line))
      (filter non_empty (map trim (split 10 aiResponse))) in
  firstn 5
    (filter (fun line => (3 <? strlen line) && negb (only_brackets line))
       (map (fun line => trim (strip_marker (strip_junk line))) lines)).

(** The handler of the first [catch]: the bracketed part of the raw reply,
    and the lines of the reply when that part is there but does not parse.
    Without a bracketed part [subtasks] keeps its initial value [[]]. *)
Definition second_attempt (aiResponse : jsstring) : JSValue :=
  match match_array aiResponse with
  | Some arrayMatch =>
    let arrayStr :=
      trim (replace_all starts_with fence []
              (replace_all starts_with_ci (js "```json") [] arrayMatch)) in
    match parse arrayStr with
    | Some v => v
    | None => JArr (map JStr (line_steps aiResponse))
    end
  | None => JArr []
  end.

Definition is_array (v : JSValue) : bool :=
  match v with JArr _ => true | _ => false end.

(** [cleanedResponse]: the reply without the marks of a code block. *)
Definition clean_response (aiResponse : jsstring) : jsstring :=
  trim (strip_closing_fence (strip_fence (strip_json_fence (trim aiResponse)))).

(** The value of [subtasks] after the nested [try] blocks. *)
Definition parse_subtasks (aiResponse : jsstring) : JSValue :=
  let cleanedResponse := clean_response aiResponse in
  match parse cleanedResponse with
  | Some parsed =>
    if is_array parsed then parsed
    else
      match match_array cleanedResponse with
      | Some arrayMatch =>
        match parse arrayMatch with
        | Some v => v
        | None => second_attempt aiResponse
        end
      | None => JArr []
      end
  | None => second_attempt aiResponse
  end.

(** The clean-up of one title; a value that is not a string has no
    [replace] method and the call throws. *)
Definition clean_title (task : JSValue) : Completion jsstring :=
  match task with
  | JStr s => Normal (trim (replace_all starts_with [92; 34] [34] (strip_junk s)))
  | _ => Throw
  end.

Fixpoint clean_titles (tasks : list JSValue) : Completion (list jsstring) :=
  match tasks with
  | [] => Normal []
  | t :: rest =>
    match clean_title t, clean_titles rest with
    | Normal s, Normal ss => Normal (s :: ss)
    | _, _ => Throw
    end
  end.

(** [subtasks.map(...).filter(task => task.length > 0)] *)
Definition clean_subtasks (subtasks : JSValue) : Completion (list jsstring) :=
  match subtasks with
  | JArr items =>
    match clean_titles items with
    | Normal ss => Normal (filter non_empty ss)
    | Throw => Throw
    end
  | _ => Throw
  end.

(** ** The handler *)

Definition decimal (n : nat) : jsstring :=
  js (NilZero.string_of_uint (Nat.to_uint n)).

Definition msg_method_not_allowed (m : jsstring) : jsstring :=
  js "Method " ++ m ++ js " not allowed".
Definition msg_bad_task_id : jsstring := js "taskId must be a positive number".
Definition msg_task_not_found : jsstring := js "Task not found".
Definition msg_bad_title : jsstring :=
  js "taskTitle is required and must be a non-empty string".
Definition msg_missing_subject : jsstring := js "Either taskId or taskTitle is required".
Definition msg_no_key : jsstring := js "DeepSeek API Key is not configured".
Definition msg_api_failed (m : jsstring) : jsstring :=
  js "AI API 调用失败: " ++ m ++ js "。请检查 DEEPSEEK_API_KEY 是否正确配置。".
Definition msg_unknown : jsstring := js "未知错误".
Definition msg_no_reply : jsstring := js "AI did not return a valid response".
Definition msg_no_subtasks : jsstring :=
  js "AI did not return valid subtasks. Please try again.".
Definition msg_too_few (n : nat) : jsstring :=
  js "AI only returned " ++ decimal n ++ js " subtasks, expected 3-5".
Definition msg_insert_failed : jsstring := js "Failed to create subtasks".

Definition prompt_for (finalTaskTitle : jsstring) : jsstring :=
  js "请将以下任务拆解成 3-5 个具体可执行的小步骤。要求：
1. 每个步骤应该是具体、可操作的
2. 步骤之间要有逻辑顺序
3. 返回格式为 JSON 数组，每个元素是一个步骤的标题
4. 只返回 JSON 数组，不要其他文字说明

任务：" ++ finalTaskTitle ++ jsq "

请返回 JSON 格式的数组，例如：['步骤1', '步骤2', '步骤3']".

Definition description_for (finalTaskTitle : jsstring) : jsstring :=
  js "由 AI 从「" ++ finalTaskTitle ++ js "」拆解生成".

Section Handler.

(** [lib/config] is not part of the sources at hand: the key is a parameter. *)
Variable DEEPSEEK_API_KEY : JSValue.

(** The coercions of the language on values the handler does not expect (a
    [taskId] that is an array or an object, a stored title that is not a
    string) and the text of the error the engine throws are left open. *)
Variable ToNumber : JSValue -> Completion (option Q).
Variable ToString : JSValue -> jsstring.
Variable thrown_message : jsstring.

(** [`${v}`] *)
Definition text_of (v : JSValue) : jsstring :=
  match v with JStr s => s | _ => ToString v end.

(** [isNaN(v) || v <= 0] for a value that is not a string. *)
Definition not_positive (v : JSValue) : Completion bool :=
  let n := match v with
           | JNum q => Normal (Some q)
           | JBool b => Normal (Some (if b then 1%Q else 0%Q))
           | _ => ToNumber v
           end in
  match n with
  | Throw => Throw
  | Normal None => Normal true
  | Normal (Some q) => Normal (Qle_bool q 0)
  end.

(** [typeof taskId === 'string' ? parseInt(taskId) : taskId]; [None] is NaN. *)
Definition numId_of (taskId : JSValue) : option JSValue :=
  match taskId with
  | JStr s => option_map num (parseInt s)
  | _ => Some taskId
  end.

Definition caught : Response := errorResponse thrown_message 500.

(** From the validated titles to the response: the count check, the cut to
    five and the bulk insert. *)
Definition persist (finalTaskId : JSValue) (finalTaskTitle : jsstring)
           (subtasks : list jsstring) : Prog Response :=
  if Nat.eqb (List.length subtasks) 0
  then Ret (errorResponse msg_no_subtasks 400)
  else if Nat.ltb (List.length subtasks) 3
  then Ret (errorResponse (msg_too_few (List.length subtasks)) 400)
  else
    let finalSubtasks := firstn 5 subtasks in
    let taskDataList :=
      map (fun subtask =>
             JObj [ (js "title", JStr (trim subtask));
                    (js "description", JStr (description_for finalTaskTitle));
                    (js "status", JStr (js "pending"));
                    (js "priority", JStr (js "medium"));
                    (js "parent_id", finalTaskId) ])
          finalSubtasks in
    Call (Insert taskDataList) (fun r =>
      match error r with
      | Some insertError =>
        Ret (errorResponse
               (if non_empty (message insertError) then message insertError
                else msg_insert_failed) 500)
      | None =>
        Ret (successResponse (if truthy (data r) then data r else JArr []) 201)
      end).

(** From the resolved subject on: the key, the generator, the parser. *)
Definition generate (finalTaskId : JSValue) (finalTaskTitle : jsstring) : Prog Response :=
  if negb (truthy DEEPSEEK_API_KEY) then Ret (errorResponse msg_no_key 500)
  else
    Chat (prompt_for finalTaskTitle) (fun outcome =>
      match outcome with
      | AiThrows m =>
        Ret (errorResponse
               (msg_api_failed (match m with
                                | Some ((_ :: _) as text) => text
                                | _ => msg_unknown
                                end)) 500)
      | AiContent None | AiContent (Some []) => Ret (errorResponse msg_no_reply 500)
      | AiContent (Some aiResponse) =>
        match clean_subtasks (parse_subtasks aiResponse) with
        | Throw => Ret caught
        | Normal subtasks => persist finalTaskId finalTaskTitle subtasks
        end
      end).

(** The default export. *)
Definition handler (req : Request) : Prog Response :=
  if negb (str_eqb (method req) (js "POST")) then
    Ret (setHeaderAllow [js "POST"]
           (errorResponse (msg_method_not_allowed (method req)) 405))
  else if nullish (body req) then Ret caught
  else
    let taskId := get (body req) (js "taskId") in
    let taskTitle := get (body req) (js "taskTitle") in
    if truthy taskId then
      match numId_of taskId with
      | None => Ret (errorResponse msg_bad_task_id 400)
      | Some numId =>
        match not_positive numId with
        | Throw => Ret caught
        | Normal true => Ret (errorResponse msg_bad_task_id 400)
        | Normal false =>
          Call (SelectSingle (js "*") (js "id") numId) (fun r =>
            let existingTask := data r in
            if is_some (error r) || negb (truthy existingTask)
            then Ret (errorResponse msg_task_not_found 404)
            else generate numId (text_of (get existingTask (js "title"))))
        end
      end
    else if truthy taskTitle then
      match taskTitle with
      | JStr s =>
        if Nat.eqb (List.length (trim s)) 0
        then Ret (errorResponse msg_bad_title 400)
        else generate JNull (trim s)
      | _ => Ret (errorResponse msg_bad_title 400)
      end
    else Ret (errorResponse msg_missing_subject 400).

End Handler.

End Breakdown.

(* ===================================================================== *)
(** * [pages/api/tasks/index.ts]                                          *)
(* ===================================================================== *)

Module TaskIndex.

(** The request, as far as this route reads it. *)
Record IndexRequest := mkIndexRequest {
  verb : jsstring;             (* [req.method] *)
  query_status : QueryValue;   (* [req.query.status] *)
  query_priority : QueryValue; (* [req.query.priority] *)
  query_parent_id : QueryValue;(* [req.query.parent_id] *)
  payload_in : JSValue         (* [req.body] *)
}.

(** The value of an [eq] filter: a text, or the result of [parseInt]
    ([None] is NaN). *)
Inductive FilterValue :=
| FText (s : jsstring)
| FNumber (n : option Z).

(** The filters added to [from('tasks').select('*').order('created_at',
    { ascending: false })]. *)
Inductive Filter :=
  (** [query.eq(column, value)] *)
| Eq (column : jsstring) (value : FilterValue)
  (** [query.is(column, null)] *)
| IsNull (column : jsstring).

(** [v && names.includes(v)]: an array is truthy and is no member. *)
Definition text_filter (names : list jsstring) (column : jsstring) (v : QueryValue)
  : list Filter :=
  match v with
  | QString s =>
    if Breakdown.non_empty s && existsb (str_eqb s) names
    then [Eq column (FText s)] else []
  | QUndefined | QArray _ => []
  end.

(** The block on [parent_id]; an array is read through its text, its
    elements joined by commas. *)
Definition parent_filter (v : QueryValue) : list Filter :=
  match v with
  | QUndefined => []
  | QString s =>
    if str_eqb s (js "null") then [IsNull (js "parent_id")]
    else [Eq (js "parent_id") (FNumber (parseInt s))]
  | QArray l => [Eq (js "parent_id") (FNumber (parseInt (join (js ",") l)))]
  end.

(** The query of the GET branch. *)
Definition list_query (req : IndexRequest) : list Filter :=
  text_filter [js "pending"; js "completed"] (js "status") (query_status req)
  ++ text_filter [js "low"; js "medium"; js "high"] (js "priority") (query_priority req)
  ++ parent_filter (query_parent_id req).

(** The rows a filter keeps; [None] when the store refuses the filter. *)
Definition keeps (f : Filter) : option (Task -> bool) :=
  match f with
  | Eq column (FText s) =>
    if str_eqb column (js "status")
    then Some (fun t => str_eqb (status_text (status t)) s)
    else if str_eqb column (js "priority")
    then Some (fun t => str_eqb (priority_text (priority t)) s)
    else None
  | Eq column (FNumber (Some z)) => eq_filter column z
  | Eq column (FNumber None) => None
  | IsNull column =>
    if str_eqb column (js "parent_id")
    then Some (fun t => match parent_id t with None => true | Some _ => false end)
    else None
  end.

Fixpoint keeps_all (fs : list Filter) : option (Task -> bool) :=
  match fs with
  | [] => Some (fun _ => true)
  | f :: rest =>
    match keeps f, keeps_all rest with
    | Some p, Some q => Some (fun t => p t && q t)
    | _, _ => None
    end
  end.

(** What the table answers to the query: the rows every filter keeps, the
    latest first. *)
Definition exec_list (fs : list Filter) (tb : Table) : StoreResponse :=
  match keeps_all fs with
  | None => bad_value
  | Some p =>
    match order_rows (js "created_at") false (filter p (tasks tb)) with
    | Some ts => ok (JArr (map (fun t => JObj (row t)) ts))
    | None => bad_column
    end
  end.

(** The handler awaits the list query and answers, or goes on as a program
    over the calls of the other routes. *)
Inductive IndexProg :=
| Listing (filters : list Filter) (k : StoreResponse -> Response)
| Other (p : Prog Response).

Definition run_index (p : IndexProg) (w : World) : Response * World :=
  match p with
  | Listing fs k =>
    match faults w with
    | Some e :: rest =>
      (k (mkStoreResponse JNull (Some e)),
       mkWorld (table w) rest (generator w) (journal w))
    | None :: rest =>
      (k (exec_list fs (table w)), mkWorld (table w) rest (generator w) (journal w))
    | [] => (k (exec_list fs (table w)), w)
    end
  | Other p => run p w
  end.

Definition msg_create_failed : jsstring := js "创建任务失败: ".

(** [v || fallback] *)
Definition or_else (v fallback : JSValue) : JSValue :=
  if truthy v then v else fallback.

(** [insertData] *)
Definition insertData (body : JSValue) : JSValue :=
  JObj [ (js "title", JStr (trimmed (get body (js "title"))));
         (js "description", description_or_null (get body (js "description")));
         (js "status", or_else (get body (js "status")) (JStr (js "pending")));
         (js "priority", or_else (get body (js "priority")) (JStr (js "medium")));
         (js "parent_id", or_else (get body (js "parent_id")) JNull) ].

(** The insert that ends the POST branch; [data[0]] throws on a missing
    [data]. *)
Definition create (body : JSValue) : Prog Response :=
  Call (Insert [insertData body]) (fun r =>
    match error r with
    | Some e => Ret (errorResponse (msg_create_failed ++ message e) 500)
    | None =>
      if nullish (data r) then Ret (errorResponse msg_internal 500)
      else Ret (successResponse (first (data r)) 201)
    end).

(** The POST branch. *)
Definition handle_post (body : JSValue) : Prog Response :=
  match validateCreateRequest body with
  | Throw => Ret (errorResponse msg_internal 500)
  | Normal errors =>
    if Nat.ltb 0 (List.length errors)
    then Ret (errorResponse (join (js "; ") errors) 400)
    else if truthy (get body (js "parent_id")) then
      Call (SelectSingle (js "id") (js "id") (get body (js "parent_id"))) (fun r =>
        let parentTask := data r in
        if is_some (error r) || negb (truthy parentTask)
        then Ret (errorResponse msg_parent_missing 400)
        else create body)
    else create body
  end.

(** The GET branch. *)
Definition handle_list (req : IndexRequest) : IndexProg :=
  Listing (list_query req) (fun r =>
    match error r with
    | Some e => errorResponse (msg_get_failed ++ message e) 500
    | None => successResponse (data r) 200
    end).

(** The default export. *)
Definition handler (req : IndexRequest) : IndexProg :=
  if str_eqb (verb req) (js "GET") then handle_list req
  else if str_eqb (verb req) (js "POST") then Other (handle_post (payload_in req))
  else
    Other (Ret (setHeaderAllow [js "GET"; js "POST"]
                  (errorResponse (msg_method ++ verb req) 405))).

End TaskIndex.

(* ===================================================================== *)
(** * [pages/index.js]                                                    *)
(* ===================================================================== *)

Module Page.

(** The page keeps the rows of the last answer of [GET /api/tasks] in its
    state [tasks] and changes them in place after a request that
    succeeded. *)


(** [t.parent_id === id] *)
Definition is_child_of (t : Task) (z : Z) : bool :=
  match parent_id t with Some p => (p =? z)%Z | None => false end.



(** The body of the request of [addTask]; there is no request when the
    text is blank. *)
Definition add_body (newTask : jsstring) : option JSValue :=
  if truthy (JStr (trim newTask))
  then Some (JObj [(js "title", JStr (trim newTask)); (js "status", JStr (js "pending"))])
  else None.



(** A node of [organizeTasks]: [{ ...task, children }]. The children are
    nodes of [taskMap], shared with it: a child is kept here as its key in
    the map. *)
Record Node := mkNode { task_of : Task; children : list Z }.

(** A [Map] from identifiers to nodes, in insertion order. *)
Definition TaskMap := list (Z * Node).

Fixpoint map_get (k : Z) (m : TaskMap) : option Node :=
  match m with
  | [] => None
  | (k', n) :: rest => if (k =? k')%Z then Some n else map_get k rest
  end.

Definition map_has (k : Z) (m : TaskMap) : bool :=
  match map_get k m with Some _ => true | None => false end.

Fixpoint map_set (k : Z) (n : Node) (m : TaskMap) : TaskMap :=
  match m with
  | [] => [(k, n)]
  | (k', n') :: rest => if (k =? k')%Z then (k', n) :: rest else (k', n') :: map_set k n rest
  end.

(** [taskMap.get(parent).children.push(child)] *)
Definition push_child (parent child : Z) (m : TaskMap) : TaskMap :=
  match map_get parent m with
  | Some n => map_set parent (mkNode (task_of n) (children n ++ [child])) m
  | None => m
  end.

(** [task.parent_id && taskMap.has(task.parent_id)] *)
Definition nested (task : Task) (m : TaskMap) : bool :=
  match parent_id task with
  | Some p => negb (p =? 0)%Z && map_has p m
  | None => false
  end.

(** The first loop of [organizeTasks]. *)
Definition nodes_of (taskList : list Task) : TaskMap :=
  fold_left (fun m task => map_set (id task) (mkNode task []) m) taskList [].

(** One turn of its second loop, on [rootTasks] and [taskMap]. *)
Definition place (st : list Z * TaskMap) (task : Task) : list Z * TaskMap :=
  let (rootTasks, taskMap) := st in
  if nested task taskMap
  then match parent_id task with
       | Some p => (rootTasks, push_child p (id task) taskMap)
       | None => st
       end
  else (rootTasks ++ [id task], taskMap).

(** [organizeTasks]: the keys of [rootTasks], and the nodes as the second
    loop leaves them. *)
Definition organizeTasks (taskList : list Task) : list Z * TaskMap :=
  fold_left place taskList ([], nodes_of taskList).

(** The nodes [renderTask] reaches from [organizedTasks]: the roots, and
    the children of a node it reaches. *)
Inductive Rendered (organized : list Z * TaskMap) : Z -> Prop :=
| Rendered_root (k : Z) :
    In k (fst organized) -> Rendered organized k
| Rendered_child (k parent : Z) (n : Node) :
    Rendered organized parent ->
    map_get parent (snd organized) = Some n ->
    In k (children n) ->
    Rendered organized k.

End Page.

(* ===================================================================== *)
(** * Sample data                                                         *)
(* ===================================================================== *)

Module Samples.

Definition milk : Task :=
  mkTask 1 (js "Buy milk") (Some (js "2 litres")) completed high None
         (js "2024-01-01T08:00:00+00:00").

(** A table with the single task [milk]; the store answers every call. *)
Definition kitchen : World :=
  mkWorld (mkTable [milk] 2 (js "2024-01-02T08:00:00+00:00")) [] (AiContent None) [].

Definition write : Task :=
  mkTask 1 (js "Write") None pending medium None (js "2024-01-01T08:00:00+00:00").

Definition draft : Task :=
  mkTask 2 (js "Draft") None pending medium (Some 1%Z) (js "2024-01-02T08:00:00+00:00").

(** A table where [draft] is a child of [write]. *)
Definition desk (faults : list (option StoreError)) (reply : AiOutcome) : World :=
  mkWorld (mkTable [write; draft] 3 (js "2024-01-03T08:00:00+00:00")) faults reply [].

Definition outline : Task :=
  mkTask 3 (js "Outline") None pending medium (Some 2%Z) (js "2024-01-03T08:00:00+00:00").

(** A chain of three: [outline] under [draft] under [write]. *)
Definition shelf : World :=
  mkWorld (mkTable [write; draft; outline] 4 (js "2024-01-04T08:00:00+00:00")) []
          (AiContent None) [].

Definition timeout : StoreError := mkStoreError (js "57014") (js "timeout").

(** The reply of the third testable property of the breakdown parser: three
    numbered lines, no bracket. *)
Definition numbered_lines : jsstring :=
  js "1. Do X" ++ [10] ++ js "2. Do Y" ++ [10] ++ js "3. Do Z".

(** A well-formed reply. *)
Definition three_steps : jsstring := jsq "['Step one', 'Step two', 'Step three']".

(** A fenced reply. *)
Definition fenced_steps : jsstring :=
  js "```json" ++ [10] ++ jsq "['A','B','C','D']" ++ [10] ++ js "```".

(** A reply in lines whose first line holds a bracketed word. *)
Definition bracketed_lines : jsstring :=
  js "Plan [draft]:" ++ [10] ++ numbered_lines.

(** A reply with seven steps. *)
Definition seven_steps : jsstring := jsq "['a1','b2','c3','d4','e5','f6','g7']".

(** The breakdown handler with a key, and with coercions that the sample
    requests never reach. *)
Definition breakdown : Request -> Prog Response :=
  Breakdown.handler (JStr (js "sk-sample")) (fun _ => Normal None) (fun _ => [])
                    (js "TypeError").

Definition by_title (t : string) : Request :=
  mkRequest (js "POST") QUndefined (JObj [(js "taskTitle", JStr (js t))]).

Definition by_id (z : Z) : Request :=
  mkRequest (js "POST") QUndefined (JObj [(js "taskId", num z)]).

End Samples.
Import Samples.

Module Cases.

(** [POST /tasks] with a title in spaces and a priority. *)
Definition call_ann : TaskIndex.IndexRequest :=
  TaskIndex.mkIndexRequest (js "POST") QUndefined QUndefined QUndefined
    (JObj [(js "title", JStr (js "  Call Ann ")); (js "priority", JStr (js "high"))]).

(** [POST /tasks] for a child of task 7. *)
Definition under_seven : TaskIndex.IndexRequest :=
  TaskIndex.mkIndexRequest (js "POST") QUndefined QUndefined QUndefined
    (JObj [(js "title", JStr (js "Rinse")); (js "parent_id", num 7)]).

(** [POST /tasks] for a child of task 1. *)
Definition under_milk : TaskIndex.IndexRequest :=
  TaskIndex.mkIndexRequest (js "POST") QUndefined QUndefined QUndefined
    (JObj [(js "title", JStr (js "Rinse")); (js "parent_id", num 1)]).

(** [POST /tasks] with a status outside the enumeration. *)
Definition done_task : TaskIndex.IndexRequest :=
  TaskIndex.mkIndexRequest (js "POST") QUndefined QUndefined QUndefined
    (JObj [(js "title", JStr (js "Rinse")); (js "status", JStr (js "done"))]).

(** [GET /tasks?parent_id=null] *)
Definition top_level : TaskIndex.IndexRequest :=
  TaskIndex.mkIndexRequest (js "GET") QUndefined QUndefined (QString (js "null")) JUndefined.

(** [PATCH /tasks/1] with a status, and with two members that are no
    field of an update. *)
Definition finish_milk : Request :=
  mkRequest (js "PATCH") (QString (js "1"))
    (JObj [(js "id", num 9); (js "status", JStr (js "completed"));
           (js "created_at", JStr (js "2000-01-01"))]).



(** [PATCH /tasks/9] with a status. *)
Definition finish_nine : Request :=
  mkRequest (js "PATCH") (QString (js "9")) (JObj [(js "status", JStr (js "completed"))]).

(** [PATCH /tasks/1] that moves the task under task 7. *)
Definition move_under_seven : Request :=
  mkRequest (js "PATCH") (QString (js "1")) (JObj [(js "parent_id", num 7)]).

(** [GET /tasks/1] and [GET /tasks/9]. *)
Definition read_one : Request := mkRequest (js "GET") (QString (js "1")) JUndefined.
Definition read_nine : Request := mkRequest (js "GET") (QString (js "9")) JUndefined.

(** [DELETE /tasks/2] *)
Definition drop_draft : Request := mkRequest (js "DELETE") (QString (js "2")) JUndefined.

(** A reply that is a JSON array of numbers. *)
Definition numbers_reply : jsstring := js "[1, 2, 3]".

(** The breakdown handler without a key. *)
Definition breakdown_without_key : Request -> Prog Response :=
  Breakdown.handler JUndefined (fun _ => Normal None) (fun _ => []) (js "TypeError").

(** [GET /tasks/2] and [DELETE /tasks/1]. *)
Definition read_two : Request := mkRequest (js "GET") (QString (js "2")) JUndefined.
Definition drop_one : Request := mkRequest (js "DELETE") (QString (js "1")) JUndefined.


(** Two tasks, each the parent of the other. *)
Definition ping : Task :=
  mkTask 1 (js "Ping") None pending medium (Some 2%Z) (js "2024-01-01T08:00:00+00:00").
Definition pong : Task :=
  mkTask 2 (js "Pong") None pending medium (Some 1%Z) (js "2024-01-02T08:00:00+00:00").

(** [POST /tasks] as [addTask] sends it for the text [  Water plants ]. *)
Definition add_plants : TaskIndex.IndexRequest :=
  TaskIndex.mkIndexRequest (js "POST") QUndefined QUndefined QUndefined
    (JObj [(js "title", JStr (js "Water plants")); (js "status", JStr (js "pending"))]).


End Cases.
Import Cases.

Module Shapes.

(** A column of an update with a value the validator lets through: a
    title that is a non-empty text, a description that is null or a
    non-empty text, a status and a priority of the enumerations, a parent
    that is null or an integer. *)
Definition validated_entry (kv : jsstring * JSValue) : Prop :=
  (fst kv = js "title" /\ exists s, snd kv = JStr s /\ s <> [])
  \/ (fst kv = js "description"
      /\ (snd kv = JNull \/ exists s, snd kv = JStr s /\ s <> []))
  \/ (fst kv = js "status" /\ exists s, snd kv = JStr (status_text s))
  \/ (fst kv = js "priority" /\ exists p, snd kv = JStr (priority_text p))
  \/ (fst kv = js "parent_id"
      /\ (snd kv = JNull \/ exists q, snd kv = JNum q /\ number_is_integer q = true)).

(** The rows of [ts] in the subtree of the task [z]: the task, and every
    row whose parent is in the subtree. *)
Inductive Descends (ts : list Task) (z : Z) : Task -> Prop :=
| Descends_self (d : Task) :
    In d ts -> id d = z -> Descends ts z d
| Descends_child (d e : Task) :
    In d ts -> Descends ts z e -> parent_id d = Some (id e) -> Descends ts z d.

(** A row the breakdown creates under [finalTaskId]: a pending task of
    medium priority with a trimmed, non-empty title, without a parent
    when [finalTaskId] is null, and otherwise a child of the row of the
    table [finalTaskId] is the identifier of. *)
Definition subtask_of (all : list Task) (finalTaskId : JSValue) (t : Task) : Prop :=
  title t <> [] /\ trim (title t) = title t
  /\ status t = pending /\ priority t = medium
  /\ (finalTaskId = JNull /\ parent_id t = None
      \/ exists p, finalTaskId <> JNull /\ as_bigint finalTaskId = Some p
                   /\ has_id p all = true /\ parent_id t = Some p).

(** The outcome [out] of a run from [w] added nothing and is no 201, or is
    a 201 that carries the three to five rows it added at the end of the
    table, each a subtask under [finalTaskId]. *)
Definition adds_subtasks (w : World) (finalTaskId : JSValue) (out : Response * World)
  : Prop :=
  exists added,
    tasks (table (snd out)) = tasks (table w) ++ added
    /\ (statusCode (fst out) <> 201 -> added = [])
    /\ (statusCode (fst out) = 201 ->
        payload (fst out) = JArr (map (fun t => JObj (row t)) added)
        /\ (3 <= List.length added <= 5)%nat
        /\ Forall (subtask_of (tasks (table w)) finalTaskId) added).

(** An element of [taskDataList]: the row the breakdown sends to the store
    for the title [subtask]. *)
Definition subtask_row (finalTaskId : JSValue) (finalTaskTitle subtask : jsstring)
  : JSValue :=
  JObj [ (js "title", JStr (trim subtask));
         (js "description", JStr (Breakdown.description_for finalTaskTitle));
         (js "status", JStr (js "pending"));
         (js "priority", JStr (js "medium"));
         (js "parent_id", finalTaskId) ].

(** The answer of the breakdown to [n] titles when [n] is below three: a
    400 that says there is no subtask, or how many there are. *)
Definition count_refusal (n : nat) : Response :=
  errorResponse (if Nat.eqb n 0 then Breakdown.msg_no_subtasks
                 else Breakdown.msg_too_few n) 400.

End Shapes.
Import Shapes.

(* ===================================================================== *)
(** * Properties                                                          *)
(* ===================================================================== *)

(** ** Strings and objects *)

Lemma str_eqb_refl (s : jsstring) : str_eqb s s = true.
Proof.
  induction s as [|c s IH]; simpl; [reflexivity|].
  now rewrite N.eqb_refl, IH.
Qed.

Lemma str_eqb_eq (a b : jsstring) : str_eqb a b = true <-> a = b.
Proof.
  split.
  - revert b; induction a as [|x a IH]; intros [|y b] H; simpl in H;
      try discriminate; [reflexivity|].
    apply andb_true_iff in H as [Hxy Hab].
    apply N.eqb_eq in Hxy. apply IH in Hab. now subst.
  - intros ->. apply str_eqb_refl.
Qed.

Lemma str_eqb_neq (a b : jsstring) : a <> b -> str_eqb a b = false.
Proof.
  intros H. destruct (str_eqb a b) eqn:E; [|reflexivity].
  apply str_eqb_eq in E. contradiction.
Qed.

Lemma lookup_set_same k v fields : lookup k (set k v fields) = Some v.
Proof.
  induction fields as [|[k' v'] rest IH]; simpl.
  - now rewrite str_eqb_refl.
  - destruct (str_eqb k k') eqn:E; simpl; rewrite E; [reflexivity|exact IH].
Qed.

Lemma set_not_empty k v fields : List.length (set k v fields) <> O.
Proof.
  destruct fields as [|[k' v'] rest]; simpl; [discriminate|].
  destruct (str_eqb k k'); discriminate.
Qed.

Lemma get_set_same k v fields : get (JObj (set k v fields)) k = v.
Proof. unfold get. now rewrite lookup_set_same. Qed.

(** A number equal to an integer is an integer, whatever its fraction. *)
Lemma integer_of_Qeq (q : Q) (z : Z) :
  q == inject_Z z -> number_is_integer q = true /\ as_bigint (JNum q) = Some z.
Proof.
  unfold Qeq, inject_Z; simpl. intros H.
  assert (Hn : Qnum q = (z * Zpos (Qden q))%Z) by lia.
  unfold as_bigint, number_is_integer. rewrite Hn.
  rewrite Z.mod_mul by lia. simpl.
  rewrite Z.div_mul by lia. split; reflexivity.
Qed.

Lemma strict_eq_num (q : Q) (z : Z) :
  strict_eq (JNum q) (num z) = true <-> q == inject_Z z.
Proof. unfold num; simpl. apply Qeq_bool_iff. Qed.

(** ** The validators *)

Lemma includes_false (arr : list jsstring) (v : JSValue) :
  (forall s, In s arr -> v <> JStr s) -> includes arr v = false.
Proof.
  intros H. destruct v; try reflexivity. simpl.
  destruct (existsb (str_eqb s) arr) eqn:E; [|reflexivity].
  apply existsb_exists in E as [x [Hin Hx]].
  apply str_eqb_eq in Hx. subst x. now destruct (H s Hin).
Qed.

Lemma not_undefined (v : JSValue) : v <> JUndefined -> is_undefined v = false.
Proof. destruct v; intros H; try reflexivity. now destruct H. Qed.

Lemma not_null (v : JSValue) : v <> JNull -> is_null v = false.
Proof. destruct v; intros H; try reflexivity. now destruct H. Qed.

(** No block of [validateUpdateRequest] removes a message. *)
Lemma update_description_keeps m v st :
  In m (errors st) -> In m (errors (update_description v st)).
Proof.
  intros H. unfold update_description, push, assign.
  repeat match goal with |- context [if ?b then _ else _] => destruct b end;
    simpl; auto using in_or_app.
Qed.

Lemma update_status_keeps m v st :
  In m (errors st) -> In m (errors (update_status v st)).
Proof.
  intros H. unfold update_status, push, assign.
  repeat match goal with |- context [if ?b then _ else _] => destruct b end;
    simpl; auto using in_or_app.
Qed.

Lemma update_priority_keeps m v st :
  In m (errors st) -> In m (errors (update_priority v st)).
Proof.
  intros H. unfold update_priority, push, assign.
  repeat match goal with |- context [if ?b then _ else _] => destruct b end;
    simpl; auto using in_or_app.
Qed.

Lemma update_parent_id_keeps m v st :
  In m (errors st) -> In m (errors (update_parent_id v st)).
Proof.
  intros H. unfold update_parent_id, push, assign.
  repeat match goal with |- context [if ?b then _ else _] => destruct b end;
    simpl; auto using in_or_app.
Qed.

Create HintDb validator.
#[local] Hint Resolve update_description_keeps update_status_keeps
  update_priority_keeps update_parent_id_keeps : validator.

Lemma status_errors_invalid (st : JSValue) :
  st <> JUndefined -> st <> JStr (js "pending") -> st <> JStr (js "completed") ->
  status_errors st = [msg_status]
  /\ forall s, errors (update_status st s) = errors s ++ [msg_status].
Proof.
  intros Hu Hp Hc.
  assert (Hi : includes validStatuses st = false).
  { apply includes_false. intros s [<-|[<-|[]]]; assumption. }
  unfold status_errors, update_status. rewrite (not_undefined _ Hu), Hi. simpl.
  split; reflexivity.
Qed.

(** Each block of either validator adds one message when its rule is
    broken and none otherwise. *)
Lemma title_block_create (v : JSValue) :
  List.length (create_title_errors v) = one_if_broken (title_rule v).
Proof.
  unfold create_title_errors, title_rule.
  destruct v as [| | | |s| |]; try reflexivity; try (destruct b; reflexivity).
  - simpl. now destruct (negb (Qnum q =? 0)%Z).
  - destruct s as [|c s]; [reflexivity|]. cbn [truthy is_string typeof negb orb trimmed length_of].
    destruct (strlen (trim (c :: s)) =? 0); [reflexivity|]. cbn [negb andb].
    rewrite N.leb_antisym. now destruct (200 <? strlen (c :: s)).
Qed.

Lemma title_block_update (v : JSValue) (st : UpdateState) :
  List.length (errors (update_title v st))
  = (List.length (errors st) + one_if_broken (is_undefined v || title_rule v))%nat.
Proof.
  unfold update_title, title_rule, push, assign.
  destruct v as [| | | |s| |]; cbn [is_undefined is_string typeof negb orb errors trimmed length_of];
    try (rewrite length_app; reflexivity); try (simpl; lia).
  destruct (strlen (trim s) =? 0); cbn [negb andb one_if_broken errors];
    [rewrite length_app; reflexivity|].
  rewrite N.leb_antisym. destruct (200 <? strlen s); cbn [negb one_if_broken errors];
    [rewrite length_app; reflexivity|lia].
Qed.

Lemma description_block_create (v : JSValue) :
  List.length (create_description_errors v) = one_if_broken (description_rule v).
Proof.
  unfold create_description_errors, description_rule.
  destruct v as [| | | |s| |]; try reflexivity.
  cbn [is_undefined is_null is_string typeof negb andb length_of].
  rewrite N.leb_antisym. now destruct (1000 <? strlen s).
Qed.

Lemma description_block_update (v : JSValue) (st : UpdateState) :
  List.length (errors (update_description v st))
  = (List.length (errors st) + one_if_broken (description_rule v))%nat.
Proof.
  unfold update_description, description_rule, push, assign.
  destruct v as [| | | |s| |];
    cbn [is_undefined is_null is_string typeof negb andb errors truthy length_of one_if_broken];
    try (rewrite length_app; reflexivity); try lia.
  rewrite N.leb_antisym. destruct s as [|c s].
  - cbn. lia.
  - destruct (1000 <? strlen (c :: s)); cbn [negb andb one_if_broken errors];
      [rewrite length_app; reflexivity|lia].
Qed.

Lemma enum_block_create (names : list jsstring) (m : jsstring) (v : JSValue) :
  List.length (if negb (is_undefined v)
               then if negb (includes names v) then [m] else []
               else [])
  = one_if_broken (enum_rule names v).
Proof.
  unfold enum_rule, includes.
  destruct v as [| | | |s| |]; try reflexivity.
  cbn [is_undefined negb]. now destruct (existsb (str_eqb s) names).
Qed.

Lemma enum_block_update (names : list jsstring) (m k : jsstring) (v : JSValue)
      (st : UpdateState) :
  List.length (errors (if negb (is_undefined v)
                       then if negb (includes names v) then push m st
                            else assign k v st
                       else st))
  = (List.length (errors st) + one_if_broken (enum_rule names v))%nat.
Proof.
  unfold enum_rule, includes, push, assign.
  destruct v as [| | | |s| |];
    cbn [is_undefined negb errors one_if_broken];
    try (rewrite length_app; reflexivity); try lia.
  destruct (existsb (str_eqb s) names); cbn [negb errors one_if_broken];
    [lia|rewrite length_app; reflexivity].
Qed.

Lemma parent_id_block_create (v : JSValue) :
  List.length (create_parent_id_errors v) = one_if_broken (parent_id_rule v).
Proof.
  unfold create_parent_id_errors, parent_id_rule.
  destruct v as [| | |q| | |]; try reflexivity.
  cbn [is_undefined is_null is_number typeof isInteger negb andb orb].
  now destruct (number_is_integer q).
Qed.

Lemma parent_id_block_update (v : JSValue) (st : UpdateState) :
  List.length (errors (update_parent_id v st))
  = (List.length (errors st) + one_if_broken (parent_id_rule v))%nat.
Proof.
  unfold update_parent_id, parent_id_rule, push, assign.
  destruct v as [| | |q| | |];
    cbn [is_undefined is_null is_number typeof isInteger negb andb orb errors one_if_broken];
    try (rewrite length_app; reflexivity); try lia.
  destruct (number_is_integer q); cbn [negb errors one_if_broken];
    [lia|rewrite length_app; reflexivity].
Qed.

Lemma broken_five (a b c d e : bool) :
  broken [a; b; c; d; e]
  = (one_if_broken a + one_if_broken b + one_if_broken c + one_if_broken d
     + one_if_broken e)%nat.
Proof. destruct a, b, c, d, e; reflexivity. Qed.

Lemma validateCreateRequest_object (fields : list (jsstring * JSValue)) :
  validateCreateRequest (JObj fields)
  = Normal (create_title_errors (get (JObj fields) (js "title"))
            ++ create_description_errors (get (JObj fields) (js "description"))
            ++ status_errors (get (JObj fields) (js "status"))
            ++ priority_errors (get (JObj fields) (js "priority"))
            ++ create_parent_id_errors (get (JObj fields) (js "parent_id"))).
Proof. reflexivity. Qed.

Lemma validateUpdateRequest_object (fields : list (jsstring * JSValue)) :
  validateUpdateRequest (JObj fields)
  = Normal (update_parent_id (get (JObj fields) (js "parent_id"))
              (before_parent_id (JObj fields))).
Proof. reflexivity. Qed.

(** The validators report every broken rule, once. *)
Lemma create_reports_every_violation (fields : list (jsstring * JSValue))
      (errs : list jsstring) :
  validateCreateRequest (JObj fields) = Normal errs ->
  List.length errs = create_violations (JObj fields).
Proof.
  rewrite validateCreateRequest_object. unfold create_violations.
  generalize (get (JObj fields) (js "title")) (get (JObj fields) (js "description"))
             (get (JObj fields) (js "status")) (get (JObj fields) (js "priority"))
             (get (JObj fields) (js "parent_id")).
  intros v1 v2 v3 v4 v5 H. injection H as <-.
  rewrite broken_five, !length_app.
  rewrite title_block_create, description_block_create, parent_id_block_create.
  unfold status_errors, priority_errors. rewrite !enum_block_create. lia.
Qed.

Lemma update_reports_every_violation (fields : list (jsstring * JSValue))
      (st : UpdateState) :
  validateUpdateRequest (JObj fields) = Normal st ->
  List.length (errors st) = update_violations (JObj fields).
Proof.
  rewrite validateUpdateRequest_object. unfold update_violations, before_parent_id.
  generalize (get (JObj fields) (js "title")) (get (JObj fields) (js "description"))
             (get (JObj fields) (js "status")) (get (JObj fields) (js "priority"))
             (get (JObj fields) (js "parent_id")).
  intros v1 v2 v3 v4 v5 H. injection H as <-.
  rewrite broken_five.
  rewrite parent_id_block_update.
  unfold update_priority. rewrite enum_block_update.
  unfold update_status. rewrite enum_block_update.
  rewrite description_block_update, title_block_update. simpl List.length. lia.
Qed.

(** C4. Validation aggregates: a payload whose title is empty after
    trimming and whose status is neither [pending] nor [completed] gets
    both the title message and the status message, from the create
    validator and from the update validator alike, whatever the other
    fields are; and the messages are as many as the rules the payload
    breaks, one for each. *)
Theorem C4_validation_reports_title_and_status
  (fields : list (jsstring * JSValue)) (t : jsstring) (st : JSValue) :
  get (JObj fields) (js "title") = JStr t ->
  trim t = [] ->
  get (JObj fields) (js "status") = st ->
  st <> JUndefined -> st <> JStr (js "pending") -> st <> JStr (js "completed") ->
  (exists errs,
      validateCreateRequest (JObj fields) = Normal errs
      /\ In (match t with [] => msg_title_required | _ => msg_title_empty end) errs
      /\ In msg_status errs
      /\ List.length errs = create_violations (JObj fields))
  /\ (exists s,
         validateUpdateRequest (JObj fields) = Normal s
         /\ In msg_title_empty (errors s)
         /\ In msg_status (errors s)
         /\ List.length (errors s) = update_violations (JObj fields)).
Proof.
  intros Ht Htrim Hst Hu Hp Hc.
  destruct (status_errors_invalid st Hu Hp Hc) as [Hcreate Hupdate].
  split.
  - eexists. split; [reflexivity|]. split; [|split].
    + rewrite Ht. apply in_or_app. left. unfold create_title_errors.
      destruct t as [|c t']; simpl; [now left|].
      unfold trimmed. rewrite Htrim. simpl. now left.
    + rewrite Hst, Hcreate.
      apply in_or_app. right. apply in_or_app. right. apply in_or_app. left.
      now left.
    + now apply create_reports_every_violation.
  - eexists. split; [reflexivity|]. split; [|split].
    + rewrite Ht.
      assert (In msg_title_empty
                (errors (update_title (JStr t) (mkUpdateState [] [])))).
      { unfold update_title, trimmed. simpl. rewrite Htrim. simpl. now left. }
      auto 6 with validator.
    + rewrite Ht, Hst.
      assert (In msg_status
                (errors (update_status st
                   (update_description (get (JObj fields) (js "description"))
                      (update_title (JStr t) (mkUpdateState [] [])))))).
      { rewrite Hupdate. apply in_or_app. right. now left. }
      auto with validator.
    + now apply update_reports_every_violation.
Qed.

(** The payload [{ title: "   ", status: "done" }]. *)
Lemma C4_witness :
  exists errs,
    validateCreateRequest
      (JObj [(js "title", JStr (js "   ")); (js "status", JStr (js "done"))])
    = Normal errs
    /\ In msg_title_empty errs /\ In msg_status errs.
Proof.
  destruct (C4_validation_reports_title_and_status
              [(js "title", JStr (js "   ")); (js "status", JStr (js "done"))]
              (js "   ") (JStr (js "done")))
    as [[errs [H1 [H2 [H3 _]]]] _];
    try reflexivity; try (vm_compute; discriminate).
  exists errs. repeat split; assumption.
Defined.

Lemma update_parent_id_integer (q : Q) (st : UpdateState) :
  number_is_integer q = true ->
  update_parent_id (JNum q) st = assign (js "parent_id") (JNum q) st.
Proof. intros H. unfold update_parent_id. simpl. now rewrite H. Qed.

(** C5 (as amended). The validators ask that [parent_id] be an integer, not
    that it be positive: a [parent_id] that is present, not [null] and not
    an integer number gets the [parent_id] message of either validator,
    and an integer of any sign gets none. *)
Theorem C5_parent_id_must_be_an_integer
  (fields : list (jsstring * JSValue)) (v : JSValue) :
  get (JObj fields) (js "parent_id") = v ->
  v <> JUndefined -> v <> JNull ->
  (isInteger v = false ->
     (exists errs, validateCreateRequest (JObj fields) = Normal errs
                   /\ In msg_parent_id_integer errs)
     /\ (exists s, validateUpdateRequest (JObj fields) = Normal s
                   /\ In msg_parent_id_integer_or_null (errors s)))
  /\ (isInteger v = true ->
        create_parent_id_errors v = []
        /\ forall s, errors (update_parent_id v s) = errors s).
Proof.
  intros Hv Hu Hn. split; intros Hi.
  - split.
    + eexists. split; [reflexivity|]. rewrite Hv.
      repeat (apply in_or_app; right).
      unfold create_parent_id_errors.
      rewrite (not_undefined _ Hu), (not_null _ Hn), Hi, orb_true_r. simpl.
      now left.
    + eexists. split; [apply validateUpdateRequest_object|]. rewrite Hv.
      unfold update_parent_id.
      rewrite (not_undefined _ Hu), (not_null _ Hn), Hi, orb_true_r. simpl.
      apply in_or_app. right. now left.
  - destruct v; try discriminate Hi. simpl in Hi. split.
    + unfold create_parent_id_errors. simpl. now rewrite Hi.
    + intros s. now rewrite update_parent_id_integer.
Qed.

(** The payload [{ title: "a", parent_id: 1.5 }] on the one side,
    [parent_id: -5] on the other. *)
Lemma C5_witness :
  (exists errs,
      validateCreateRequest
        (JObj [(js "title", JStr (js "a")); (js "parent_id", JNum (3 # 2))])
      = Normal errs
      /\ In msg_parent_id_integer errs)
  /\ create_parent_id_errors (num (-5)) = [].
Proof.
  split.
  - apply (C5_parent_id_must_be_an_integer
             [(js "title", JStr (js "a")); (js "parent_id", JNum (3 # 2))]
             (JNum (3 # 2)));
      try reflexivity; vm_compute; discriminate.
  - apply (C5_parent_id_must_be_an_integer [(js "parent_id", num (-5))] (num (-5)));
      try reflexivity; vm_compute; discriminate.
Defined.

(** The specification asks for a positive integer; that fails on zero and
    on a negative integer: both validators accept them. *)
Lemma C5_counterexample :
  validateCreateRequest
    (JObj [(js "title", JStr (js "a")); (js "parent_id", num 0)]) = Normal []
  /\ validateCreateRequest
       (JObj [(js "title", JStr (js "a")); (js "parent_id", num (-5))]) = Normal []
  /\ validateUpdateRequest (JObj [(js "parent_id", num (-5))])
     = Normal (mkUpdateState [] [(js "parent_id", num (-5))]).
Proof. repeat split; vm_compute; reflexivity. Qed.

(** ** The identifier of the route *)

Lemma validateId_positive (id : QueryValue) (taskId : Z) :
  validateId id = Some taskId -> (0 < taskId)%Z.
Proof.
  destruct id as [|s|l]; simpl; try discriminate.
  destruct s as [|c s]; [discriminate|].
  destruct (parseInt (c :: s)) as [n|]; [|discriminate].
  destruct (n <=? 0)%Z eqn:E; [discriminate|].
  intros H. injection H as <-. now apply Z.leb_gt.
Qed.

(** Behind a valid identifier the handler dispatches on the method. *)
Lemma handler_patch (req : Request) (taskId : Z) :
  str_eqb (method req) (js "PATCH") = true ->
  validateId (query_id req) = Some taskId ->
  handler req = handle_patch taskId (body req).
Proof.
  intros Hm Hid. unfold handler. rewrite Hid.
  pose proof (validateId_positive _ _ Hid) as Hpos.
  destruct (taskId =? 0)%Z eqn:E; [apply Z.eqb_eq in E; lia|].
  apply str_eqb_eq in Hm. rewrite Hm. reflexivity.
Qed.

Lemma handler_get (req : Request) (taskId : Z) :
  str_eqb (method req) (js "GET") = true ->
  validateId (query_id req) = Some taskId ->
  handler req = handle_get taskId.
Proof.
  intros Hm Hid. unfold handler. rewrite Hid, Hm.
  pose proof (validateId_positive _ _ Hid) as Hpos.
  destruct (taskId =? 0)%Z eqn:E; [apply Z.eqb_eq in E; lia|reflexivity].
Qed.

Lemma handler_delete (req : Request) (taskId : Z) :
  str_eqb (method req) (js "DELETE") = true ->
  validateId (query_id req) = Some taskId ->
  handler req = handle_delete taskId.
Proof.
  intros Hm Hid. unfold handler. rewrite Hid.
  pose proof (validateId_positive _ _ Hid) as Hpos.
  destruct (taskId =? 0)%Z eqn:E; [apply Z.eqb_eq in E; lia|].
  apply str_eqb_eq in Hm. rewrite Hm. reflexivity.
Qed.

Lemma digit_value_decimal (c : char16) :
  digit_value 10 c = if is_digit c then Some (c - 48) else None.
Proof.
  unfold digit_value, is_digit.
  destruct (48 <=? c) eqn:E1; destruct (c <=? 57) eqn:E2; simpl.
  - apply N.leb_le in E1, E2.
    destruct (c - 48 <? 10) eqn:E3; [reflexivity|]. apply N.ltb_ge in E3. lia.
  - destruct ((97 <=? c) && (c <=? 122)) eqn:E3.
    + apply andb_true_iff in E3 as [E3 E4]. apply N.leb_le in E3.
      destruct (c - 97 + 10 <? 10) eqn:E5; [|reflexivity]. apply N.ltb_lt in E5. lia.
    + destruct ((65 <=? c) && (c <=? 90)) eqn:E4; [|reflexivity].
      apply andb_true_iff in E4 as [E4 E5]. apply N.leb_le in E4.
      destruct (c - 65 + 10 <? 10) eqn:E6; [|reflexivity]. apply N.ltb_lt in E6. lia.
  - apply N.leb_gt in E1.
    destruct ((97 <=? c) && (c <=? 122)) eqn:E3.
    { apply andb_true_iff in E3 as [E3 _]. apply N.leb_le in E3. lia. }
    destruct ((65 <=? c) && (c <=? 90)) eqn:E4; [|reflexivity].
    apply andb_true_iff in E4 as [E4 _]. apply N.leb_le in E4. lia.
  - apply N.leb_gt in E1, E2. lia.
Qed.

(** An identifier without a digit in front is not a number. *)
Lemma parseInt_not_numeric (s : jsstring) :
  starts_with_digit (unsigned_part s) = false -> parseInt s = None.
Proof.
  unfold unsigned_part, parseInt. destruct (drop_while is_space s) as [|c r].
  - reflexivity.
  - cbv zeta.
    assert (Hone : forall c0, is_digit c0 = false -> digits_prefix 10 [c0] None = None).
    { intros c0 H0. simpl. now rewrite digit_value_decimal, H0. }
    assert (Hmore : forall c0 c1 t, is_digit c0 = false ->
              digits_prefix (if (c0 =? 48) && ((c1 =? 120) || (c1 =? 88)) then 16 else 10)
                (if (c0 =? 48) && ((c1 =? 120) || (c1 =? 88)) then t else c0 :: c1 :: t)
                None = None).
    { intros c0 c1 t H0. destruct (c0 =? 48) eqn:E0.
      - apply N.eqb_eq in E0. subst c0. discriminate H0.
      - simpl. now rewrite digit_value_decimal, H0. }
    destruct ((c =? 45) || (c =? 43)); cbv iota; intros Ht.
    + destruct r as [|c0 [|c1 t]]; cbn [starts_with_digit skipn] in *.
      * reflexivity.
      * now rewrite Hone.
      * now rewrite Hmore.
    + destruct r as [|c1 t]; cbn [starts_with_digit skipn] in *.
      * now rewrite Hone.
      * now rewrite Hmore.
Qed.

Lemma digit_range (c : char16) : is_digit c = true -> 48 <= c <= 57.
Proof.
  unfold is_digit. intros H. apply andb_true_iff in H as [H1 H2].
  apply N.leb_le in H1, H2. lia.
Qed.

Lemma is_digit_not_space (c : char16) : is_digit c = true -> is_space c = false.
Proof.
  intros H. apply digit_range in H. unfold is_space.
  repeat match goal with
         | |- context [c =? ?k] =>
           replace (c =? k) with false by (symmetry; apply N.eqb_neq; lia)
         end.
  replace (0x2000 <=? c) with false by (symmetry; apply N.leb_gt; lia).
  reflexivity.
Qed.

Lemma digits_prefix_app (ds rest : jsstring) :
  forallb is_digit ds = true ->
  forall a,
    digits_prefix 10 (ds ++ rest) (Some a)
    = digits_prefix 10 rest (Some (fold_left (fun x c => x * 10 + (c - 48)) ds a)).
Proof.
  induction ds as [|d ds IH]; intros Hds a; simpl; [reflexivity|].
  simpl in Hds. apply andb_true_iff in Hds as [Hd Hds].
  rewrite digit_value_decimal, Hd. now apply IH.
Qed.

Lemma digits_prefix_stop (rest : jsstring) (a : N) :
  starts_with_digit rest = false -> digits_prefix 10 rest (Some a) = Some a.
Proof.
  destruct rest as [|c rest]; simpl; intros H; [reflexivity|].
  now rewrite digit_value_decimal, H.
Qed.

(** A natural number below [2 ^ 53] is its own Number value. *)
Lemma to_double_exact (n : N) : n < 2 ^ 53 -> to_double n = n.
Proof.
  intros H. unfold to_double.
  destruct (N.size n <=? 53) eqn:E; [reflexivity|].
  apply N.leb_gt in E. exfalso.
  destruct (N.eq_dec n 0) as [->|Hn]; [simpl in E; lia|].
  rewrite N.size_log2 in E by assumption.
  assert (Hlog : N.log2 n < 53) by (apply N.log2_lt_pow2; lia).
  lia.
Qed.

(** [parseInt] reads the digits in front and ignores what follows them. *)
Lemma parseInt_decimal_prefix (ds rest : jsstring) :
  forallb is_digit ds = true ->
  0 < Json.digits_value ds ->
  starts_with_digit rest = false ->
  parseInt (ds ++ rest) = Some (Z.of_N (to_double (Json.digits_value ds))).
Proof.
  intros Hds Hpos Hrest.
  destruct ds as [|d ds]; [unfold Json.digits_value in Hpos; simpl in Hpos; lia|].
  pose proof Hds as Hall. simpl in Hds. apply andb_true_iff in Hds as [Hd Hds].
  pose proof (digit_range _ Hd) as Hr.
  unfold parseInt. simpl app. cbn [drop_while].
  rewrite (is_digit_not_space _ Hd). cbv zeta. cbv iota.
  replace (d =? 45) with false by (symmetry; apply N.eqb_neq; lia).
  replace (d =? 43) with false by (symmetry; apply N.eqb_neq; lia).
  cbn [orb].
  assert (Hhex : match ds ++ rest with
                 | c1 :: _ => (d =? 48) && ((c1 =? 120) || (c1 =? 88))
                 | [] => false
                 end = false).
  { destruct ds as [|d1 ds1]; simpl.
    - assert (Hd48 : (d =? 48) = false).
      { apply N.eqb_neq. intros ->. unfold Json.digits_value in Hpos.
        simpl in Hpos. lia. }
      destruct rest; [reflexivity|]. now rewrite Hd48.
    - simpl in Hds. apply andb_true_iff in Hds as [Hd1 _].
      apply digit_range in Hd1.
      replace (d1 =? 120) with false by (symmetry; apply N.eqb_neq; lia).
      replace (d1 =? 88) with false by (symmetry; apply N.eqb_neq; lia).
      apply andb_false_r. }
  rewrite Hhex.
  change (d :: ds ++ rest) with ((d :: ds) ++ rest).
  cbn [digits_prefix app]. rewrite digit_value_decimal, Hd.
  rewrite (digits_prefix_app _ _ Hds), (digits_prefix_stop _ _ Hrest).
  reflexivity.
Qed.

(** The Number value of a positive natural number is positive. *)
Lemma to_double_positive (n : N) : 0 < n -> 0 < to_double n.
Proof.
  intros Hn. unfold to_double.
  destruct (N.size n <=? 53) eqn:E; [assumption|].
  apply N.leb_gt in E. cbv zeta.
  set (shift := N.size n - 53).
  assert (Hkept : 0 < N.shiftr n shift).
  { rewrite N.shiftr_div_pow2.
    apply N.div_str_pos. split; [apply N.neq_0_lt_0, N.pow_nonzero; lia|].
    assert (Hsize : N.size n = N.succ (N.log2 n)) by (apply N.size_log2; lia).
    apply N.le_trans with (2 ^ N.log2 n).
    - apply N.pow_le_mono_r; [lia|]. unfold shift. lia.
    - apply N.log2_spec. assumption. }
  rewrite N.shiftl_mul_pow2.
  assert (Hpow : 0 < 2 ^ shift) by (apply N.neq_0_lt_0, N.pow_nonzero; lia).
  destruct ((N.shiftl 1 (shift - 1) <? N.land n (N.ones shift))
            || (N.land n (N.ones shift) =? N.shiftl 1 (shift - 1)) && N.odd (N.shiftr n shift));
    nia.
Qed.

(** An identifier that begins with the digits of a positive number is taken
    for that number, whatever follows the digits. *)
Lemma validateId_decimal_prefix (ds rest : jsstring) :
  forallb is_digit ds = true ->
  0 < Json.digits_value ds ->
  starts_with_digit rest = false ->
  validateId (QString (ds ++ rest))
  = Some (Z.of_N (to_double (Json.digits_value ds))).
Proof.
  intros Hds Hpos Hrest.
  pose proof (parseInt_decimal_prefix _ _ Hds Hpos Hrest) as Hparse.
  pose proof (to_double_positive _ Hpos) as Hvalue.
  destruct ds as [|d ds]; [unfold Json.digits_value in Hpos; simpl in Hpos; lia|].
  unfold validateId. simpl app in *. rewrite Hparse.
  destruct (Z.of_N (to_double (Json.digits_value (d :: ds))) <=? 0)%Z eqn:E;
    [|reflexivity].
  apply Z.leb_le in E. lia.
Qed.

(** Above [2 ^ 53] an identifier is read as the nearest double: a tie goes
    to the even neighbour. *)
Example parseInt_rounds_to_the_nearest_double :
  parseInt (js "9007199254740993") = Some 9007199254740992%Z
  /\ parseInt (js "9007199254740995") = Some 9007199254740996%Z
  /\ parseInt (js "9007199254740992") = Some 9007199254740992%Z
  /\ parseInt (js "-9007199254740993") = Some (-9007199254740992)%Z
  /\ validateId (QString (js "123456789012345678901234567890"))
     = Some 123456789012345677877719597056%Z.
Proof. repeat split; vm_compute; reflexivity. Qed.

(** C7. The specification has every identifier that is not the decimal
    numeral of a positive integer refused with 400 before the store is
    reached, and the message of that refusal asks for a positive integer.
    The handler does less. It refuses an identifier of which [parseInt]
    makes nothing or a value that is not positive: one that is absent, an
    array or empty, one whose first character after white space and a sign
    is not a digit, one whose number is zero or negative; the refusal is a
    plain return, so a run leaves the world as it was. But an identifier
    that begins with the digits of a positive number is taken for that
    number, whatever follows the digits, and the handler goes on to the
    store with it. So on [GET /tasks/12abc], with a task 12 in the table,
    the handler reads task 12 and its subtasks and answers 200. *)
Theorem C7_digits_in_front_are_taken_for_the_identifier :
  (forall req : Request,
      match query_id req with
      | QString s =>
        starts_with_digit (unsigned_part s) = false
        \/ exists z, parseInt s = Some z /\ (z <= 0)%Z
      | QUndefined | QArray _ => True
      end ->
      handler req = Ret (errorResponse msg_bad_id 400)
      /\ statusCode (errorResponse msg_bad_id 400) = 400
      /\ success (errorResponse msg_bad_id 400) = false
      /\ forall w, run (handler req) w = (errorResponse msg_bad_id 400, w))
  /\ (forall ds rest : jsstring,
        forallb is_digit ds = true ->
        0 < Json.digits_value ds ->
        to_double (Json.digits_value ds) < 2 ^ 1024 ->
        starts_with_digit rest = false ->
        let taskId := Z.of_N (to_double (Json.digits_value ds)) in
        validateId (QString (ds ++ rest)) = Some taskId
        /\ (forall body, handler (mkRequest (js "GET") (QString (ds ++ rest)) body)
                         = handle_get taskId)
        /\ (forall body, handler (mkRequest (js "PATCH") (QString (ds ++ rest)) body)
                         = handle_patch taskId body)
        /\ (forall body, handler (mkRequest (js "DELETE") (QString (ds ++ rest)) body)
                         = handle_delete taskId))
  /\ (let req := mkRequest (js "GET") (QString (js "12abc")) JUndefined in
      let t12 := mkTask 12 (js "Write") None pending medium None
                        (js "2024-01-01T08:00:00+00:00") in
      let w := mkWorld (mkTable [t12] 13 (js "2024-01-02T08:00:00+00:00")) []
                       (AiContent None) [] in
      validateId (query_id req) = Some 12%Z
      /\ statusCode (fst (run (handler req) w)) = 200
      /\ success (fst (run (handler req) w)) = true
      /\ journal (snd (run (handler req) w))
         = [ SelectSingle (js "*") (js "id") (num 12);
             SelectOrdered (js "*") (js "parent_id") (num 12) (js "created_at") true ]).
Proof.
  split; [|split].
  - intros req H.
    assert (Hid : validateId (query_id req) = None).
    { destruct (query_id req) as [|s|l]; try reflexivity.
      destruct s as [|c s]; [reflexivity|]. simpl.
      destruct H as [H|[z [Hz Hle]]].
      - now rewrite (parseInt_not_numeric _ H).
      - rewrite Hz. apply Z.leb_le in Hle. now rewrite Hle. }
    assert (Hh : handler req = Ret (errorResponse msg_bad_id 400)).
    { unfold handler. now rewrite Hid. }
    repeat split; try assumption. intros w. now rewrite Hh.
  - intros ds rest Hds Hpos _ Hrest taskId.
    pose proof (validateId_decimal_prefix _ _ Hds Hpos Hrest) as Hid.
    fold taskId in Hid.
    split; [exact Hid|]. split; [|split]; intros body.
    + now apply handler_get.
    + now apply handler_patch.
    + now apply handler_delete.
  - repeat split; vm_compute; reflexivity.
Qed.

(** ** Runs *)

Lemma exec_read_only (c : StoreCall) (tb : Table) :
  mutating c = false -> snd (exec c tb) = tb.
Proof.
  destruct c; simpl; try discriminate; intros _; unfold with_filter;
    repeat match goal with
           | |- context [match ?x with _ => _ end] => destruct x; simpl
           end; reflexivity.
Qed.

Lemma answer_journal (c : StoreCall) (w : World) :
  journal (snd (answer c w)) = journal w ++ [c].
Proof.
  unfold answer. destruct (faults w) as [|[e|] rest]; simpl;
    try destruct (exec c (table w)); reflexivity.
Qed.

Lemma answer_read_only (c : StoreCall) (w : World) :
  mutating c = false -> table (snd (answer c w)) = table w.
Proof.
  intros H. unfold answer. pose proof (exec_read_only c (table w) H) as E.
  destruct (faults w) as [|[e|] rest]; simpl;
    try (destruct (exec c (table w)); simpl in *; assumption); reflexivity.
Qed.

(** A run is one of the behaviours of the program; it appends the calls to
    the journal, and the table can only change through a mutating call. *)
Lemma run_returns {A : Type} (p : Prog A) :
  forall w, exists calls,
    Returns p calls (fst (run p w))
    /\ journal (snd (run p w)) = journal w ++ calls
    /\ (Forall (fun c => mutating c = false) calls ->
        table (snd (run p w)) = table w).
Proof.
  induction p as [a|c k IH|prompt k IH]; intros w.
  - exists []. simpl. rewrite app_nil_r. repeat split. constructor.
  - simpl. destruct (answer c w) as [r w1] eqn:E.
    destruct (IH r w1) as [calls [Hr [Hj Ht]]].
    exists (c :: calls). split; [|split].
    + econstructor. exact Hr.
    + rewrite Hj. pose proof (answer_journal c w) as J. rewrite E in J.
      simpl in J. rewrite J, <- app_assoc. reflexivity.
    + intros HF. inversion HF as [|? ? Hc HF']; subst.
      rewrite (Ht HF'). pose proof (answer_read_only c w Hc) as T.
      now rewrite E in T.
  - simpl. destruct (IH (generator w) w) as [calls [Hr [Hj Ht]]].
    exists calls. split; [|split]; try assumption.
    econstructor. exact Hr.
Qed.

Ltac invert_returns :=
  repeat match goal with
         | H : Returns (Ret _) _ _ |- _ => inversion H; subst; clear H
         | H : Returns (Call _ _) _ _ |- _ => inversion H; subst; clear H
         | H : Returns (Chat _ _) _ _ |- _ => inversion H; subst; clear H
         end.

(** ** Reading one row by its identifier *)

Lemma as_bigint_num (z : Z) : as_bigint (num z) = Some z.
Proof. apply integer_of_Qeq. reflexivity. Qed.

(** The answer of the table to [select(columns).eq('id', q).single()] when
    [q] is the integer [z]. *)
Lemma exec_select_by_id (columns : jsstring) (q : Q) (z : Z) (tb : Table) :
  q == inject_Z z ->
  exec (SelectSingle columns (js "id") (JNum q)) tb
  = match filter (fun t => (id t =? z)%Z) (tasks tb) with
    | [t] => match project columns t with
             | Some v => (ok v, tb)
             | None => (bad_column, tb)
             end
    | _ => (no_rows, tb)
    end.
Proof.
  intros Hq. destruct (integer_of_Qeq _ _ Hq) as [_ Hb].
  unfold exec, with_filter. rewrite Hb. reflexivity.
Qed.

Lemma exec_select_by_num (columns : jsstring) (z : Z) (tb : Table) :
  exec (SelectSingle columns (js "id") (num z)) tb
  = match filter (fun t => (id t =? z)%Z) (tasks tb) with
    | [t] => match project columns t with
             | Some v => (ok v, tb)
             | None => (bad_column, tb)
             end
    | _ => (no_rows, tb)
    end.
Proof. apply exec_select_by_id. reflexivity. Qed.

Lemma project_star (t : Task) : project (js "*") t = Some (JObj (row t)).
Proof. reflexivity. Qed.

Lemma project_id_parent (t : Task) :
  project (js "id, parent_id") t
  = Some (JObj [(js "id", num (id t)); (js "parent_id", nullable num (parent_id t))]).
Proof. reflexivity. Qed.

Lemma project_id_title (t : Task) :
  project (js "id, title") t
  = Some (JObj [(js "id", num (id t)); (js "title", JStr (title t))]).
Proof. reflexivity. Qed.

(** A row found alone under its identifier is the row one knows there. *)
Lemma filter_single_id (z : Z) (ts : list Task) (t b : Task) :
  filter (fun u => (id u =? z)%Z) ts = [t] -> In b ts -> id b = z -> t = b.
Proof.
  intros Hf Hin Hid.
  assert (Hb : In b (filter (fun u => (id u =? z)%Z) ts)).
  { apply filter_In. split; [assumption|]. now apply Z.eqb_eq. }
  rewrite Hf in Hb. destruct Hb as [Hb|[]]. exact Hb.
Qed.

(** What a call answers when the next fault is known. *)
Lemma answer_no_fault (c : StoreCall) (w : World) :
  match faults w with [] | None :: _ => True | Some _ :: _ => False end ->
  answer c w
  = (fst (exec c (table w)),
     mkWorld (snd (exec c (table w))) (tl (faults w)) (generator w) (journal w ++ [c])).
Proof.
  unfold answer. destruct (faults w) as [|[e|] rest]; intros H;
    try contradiction; destruct (exec c (table w)); reflexivity.
Qed.

Lemma answer_fault (c : StoreCall) (w : World) (e : StoreError) rest :
  faults w = Some e :: rest ->
  answer c w
  = (mkStoreResponse JNull (Some e),
     mkWorld (table w) rest (generator w) (journal w ++ [c])).
Proof. unfold answer. intros ->. reflexivity. Qed.

(** ** The identifiers of the table *)

Lemma cascade_subset (fuel : nat) :
  forall (gone : list Z) (ts : list Task) (u : Task),
    In u (cascade fuel gone ts) -> In u ts.
Proof.
  induction fuel as [|fuel IH]; intros gone ts u H; simpl in H; [exact H|].
  match type of H with
  | In _ (match ?d with _ => _ end) => destruct d eqn:E
  end; [exact H|].
  apply IH in H. apply filter_In in H. tauto.
Qed.

Lemma delete_rows_spec (f : Task -> bool) (ts : list Task) (u : Task) :
  In u (delete_rows f ts) -> In u ts /\ f u = false.
Proof.
  unfold delete_rows. intros H. apply cascade_subset in H.
  apply filter_In in H as [Hin Hf]. split; [exact Hin|].
  now apply negb_true_iff.
Qed.

Lemma assign_column_id all k v t t' :
  assign_column all k v t = Some t' -> id t' = id t.
Proof.
  unfold assign_column.
  repeat match goal with
         | |- context [if ?b then _ else _] => destruct b
         | |- context [match ?x with _ => _ end] => destruct x
         end; intros H; try discriminate H; injection H as <-; reflexivity.
Qed.

Lemma assign_columns_id all values :
  forall t t', assign_columns all values t = Some t' -> id t' = id t.
Proof.
  induction values as [|[k v] rest IH]; intros t t' H; simpl in H.
  - now injection H as <-.
  - destruct (assign_column all k v t) as [t1|] eqn:E; [|discriminate].
    rewrite (IH _ _ H). eapply assign_column_id. exact E.
Qed.

Lemma update_rows_ids all values f ts :
  forall ts' changed,
    update_rows all values f ts = Some (ts', changed) -> map id ts' = map id ts.
Proof.
  induction ts as [|t ts IH]; intros ts' changed H; simpl in H.
  - now injection H as <- <-.
  - destruct (update_rows all values f ts) as [[ts1 changed1]|]; [|discriminate].
    specialize (IH _ _ eq_refl).
    destruct (f t).
    + destruct (assign_columns all values t) as [t1|] eqn:E; [|discriminate].
      injection H as <- <-. simpl. rewrite IH.
      now rewrite (assign_columns_id _ _ _ _ E).
    + injection H as <- <-. simpl. now rewrite IH.
Qed.

Lemma new_tasks_ids all stamp vs :
  forall fresh ts,
    new_tasks all fresh stamp vs = Some ts ->
    Forall (fun t => (fresh <= id t < fresh + Z.of_nat (List.length ts))%Z) ts.
Proof.
  induction vs as [|v vs IH]; intros fresh ts H; simpl in H.
  - injection H as <-. constructor.
  - destruct (new_task all fresh stamp v) as [t|] eqn:Et; [|discriminate].
    destruct (new_tasks all (fresh + 1)%Z stamp vs) as [ts1|] eqn:E; [|discriminate].
    injection H as <-. constructor.
    + assert (Hid : id t = fresh).
      { unfold new_task in Et. destruct v; try discriminate.
        destruct (lookup (js "title") fields) as [[| | | |s| |]|]; try discriminate.
        now rewrite (assign_columns_id _ _ _ _ Et). }
      rewrite Hid. simpl List.length. lia.
    + specialize (IH _ _ E). eapply Forall_impl; [|exact IH].
      intros u Hu. simpl List.length. simpl in Hu. lia.
Qed.

(** Every call keeps the identifiers in the range of the sequence. *)
Lemma exec_keeps_serial (c : StoreCall) (tb : Table) :
  serial tb -> serial (snd (exec c tb)).
Proof.
  intros [Hnext Hids].
  destruct c as [columns column value|columns column value order_by ascending
                 |values column value|column value|rows];
    try (rewrite exec_read_only by reflexivity; split; assumption).
  - unfold exec, with_filter.
    destruct (as_bigint value); [|split; assumption].
    destruct (eq_filter column z) as [f|]; [|split; assumption].
    destruct (update_rows (tasks tb) values f (tasks tb)) as [[ts' changed]|] eqn:E;
      [|split; assumption].
    split; cbn [snd tasks next_id]; [exact Hnext|].
    apply update_rows_ids in E.
    apply (Forall_map id (fun z => (0 < z < next_id tb)%Z)).
    rewrite E. now apply Forall_map.
  - unfold exec, with_filter.
    destruct (as_bigint value); [|split; assumption].
    destruct (eq_filter column z) as [f|]; [|split; assumption].
    split; cbn [snd tasks next_id]; [exact Hnext|].
    rewrite Forall_forall in *. intros u Hu.
    apply delete_rows_spec in Hu as [Hu _]. now apply Hids.
  - unfold exec.
    destruct (new_tasks (tasks tb) (next_id tb) (now tb) rows) as [ts|] eqn:E;
      [|split; assumption].
    apply new_tasks_ids in E. split; cbn [snd tasks next_id]; [lia|].
    apply Forall_app. split.
    + eapply Forall_impl; [|exact Hids]. intros u Hu. simpl in Hu. lia.
    + eapply Forall_impl; [|exact E]. intros u Hu. simpl in Hu. lia.
Qed.

(** So does every run of every handler. *)
Lemma run_keeps_serial {A : Type} (p : Prog A) :
  forall w, serial (table w) -> serial (table (snd (run p w))).
Proof.
  induction p as [a|c k IH|prompt k IH]; intros w Hs; cbn [run].
  - exact Hs.
  - destruct (answer c w) as [r w1] eqn:E. apply IH.
    assert (Ht : table w1 = table w \/ table w1 = snd (exec c (table w))).
    { unfold answer in E. destruct (faults w) as [|[e|] rest].
      - destruct (exec c (table w)). injection E as <- <-. now right.
      - injection E as <- <-. now left.
      - destruct (exec c (table w)). injection E as <- <-. now right. }
    destruct Ht as [->| ->]; [exact Hs|now apply exec_keeps_serial].
  - now apply IH.
Qed.

(** ** Self-parenting *)

(** C2. A PATCH whose payload names the task itself as parent is answered
    400 whatever else the payload holds: with the messages of the validator
    when another field is invalid, with the self-parent message when the
    payload validates. The handler is then a plain return: no call reaches
    the store, and a run leaves the world as it was. *)
Theorem C2_self_parent_rejected (req : Request) (taskId : Z) (q : Q) :
  str_eqb (method req) (js "PATCH") = true ->
  validateId (query_id req) = Some taskId ->
  get (body req) (js "parent_id") = JNum q ->
  q == inject_Z taskId ->
  exists m,
    handler req = Ret (errorResponse m 400)
    /\ (forall s, validateUpdateRequest (body req) = Normal s ->
                  errors s = [] -> m = msg_self_parent)
    /\ forall w, run (handler req) w = (errorResponse m 400, w).
Proof.
  intros Hm Hid Hget Hq.
  rewrite (handler_patch _ _ Hm Hid).
  destruct (body req) as [| | | | | |fields] eqn:Hbody; try discriminate Hget.
  destruct (integer_of_Qeq _ _ Hq) as [Hint _].
  unfold handle_patch.
  rewrite validateUpdateRequest_object, Hget, (update_parent_id_integer _ _ Hint).
  set (st := before_parent_id (JObj fields)).
  cbn [errors updateData assign].
  destruct (Nat.ltb 0 (List.length (errors st))) eqn:Herr.
  - eexists. split; [reflexivity|]. split; [|reflexivity].
    intros s Hs Hnil. injection Hs as <-. cbn [errors assign] in Hnil.
    rewrite Hnil in Herr. discriminate Herr.
  - destruct (Nat.eqb (List.length (set (js "parent_id") (JNum q) (updateData st))) 0)
      eqn:Hlen.
    { apply Nat.eqb_eq in Hlen. now destruct (set_not_empty _ _ _ Hlen). }
    rewrite get_set_same.
    assert (Hself : strict_eq (JNum q) (num taskId) = true)
      by now apply strict_eq_num.
    rewrite Hself.
    exists msg_self_parent. repeat split; reflexivity.
Qed.

(** [PATCH /tasks/7] with [{ title: "New", parent_id: 7 }]. *)
Lemma C2_witness :
  exists m,
    handler (mkRequest (js "PATCH") (QString (js "7"))
               (JObj [(js "title", JStr (js "New")); (js "parent_id", num 7)]))
    = Ret (errorResponse m 400).
Proof.
  destruct (C2_self_parent_rejected
              (mkRequest (js "PATCH") (QString (js "7"))
                 (JObj [(js "title", JStr (js "New")); (js "parent_id", num 7)]))
              7%Z (inject_Z 7)) as [m [H _]]; try reflexivity.
  exists m. exact H.
Defined.

(** ** Atomicity of a refused PATCH *)

Lemma apply_update_never_400 (taskId : Z) (values : list (jsstring * JSValue))
      (calls : list StoreCall) (resp : Response) :
  Returns (apply_update taskId values) calls resp -> statusCode resp <> 400.
Proof.
  unfold apply_update. intros H. invert_returns.
  destruct (error r); [|destruct (negb (truthy (data r)) || length_is_zero (data r))];
    invert_returns; simpl; discriminate.
Qed.

(** On the way to a 400 a PATCH only reads. *)
Lemma patch_refusal_reads_only (req : Request) (calls : list StoreCall) (resp : Response) :
  str_eqb (method req) (js "PATCH") = true ->
  Returns (handler req) calls resp -> statusCode resp = 400 ->
  Forall (fun c => mutating c = false) calls.
Proof.
  intros Hm Hr H400.
  destruct (validateId (query_id req)) as [taskId|] eqn:Hid.
  - rewrite (handler_patch _ _ Hm Hid) in Hr. unfold handle_patch in Hr.
    destruct (validateUpdateRequest (body req)) as [st|];
      [|invert_returns; constructor].
    repeat match type of Hr with
           | Returns (if ?b then _ else _) _ _ => destruct b
           end; invert_returns; try solve [constructor].
    + repeat match goal with
             | H : Returns (if ?b then _ else _) _ _ |- _ => destruct b
             end; invert_returns;
        try solve [constructor; [reflexivity|constructor]].
      exfalso. eapply apply_update_never_400; eassumption.
    + exfalso. eapply apply_update_never_400; eassumption.
  - unfold handler in Hr. rewrite Hid in Hr. invert_returns. constructor.
Qed.

Lemma patch_refusal_keeps_table (req : Request) (w : World) :
  str_eqb (method req) (js "PATCH") = true ->
  statusCode (fst (run (handler req) w)) = 400 ->
  table (snd (run (handler req) w)) = table w.
Proof.
  intros Hm H400.
  destruct (run_returns (handler req) w) as [calls [Hr [_ Ht]]].
  apply Ht. eapply patch_refusal_reads_only; eassumption.
Qed.

(** C10. A PATCH answered 400 is answered before the update call: whatever
    the store replies, the calls issued on the way to a 400 are reads, and
    a run against the table leaves every row as it was. *)
Theorem C10_patch_rejection_is_atomic (req : Request) :
  str_eqb (method req) (js "PATCH") = true ->
  (forall calls resp,
      Returns (handler req) calls resp -> statusCode resp = 400 ->
      Forall (fun c => mutating c = false) calls)
  /\ (forall w,
        statusCode (fst (run (handler req) w)) = 400 ->
        table (snd (run (handler req) w)) = table w).
Proof.
  intros Hm. split.
  - intros calls resp. now apply patch_refusal_reads_only.
  - intros w. now apply patch_refusal_keeps_table.
Qed.

(** [PATCH /tasks/1] with an empty payload. *)
Lemma C10_witness :
  let req := mkRequest (js "PATCH") (QString (js "1")) (JObj []) in
  let w := desk [] (AiContent None) in
  table (snd (run (handler req) w)) = table w.
Proof.
  intros req w.
  apply (C10_patch_rejection_is_atomic req); reflexivity.
Defined.

(** ** The hierarchy guard *)

Lemma truthy_nonzero (q : Q) (z : Z) :
  q == inject_Z z -> z <> 0%Z -> truthy (JNum q) = true.
Proof.
  unfold Qeq, inject_Z; simpl. intros H Hz.
  apply negb_true_iff, Z.eqb_neq. intros E. rewrite E in H. lia.
Qed.

Lemma get_parent_of_projection (a b : JSValue) :
  get (JObj [(js "id", a); (js "parent_id", b)]) (js "parent_id") = b.
Proof. reflexivity. Qed.

Lemma strict_eq_num_refl (z : Z) : strict_eq (num z) (num z) = true.
Proof. apply strict_eq_num. reflexivity. Qed.

(** The guard of PATCH in front of a parent [B] whose own parent is the
    task: every way through it ends in a 400, and the way of a valid
    payload, a store that answers and a single row [B] ends at the cycle
    message. *)
Lemma guard_refuses_child_as_parent
  (taskId : Z) (fields : list (jsstring * JSValue)) (w : World) (B : Task) (q : Q) :
  In B (tasks (table w)) ->
  parent_id B = Some taskId ->
  (0 < id B)%Z ->
  get (JObj fields) (js "parent_id") = JNum q ->
  q == inject_Z (id B) ->
  statusCode (fst (run (handle_patch taskId (JObj fields)) w)) = 400
  /\ success (fst (run (handle_patch taskId (JObj fields)) w)) = false
  /\ (errors (before_parent_id (JObj fields)) = [] ->
      id B <> taskId ->
      faults w = [] ->
      filter (fun u => (id u =? id B)%Z) (tasks (table w)) = [B] ->
      failure (fst (run (handle_patch taskId (JObj fields)) w)) = JStr msg_cycle).
Proof.
  intros Hin Hparent Hpos Hget Hq.
  destruct (integer_of_Qeq _ _ Hq) as [Hint _].
  unfold handle_patch.
  rewrite validateUpdateRequest_object, Hget, (update_parent_id_integer _ _ Hint).
  set (st := before_parent_id (JObj fields)).
  cbn [errors updateData assign].
  destruct (Nat.ltb 0 (List.length (errors st))) eqn:Herr.
  { cbn. repeat split. intros Hnil. rewrite Hnil in Herr. discriminate Herr. }
  destruct (Nat.eqb (List.length (set (js "parent_id") (JNum q) (updateData st))) 0)
    eqn:Hlen.
  { apply Nat.eqb_eq in Hlen. now destruct (set_not_empty _ _ _ Hlen). }
  rewrite get_set_same.
  destruct (strict_eq (JNum q) (num taskId)) eqn:Hself.
  { cbn. repeat split. intros _ Hne _ _. exfalso. apply Hne.
    apply strict_eq_num in Hself. rewrite Hq in Hself.
    unfold Qeq, inject_Z in Hself; simpl in Hself. lia. }
  rewrite (truthy_nonzero q (id B) Hq) by lia.
  cbn [run].
  destruct (faults w) as [|[e|] rest] eqn:Hf.
  - rewrite answer_no_fault by (rewrite Hf; exact I).
    rewrite (exec_select_by_id _ _ _ _ Hq).
    destruct (filter (fun t => (id t =? id B)%Z) (tasks (table w)))
      as [|t [|t' l]] eqn:Hrow.
    + cbn. repeat split. intros _ _ _ H. discriminate H.
    + rewrite (filter_single_id _ _ _ B Hrow Hin eq_refl), project_id_parent.
      cbn [fst snd ok error data is_some truthy negb orb].
      rewrite get_parent_of_projection, Hparent. cbn [nullable].
      rewrite strict_eq_num_refl. cbn. repeat split.
    + cbn. repeat split. intros _ _ _ H. discriminate H.
  - rewrite (answer_fault _ _ e rest Hf). cbn. repeat split.
    intros _ _ H. discriminate H.
  - rewrite answer_no_fault by (rewrite Hf; exact I).
    rewrite (exec_select_by_id _ _ _ _ Hq).
    destruct (filter (fun t => (id t =? id B)%Z) (tasks (table w)))
      as [|t [|t' l]] eqn:Hrow.
    + cbn. repeat split. intros _ _ H. discriminate H.
    + rewrite (filter_single_id _ _ _ B Hrow Hin eq_refl), project_id_parent.
      cbn [fst snd ok error data is_some truthy negb orb].
      rewrite get_parent_of_projection, Hparent. cbn [nullable].
      rewrite strict_eq_num_refl. cbn. repeat split.
    + cbn. repeat split. intros _ _ H. discriminate H.
Qed.

(** C3. With a row [B] in the table whose parent is the task [A], a PATCH
    of [A] that names [B] as its parent fails with 400 and changes no row,
    whatever else the payload holds and whether or not the store answers;
    for a valid payload and a store that answers, the refusal is the one of
    the cycle check. The table is one the store can be in: its identifiers
    come from the BIGSERIAL sequence ([serial], kept by every call). *)
Theorem C3_two_node_cycle_rejected
  (req : Request) (w : World) (A B : Task) (q : Q) :
  str_eqb (method req) (js "PATCH") = true ->
  validateId (query_id req) = Some (id A) ->
  serial (table w) ->
  In B (tasks (table w)) ->
  parent_id B = Some (id A) ->
  get (body req) (js "parent_id") = JNum q ->
  q == inject_Z (id B) ->
  statusCode (fst (run (handler req) w)) = 400
  /\ success (fst (run (handler req) w)) = false
  /\ table (snd (run (handler req) w)) = table w
  /\ (errors (before_parent_id (body req)) = [] ->
      id B <> id A ->
      faults w = [] ->
      filter (fun u => (id u =? id B)%Z) (tasks (table w)) = [B] ->
      failure (fst (run (handler req) w)) = JStr msg_cycle).
Proof.
  intros Hm Hid [_ Hserial] Hin Hparent Hget Hq.
  assert (Hpos : (0 < id B)%Z).
  { rewrite Forall_forall in Hserial. apply (Hserial B Hin). }
  assert (H400 : statusCode (fst (run (handler req) w)) = 400
                 /\ success (fst (run (handler req) w)) = false
                 /\ (errors (before_parent_id (body req)) = [] ->
                     id B <> id A ->
                     faults w = [] ->
                     filter (fun u => (id u =? id B)%Z) (tasks (table w)) = [B] ->
                     failure (fst (run (handler req) w)) = JStr msg_cycle)).
  { rewrite (handler_patch _ _ Hm Hid).
    destruct (body req) as [| | | | | |fields] eqn:Hbody; try discriminate Hget.
    now apply (guard_refuses_child_as_parent (id A) fields w B q). }
  destruct H400 as [H1 [H2 H3]].
  repeat split; try assumption.
  now apply patch_refusal_keeps_table.
Qed.

(** [PATCH /tasks/1] with [{ parent_id: 2 }] where task 2 is a child of
    task 1. *)
Lemma C3_witness :
  let req := mkRequest (js "PATCH") (QString (js "1")) (JObj [(js "parent_id", num 2)]) in
  let w := desk [] (AiContent None) in
  statusCode (fst (run (handler req) w)) = 400
  /\ failure (fst (run (handler req) w)) = JStr msg_cycle
  /\ table (snd (run (handler req) w)) = table w.
Proof.
  intros req w.
  destruct (C3_two_node_cycle_rejected req w write draft (inject_Z 2))
    as [H1 [_ [H3 H4]]]; try reflexivity.
  - split; [reflexivity|]. repeat constructor.
  - simpl. right. left. reflexivity.
  - split; [exact H1|]. split; [|exact H3].
    apply H4; try reflexivity. simpl. lia.
Defined.

(** The guard looks one level up and no further: in a chain of three, the
    task at the top can be put under the task at the bottom. *)
Example deeper_cycle_is_accepted :
  let req := mkRequest (js "PATCH") (QString (js "1")) (JObj [(js "parent_id", num 3)]) in
  statusCode (fst (run (handler req) shelf)) = 200
  /\ map (fun t => (id t, parent_id t)) (tasks (table (snd (run (handler req) shelf))))
     = [(1%Z, Some 3%Z); (2%Z, Some 1%Z); (3%Z, Some 2%Z)].
Proof. split; vm_compute; reflexivity. Qed.

(** A PATCH that passes changes the fields it names and no other. *)
Example patch_updates_status :
  let req := mkRequest (js "PATCH") (QString (js "2"))
                       (JObj [(js "status", JStr (js "completed"))]) in
  let w := desk [] (AiContent None) in
  statusCode (fst (run (handler req) w)) = 200
  /\ tasks (table (snd (run (handler req) w)))
     = [ write;
         mkTask 2 (js "Draft") None completed medium (Some 1%Z)
                (js "2024-01-02T08:00:00+00:00") ].
Proof. split; vm_compute; reflexivity. Qed.

(** ** GET and the query for the subtasks *)

Lemma exec_select_children (z : Z) (tb : Table) :
  filter (fun u => match parent_id u with Some p => (p =? z)%Z | None => false end)
         (tasks tb) = [] ->
  exec (SelectOrdered (js "*") (js "parent_id") (num z) (js "created_at") true) tb
  = (ok (JArr []), tb).
Proof.
  intros H. unfold exec, with_filter. rewrite as_bigint_num.
  change (eq_filter (js "parent_id") z)
    with (Some (fun u : Task =>
                  match parent_id u with Some p => (p =? z)%Z | None => false end)).
  cbv iota beta. rewrite H. reflexivity.
Qed.

Lemma subtasks_appended (t : Task) (v : JSValue) :
  set (js "subtasks") v (row t) = row t ++ [(js "subtasks", v)].
Proof. reflexivity. Qed.

(** C9. When the task is fetched and the query for its children fails, GET
    ignores the failure: it answers 200 with [success: true] and an empty
    [subtasks] array, the very response it gives for a task without
    children. *)
Theorem C9_failed_subtask_query_is_silent
  (req : Request) (w : World) (taskId : Z) (t : Task)
  (e : StoreError) (rest : list (option StoreError)) :
  str_eqb (method req) (js "GET") = true ->
  validateId (query_id req) = Some taskId ->
  filter (fun u => (id u =? taskId)%Z) (tasks (table w)) = [t] ->
  faults w = None :: Some e :: rest ->
  statusCode (fst (run (handler req) w)) = 200
  /\ success (fst (run (handler req) w)) = true
  /\ payload (fst (run (handler req) w)) = JObj (row t ++ [(js "subtasks", JArr [])])
  /\ forall w0,
      filter (fun u => (id u =? taskId)%Z) (tasks (table w0)) = [t] ->
      filter (fun u => match parent_id u with
                       | Some p => (p =? taskId)%Z
                       | None => false
                       end) (tasks (table w0)) = [] ->
      faults w0 = [] ->
      fst (run (handler req) w0) = fst (run (handler req) w).
Proof.
  intros Hm Hid Hrow Hfaults.
  rewrite (handler_get _ _ Hm Hid). unfold handle_get.
  assert (Hrun : fst (run
     (Call (SelectSingle (js "*") (js "id") (num taskId)) (fun r =>
        match error r with
        | Some e0 =>
          if str_eqb (code e0) (js "PGRST116")
          then Ret (errorResponse msg_not_found 404)
          else Ret (errorResponse (msg_get_failed ++ message e0) 500)
        | None =>
          Call (SelectOrdered (js "*") (js "parent_id") (num taskId)
                              (js "created_at") true)
            (fun r2 =>
               Ret (successResponse
                      (JObj (set (js "subtasks")
                                 (if truthy (data r2) then data r2 else JArr [])
                                 (spread (data r)))) 200))
        end)) w)
     = successResponse (JObj (row t ++ [(js "subtasks", JArr [])])) 200).
  { cbn [run]. rewrite answer_no_fault by (rewrite Hfaults; exact I).
    rewrite exec_select_by_num, Hrow, project_star. cbn [fst snd ok error data].
    cbn [run]. erewrite answer_fault by (cbn [faults tl]; rewrite Hfaults; reflexivity).
    cbn [run fst data truthy spread]. now rewrite subtasks_appended. }
  rewrite Hrun. repeat split.
  intros w0 Hrow0 Hnone Hfaults0.
  cbn [run]. rewrite answer_no_fault by (rewrite Hfaults0; exact I).
  rewrite exec_select_by_num, Hrow0, project_star. cbn [fst snd ok error data].
  cbn [run]. rewrite answer_no_fault by (cbn [faults tl]; rewrite Hfaults0; exact I).
  cbn [table]. rewrite (exec_select_children _ _ Hnone).
  cbn [run fst ok data truthy spread]. now rewrite subtasks_appended.
Qed.

(** [GET /tasks/1] on a table where task 1 has a child, while the second
    call to the store fails. *)
Lemma C9_witness :
  let req := mkRequest (js "GET") (QString (js "1")) JUndefined in
  let w := desk [None; Some timeout] (AiContent None) in
  statusCode (fst (run (handler req) w)) = 200
  /\ success (fst (run (handler req) w)) = true
  /\ payload (fst (run (handler req) w)) = JObj (row write ++ [(js "subtasks", JArr [])]).
Proof.
  intros req w.
  destruct (C9_failed_subtask_query_is_silent req w 1%Z write timeout [])
    as [H1 [H2 [H3 _]]]; try reflexivity.
  repeat split; assumption.
Defined.

(** ** DELETE *)

Lemma exec_delete_by_num (z : Z) (tb : Table) :
  exec (Delete (js "id") (num z)) tb
  = (ok JNull,
     mkTable (delete_rows (fun t => (id t =? z)%Z) (tasks tb)) (next_id tb) (now tb)).
Proof. unfold exec, with_filter. rewrite as_bigint_num. reflexivity. Qed.

(** C8 (as amended). DELETE answers 404 when no row has the identifier, and
    leaves the table alone. When the row is there and the store answers
    both calls, the row goes (no other row comes in), the answer is 200 and
    its [deleted] member holds the [id] and the [title] of the row as they
    were before the deletion, and nothing else: the existence check selects
    these two columns only. *)
Theorem C8_delete_returns_id_and_title
  (req : Request) (w : World) (taskId : Z) :
  str_eqb (method req) (js "DELETE") = true ->
  validateId (query_id req) = Some taskId ->
  (filter (fun u => (id u =? taskId)%Z) (tasks (table w)) = [] ->
     statusCode (fst (run (handler req) w)) = 404
     /\ success (fst (run (handler req) w)) = false
     /\ table (snd (run (handler req) w)) = table w)
  /\ (forall t,
        filter (fun u => (id u =? taskId)%Z) (tasks (table w)) = [t] ->
        faults w = [] ->
        statusCode (fst (run (handler req) w)) = 200
        /\ success (fst (run (handler req) w)) = true
        /\ payload (fst (run (handler req) w))
           = JObj [ (js "message", JStr msg_deleted);
                    (js "deleted",
                     JObj [(js "id", num (id t)); (js "title", JStr (title t))]) ]
        /\ forall u, In u (tasks (table (snd (run (handler req) w)))) ->
                     In u (tasks (table w)) /\ id u <> taskId).
Proof.
  intros Hm Hid. rewrite (handler_delete _ _ Hm Hid). unfold handle_delete.
  split.
  - intros Hnone. cbn [run].
    destruct (faults w) as [|[e|] rest] eqn:Hf.
    + rewrite answer_no_fault by (rewrite Hf; exact I).
      rewrite exec_select_by_num, Hnone. cbn. repeat split.
    + rewrite (answer_fault _ _ e rest Hf). cbn. repeat split.
    + rewrite answer_no_fault by (rewrite Hf; exact I).
      rewrite exec_select_by_num, Hnone. cbn. repeat split.
  - intros t Hrow Hf. cbn [run].
    rewrite answer_no_fault by (rewrite Hf; exact I).
    rewrite exec_select_by_num, Hrow, project_id_title.
    cbn [fst snd ok error data is_some truthy negb orb].
    cbn [run]. rewrite answer_no_fault by (cbn [faults tl]; rewrite Hf; exact I).
    cbn [table]. rewrite exec_delete_by_num.
    cbn [fst snd ok error data run statusCode success payload successResponse table tasks].
    repeat split; try reflexivity.
    + apply delete_rows_spec in H. tauto.
    + apply delete_rows_spec in H as [_ H]. intros E. apply Z.eqb_neq in H. contradiction.
Qed.

(** [DELETE /tasks/1] on a table that holds task 1 and nothing else. *)
Lemma C8_witness :
  let req := mkRequest (js "DELETE") (QString (js "1")) JUndefined in
  statusCode (fst (run (handler req) kitchen)) = 200
  /\ payload (fst (run (handler req) kitchen))
     = JObj [ (js "message", JStr msg_deleted);
              (js "deleted", JObj [(js "id", num 1); (js "title", JStr (js "Buy milk"))]) ].
Proof.
  intros req.
  destruct (C8_delete_returns_id_and_title req kitchen 1%Z) as [_ H];
    try reflexivity.
  destruct (H milk) as [H1 [_ [H3 _]]]; try reflexivity.
  split; assumption.
Defined.

(** The specification has the whole row returned; that fails on the same
    request: the [deleted] member is not the row as it was, it has no
    [description], [status], [priority], [parent_id] or [created_at]. *)
Lemma C8_counterexample :
  let req := mkRequest (js "DELETE") (QString (js "1")) JUndefined in
  let deleted := get (payload (fst (run (handler req) kitchen))) (js "deleted") in
  statusCode (fst (run (handler req) kitchen)) = 200
  /\ deleted <> JObj (row milk)
  /\ get (JObj (row milk)) (js "status") = JStr (js "completed")
  /\ get deleted (js "status") = JUndefined
  /\ get deleted (js "description") = JUndefined
  /\ get deleted (js "created_at") = JUndefined.
Proof.
  repeat split; try (vm_compute; reflexivity).
  vm_compute. discriminate.
Qed.

(** Deleting a parent deletes its descendants. *)
Example delete_cascades :
  let req := mkRequest (js "DELETE") (QString (js "1")) JUndefined in
  statusCode (fst (run (handler req) shelf)) = 200
  /\ tasks (table (snd (run (handler req) shelf))) = [].
Proof. split; vm_compute; reflexivity. Qed.

(** ** The breakdown *)

Lemma new_tasks_length (all : list Task) (stamp : jsstring) (vs : list JSValue) :
  forall (fresh : Z) (ts : list Task),
    new_tasks all fresh stamp vs = Some ts -> List.length ts = List.length vs.
Proof.
  induction vs as [|v vs IH]; intros fresh ts H; simpl in H.
  - injection H as <-. reflexivity.
  - destruct (new_task all fresh stamp v); [|discriminate].
    destruct (new_tasks all (fresh + 1)%Z stamp vs) as [ts'|] eqn:E; [|discriminate].
    injection H as <-. simpl. f_equal. eapply IH. exact E.
Qed.

(** The second testable property of the parser: a well-formed reply is read
    as it is, by the first layer. *)
Example parse_well_formed :
  Breakdown.parse_subtasks three_steps
  = JArr [JStr (js "Step one"); JStr (js "Step two"); JStr (js "Step three")].
Proof. vm_compute. reflexivity. Qed.

(** A fenced reply goes through the first layer too. *)
Example parse_fenced :
  Breakdown.clean_response fenced_steps = jsq "['A','B','C','D']"
  /\ Breakdown.parse_subtasks fenced_steps
     = JArr [JStr (js "A"); JStr (js "B"); JStr (js "C"); JStr (js "D")].
Proof. split; vm_compute; reflexivity. Qed.

(** Seven steps in the reply, five rows in the table. *)
Example seven_steps_make_five_rows :
  let r := run (breakdown (by_title "Learn Rocq"))
               (desk [] (AiContent (Some seven_steps))) in
  statusCode (fst r) = 201
  /\ map title (tasks (table (snd r)))
     = [js "Write"; js "Draft"; js "a1"; js "b2"; js "c3"; js "d4"; js "e5"].
Proof. split; vm_compute; reflexivity. Qed.

(** A breakdown of task 1: the three rows are its children. *)
Example breakdown_by_id :
  let r := run (breakdown (by_id 1)) (desk [] (AiContent (Some three_steps))) in
  statusCode (fst r) = 201
  /\ map (fun t => (id t, title t, parent_id t)) (skipn 2 (tasks (table (snd r))))
     = [ (3%Z, js "Step one", Some 1%Z); (4%Z, js "Step two", Some 1%Z);
         (5%Z, js "Step three", Some 1%Z) ].
Proof. split; vm_compute; reflexivity. Qed.

(** ** The line layer of the parser *)

(** A reply that is not JSON and has no bracketed part is read by no layer:
    the handler of the first failure finds nothing to match, [subtasks]
    stays empty, and the lines are not looked at. *)
Lemma no_bracket_no_subtasks (aiResponse : jsstring) :
  Json.parse (Breakdown.clean_response aiResponse) = None ->
  Breakdown.match_array aiResponse = None ->
  Breakdown.parse_subtasks aiResponse = JArr [].
Proof.
  intros Hparse Hmatch. unfold Breakdown.parse_subtasks.
  cbv zeta. rewrite Hparse. unfold Breakdown.second_attempt. now rewrite Hmatch.
Qed.

(** C6. The three numbered lines [1. Do X], [2. Do Y], [3. Do Z] do not
    come out as [Do X], [Do Y], [Do Z]. The reply is not JSON and has no bracket, so the
    line layer is not reached: [subtasks] is empty and the request ends in
    the 400 of an empty result, with no call to the store. And the line
    layer itself, on these lines, removes the digit but not the dot after
    it. *)
Theorem C6_numbered_lines_are_not_parsed :
  Json.parse (Breakdown.clean_response numbered_lines) = None
  /\ Breakdown.match_array numbered_lines = None
  /\ Breakdown.parse_subtasks numbered_lines = JArr []
  /\ Breakdown.parse_subtasks numbered_lines
     <> JArr [JStr (js "Do X"); JStr (js "Do Y"); JStr (js "Do Z")]
  /\ Breakdown.line_steps numbered_lines = [js ". Do X"; js ". Do Y"; js ". Do Z"]
  /\ statusCode (fst (run (breakdown (by_title "Plan"))
                          (desk [] (AiContent (Some numbered_lines))))) = 400
  /\ failure (fst (run (breakdown (by_title "Plan"))
                       (desk [] (AiContent (Some numbered_lines)))))
     = JStr Breakdown.msg_no_subtasks
  /\ journal (snd (run (breakdown (by_title "Plan"))
                       (desk [] (AiContent (Some numbered_lines))))) = [].
Proof.
  assert (Hparse : Json.parse (Breakdown.clean_response numbered_lines) = None)
    by (vm_compute; reflexivity).
  assert (Hmatch : Breakdown.match_array numbered_lines = None)
    by (vm_compute; reflexivity).
  pose proof (no_bracket_no_subtasks _ Hparse Hmatch) as Hnone.
  repeat split; try assumption; try (vm_compute; reflexivity).
  rewrite Hnone. discriminate.
Qed.

(** The line layer is reached when a bracketed part is there and does not
    parse; the numbered lines then keep their dot. *)
Example line_layer_keeps_the_dot :
  Breakdown.parse_subtasks bracketed_lines
  = JArr [JStr (js "Plan [draft]:"); JStr (js ". Do X"); JStr (js ". Do Y");
          JStr (js ". Do Z")].
Proof. vm_compute. reflexivity. Qed.

(* ===================================================================== *)
(** * Further properties                                                  *)
(* ===================================================================== *)

(** ** Creating a task *)

Lemma includes_true (names : list jsstring) (v : JSValue) :
  includes names v = true -> exists s, v = JStr s /\ In s names.
Proof.
  destruct v; try discriminate. simpl. intros H.
  apply existsb_exists in H as [x [Hin Hx]]. apply str_eqb_eq in Hx. subst x.
  now exists s.
Qed.

(** What a payload looks like when the create validator has nothing to say. *)
Lemma valid_create_shapes (fields : list (jsstring * JSValue)) :
  validateCreateRequest (JObj fields) = Normal [] ->
  (exists s, get (JObj fields) (js "title") = JStr s /\ trim s <> [])
  /\ (get (JObj fields) (js "description") = JUndefined
      \/ get (JObj fields) (js "description") = JNull
      \/ exists d, get (JObj fields) (js "description") = JStr d)
  /\ (get (JObj fields) (js "status") = JUndefined
      \/ get (JObj fields) (js "status") = JStr (js "pending")
      \/ get (JObj fields) (js "status") = JStr (js "completed"))
  /\ (get (JObj fields) (js "priority") = JUndefined
      \/ get (JObj fields) (js "priority") = JStr (js "low")
      \/ get (JObj fields) (js "priority") = JStr (js "medium")
      \/ get (JObj fields) (js "priority") = JStr (js "high"))
  /\ (get (JObj fields) (js "parent_id") = JUndefined
      \/ get (JObj fields) (js "parent_id") = JNull
      \/ exists q, get (JObj fields) (js "parent_id") = JNum q
                   /\ number_is_integer q = true).
Proof.
  rewrite validateCreateRequest_object.
  generalize (get (JObj fields) (js "title")) (get (JObj fields) (js "description"))
             (get (JObj fields) (js "status")) (get (JObj fields) (js "priority"))
             (get (JObj fields) (js "parent_id")).
  intros v1 v2 v3 v4 v5 H. injection H as H.
  apply app_eq_nil in H as [H1 H]. apply app_eq_nil in H as [H2 H].
  apply app_eq_nil in H as [H3 H]. apply app_eq_nil in H as [H4 H5].
  repeat split.
  - unfold create_title_errors in H1.
    destruct v1 as [| | | |s| |]; try discriminate H1;
      try (destruct (negb (truthy _)); discriminate H1).
    exists s. split; [reflexivity|].
    destruct s as [|c s]; [discriminate H1|].
    cbn [truthy is_string typeof negb orb trimmed] in H1.
    intros E. rewrite E in H1. discriminate H1.
  - unfold create_description_errors in H2.
    destruct v2 as [| | | |d| |]; try discriminate H2; eauto.
  - unfold status_errors in H3.
    destruct (is_undefined v3) eqn:Eu; [destruct v3; try discriminate Eu; now left|].
    cbn [negb] in H3. destruct (includes validStatuses v3) eqn:Ei; [|discriminate H3].
    apply includes_true in Ei as [s [-> [<-|[<-|[]]]]]; auto.
  - unfold priority_errors in H4.
    destruct (is_undefined v4) eqn:Eu; [destruct v4; try discriminate Eu; now left|].
    cbn [negb] in H4. destruct (includes validPriorities v4) eqn:Ei; [|discriminate H4].
    apply includes_true in Ei as [s [-> [<-|[<-|[<-|[]]]]]]; auto.
  - unfold create_parent_id_errors in H5.
    destruct v5 as [| | |q| | |]; try discriminate H5; auto.
    cbn [is_undefined is_null is_number typeof isInteger negb andb orb] in H5.
    destruct (number_is_integer q) eqn:Eq; [|discriminate H5].
    right. right. now exists q.
Qed.

Lemma handler_post (req : TaskIndex.IndexRequest) :
  TaskIndex.verb req = js "POST" ->
  TaskIndex.handler req = TaskIndex.Other (TaskIndex.handle_post (TaskIndex.payload_in req)).
Proof. intros E. unfold TaskIndex.handler. rewrite E. reflexivity. Qed.

Lemma assign_parent (all : list Task) (q : Q) (z : Z) (t : Task) :
  q == inject_Z z -> has_id z all = true ->
  assign_column all (js "parent_id") (JNum q) t
  = Some (mkTask (id t) (title t) (description t) (status t) (priority t) (Some z)
                 (created_at t)).
Proof.
  intros Hq Hz. destruct (integer_of_Qeq q z Hq) as [_ Hb].
  unfold assign_column.
  change (str_eqb (js "parent_id") (js "title")) with false.
  change (str_eqb (js "parent_id") (js "description")) with false.
  change (str_eqb (js "parent_id") (js "status")) with false.
  change (str_eqb (js "parent_id") (js "priority")) with false.
  change (str_eqb (js "parent_id") (js "parent_id")) with true.
  cbv iota. rewrite Hb, Hz. reflexivity.
Qed.

(** The row the store builds from [insertData] for a payload the validator
    accepts. *)
Lemma new_task_insertData (fields : list (jsstring * JSValue)) (all : list Task)
      (fresh : Z) (stamp : jsstring) (par : option Z) :
  validateCreateRequest (JObj fields) = Normal [] ->
  match par with
  | None => truthy (get (JObj fields) (js "parent_id")) = false
  | Some z => exists q, get (JObj fields) (js "parent_id") = JNum q
                        /\ q == inject_Z z /\ z <> 0%Z /\ has_id z all = true
  end ->
  exists t,
    new_task all fresh stamp (TaskIndex.insertData (JObj fields)) = Some t
    /\ id t = fresh
    /\ title t = trimmed (get (JObj fields) (js "title"))
    /\ parent_id t = par
    /\ created_at t = stamp
    /\ nullable JStr (description t)
       = description_or_null (get (JObj fields) (js "description"))
    /\ (get (JObj fields) (js "status") = JUndefined -> status t = pending)
    /\ (forall s, get (JObj fields) (js "status") = JStr (status_text s) -> status t = s)
    /\ (get (JObj fields) (js "priority") = JUndefined -> priority t = medium)
    /\ (forall p, get (JObj fields) (js "priority") = JStr (priority_text p)
                  -> priority t = p).
Proof.
  intros Hv Hp.
  destruct (valid_create_shapes fields Hv) as [[s [Ht Hs]] [Hd [Hst [Hpr Hpa]]]].
  unfold TaskIndex.insertData.
  revert Hp Ht Hd Hst Hpr.
  generalize (get (JObj fields) (js "title")) (get (JObj fields) (js "description"))
             (get (JObj fields) (js "status")) (get (JObj fields) (js "priority"))
             (get (JObj fields) (js "parent_id")).
  intros v1 v2 v3 v4 v5 Hp -> Hd Hst Hpr.
  assert (Hdesc : exists d, description_or_null v2 = nullable JStr d).
  { destruct Hd as [->|[->|[d ->]]]; [now exists None|now exists None|].
    unfold description_or_null. destruct (trim d) as [|c r]; [now exists None|].
    now exists (Some (c :: r)). }
  destruct Hdesc as [d Hdesc]. rewrite Hdesc.
  assert (Hstatus : exists st, TaskIndex.or_else v3 (JStr (js "pending")) = JStr (status_text st)
                     /\ (v3 = JUndefined -> st = pending)
                     /\ (forall s', v3 = JStr (status_text s') -> st = s')).
  { destruct Hst as [->|[->| ->]].
    - exists pending. repeat split; auto. intros s' H; discriminate H.
    - exists pending. repeat split; auto. intros [|] H; [reflexivity|discriminate H].
    - exists completed. repeat split; auto; [intros H; discriminate H|].
      intros [|] H; [discriminate H|reflexivity]. }
  destruct Hstatus as [st [-> [Hst1 Hst2]]].
  assert (Hprio : exists pr, TaskIndex.or_else v4 (JStr (js "medium")) = JStr (priority_text pr)
                     /\ (v4 = JUndefined -> pr = medium)
                     /\ (forall p', v4 = JStr (priority_text p') -> pr = p')).
  { destruct Hpr as [->|[->|[->| ->]]].
    - exists medium. repeat split; auto. intros p' H; discriminate H.
    - exists low. repeat split; auto; [intros H; discriminate H|].
      intros [| |] H; try reflexivity; discriminate H.
    - exists medium. repeat split; auto.
      intros [| |] H; try reflexivity; discriminate H.
    - exists high. repeat split; auto; [intros H; discriminate H|].
      intros [| |] H; try reflexivity; discriminate H. }
  destruct Hprio as [pr [-> [Hpr1 Hpr2]]].
  exists (mkTask fresh (trim s) d st pr par stamp).
  split.
  - destruct par as [z|].
    + destruct Hp as [q [-> [Hq [Hz Hin]]]].
      unfold TaskIndex.or_else at 1. rewrite (truthy_nonzero q z Hq Hz).
      set (row0 := mkTask fresh (trim s) d st pr None stamp).
      transitivity (match assign_column all (js "parent_id") (JNum q) row0 with
                    | Some t' => Some t'
                    | None => None
                    end);
        [|now rewrite (assign_parent all q z row0 Hq Hin)].
      destruct d, st, pr; reflexivity.
    + unfold TaskIndex.or_else at 1. rewrite Hp.
      destruct d, st, pr; reflexivity.
  - cbn [id title description status priority parent_id created_at trimmed].
    repeat split; auto.
Qed.

Lemma run_create (body : JSValue) (w : World) (t : Task) :
  faults w = [] ->
  new_task (tasks (table w)) (next_id (table w)) (now (table w)) (TaskIndex.insertData body)
  = Some t ->
  fst (run (TaskIndex.create body) w) = successResponse (JObj (row t)) 201
  /\ tasks (table (snd (run (TaskIndex.create body) w))) = tasks (table w) ++ [t].
Proof.
  intros Hf Hnew. unfold TaskIndex.create.
  cbn [run]. unfold answer. rewrite Hf.
  cbn [exec new_tasks]. rewrite Hnew.
  cbn [map List.length fst snd error data ok nullish is_undefined is_null typeof orb
       first nth run table tasks].
  split; reflexivity.
Qed.

Lemma has_id_filter (z : Z) (ts : list Task) :
  has_id z ts = false -> filter (fun t => (id t =? z)%Z) ts = [].
Proof.
  unfold has_id. induction ts as [|t ts IH]; [reflexivity|]. simpl.
  destruct (id t =? z)%Z; [discriminate|]. exact IH.
Qed.

Lemma filter_has_id (z : Z) (ts : list Task) (p : Task) :
  filter (fun t => (id t =? z)%Z) ts = [p] -> has_id z ts = true.
Proof.
  unfold has_id. intros H.
  destruct (existsb (fun t => (id t =? z)%Z) ts) eqn:E; [reflexivity|].
  rewrite (has_id_filter z ts E) in H. discriminate H.
Qed.



(** X2. [POST /tasks] with a payload the validator accepts whose
    [parent_id] is a non-zero integer that no row of the table has as its
    identifier: whatever the store failures, the answer is the 400 of the
    missing parent and the table is unchanged. *)
Theorem create_under_missing_parent_is_refused
        (req : TaskIndex.IndexRequest) (fields : list (jsstring * JSValue)) (w : World)
        (q : Q) (z : Z) :
  TaskIndex.verb req = js "POST" ->
  TaskIndex.payload_in req = JObj fields ->
  validateCreateRequest (JObj fields) = Normal [] ->
  get (JObj fields) (js "parent_id") = JNum q ->
  q == inject_Z z -> z <> 0%Z ->
  has_id z (tasks (table w)) = false ->
  fst (TaskIndex.run_index (TaskIndex.handler req) w) = errorResponse msg_parent_missing 400
  /\ table (snd (TaskIndex.run_index (TaskIndex.handler req) w)) = table w.
Proof.
  intros Hverb Hbody Hv Hpar Hq Hz Hno.
  rewrite (handler_post req Hverb), Hbody.
  unfold TaskIndex.run_index, TaskIndex.handle_post. rewrite Hv, Hpar.
  rewrite (truthy_nonzero q z Hq Hz).
  cbn [List.length Nat.ltb Nat.leb run].
  destruct (faults w) as [|[e|] rest] eqn:Hf.
  - rewrite answer_no_fault by now rewrite Hf.
    rewrite (exec_select_by_id _ q z _ Hq), (has_id_filter z _ Hno).
    split; reflexivity.
  - rewrite (answer_fault _ w e rest Hf). split; reflexivity.
  - rewrite answer_no_fault by now rewrite Hf.
    rewrite (exec_select_by_id _ q z _ Hq), (has_id_filter z _ Hno).
    split; reflexivity.
Qed.

(** [POST /tasks] with [{ title: 'Rinse', parent_id: 7 }] on the table that
    holds task 1 alone. *)
Lemma create_under_missing_parent_is_refused_witness :
  fst (TaskIndex.run_index (TaskIndex.handler under_seven) kitchen)
  = errorResponse msg_parent_missing 400
  /\ table (snd (TaskIndex.run_index (TaskIndex.handler under_seven) kitchen))
     = table kitchen.
Proof.
  apply (create_under_missing_parent_is_refused under_seven
           [(js "title", JStr (js "Rinse")); (js "parent_id", num 7)] kitchen
           (inject_Z 7) 7%Z); try reflexivity.
  discriminate.
Defined.

(** X3. [POST /tasks] with a payload the validator accepts whose
    [parent_id] is the identifier of a row of the table, the store
    answering: the answer is a 201 with the created row, the table is the
    old one followed by that row alone, and the row is a child of the
    parent named. *)
Theorem create_under_parent_appends_child
        (req : TaskIndex.IndexRequest) (fields : list (jsstring * JSValue)) (w : World)
        (q : Q) (z : Z) (parent : Task) :
  TaskIndex.verb req = js "POST" ->
  TaskIndex.payload_in req = JObj fields ->
  validateCreateRequest (JObj fields) = Normal [] ->
  get (JObj fields) (js "parent_id") = JNum q ->
  q == inject_Z z -> z <> 0%Z ->
  filter (fun t => (id t =? z)%Z) (tasks (table w)) = [parent] ->
  faults w = [] ->
  exists t,
    fst (TaskIndex.run_index (TaskIndex.handler req) w) = successResponse (JObj (row t)) 201
    /\ tasks (table (snd (TaskIndex.run_index (TaskIndex.handler req) w)))
       = tasks (table w) ++ [t]
    /\ id t = next_id (table w)
    /\ parent_id t = Some z
    /\ title t = trimmed (get (JObj fields) (js "title")).
Proof.
  intros Hverb Hbody Hv Hpar Hq Hz Hrow Hf.
  assert (Hin : has_id z (tasks (table w)) = true) by exact (filter_has_id z _ parent Hrow).
  destruct (new_task_insertData fields (tasks (table w)) (next_id (table w))
                                (now (table w)) (Some z) Hv)
    as [t [Hnew [H1 [H2 [H3 _]]]]].
  { exists q. repeat split; assumption. }
  exists t. rewrite (handler_post req Hverb), Hbody.
  unfold TaskIndex.run_index, TaskIndex.handle_post. rewrite Hv, Hpar.
  rewrite (truthy_nonzero q z Hq Hz).
  cbn [List.length Nat.ltb Nat.leb run].
  rewrite answer_no_fault by now rewrite Hf.
  rewrite (exec_select_by_id _ q z _ Hq), Hrow.
  change (project (js "id") parent) with (Some (JObj [(js "id", num (id parent))])).
  cbn [fst snd error data ok is_some orb negb truthy].
  set (w' := mkWorld _ _ _ _).
  destruct (run_create (JObj fields) w' t) as [R1 R2]; [subst w'; cbn; now rewrite Hf|exact Hnew|].
  repeat split; assumption.
Qed.

(** [POST /tasks] with [{ title: 'Rinse', parent_id: 1 }] on the table that
    holds task 1. *)
Lemma create_under_parent_appends_child_witness :
  exists t,
    fst (TaskIndex.run_index (TaskIndex.handler under_milk) kitchen)
    = successResponse (JObj (row t)) 201
    /\ parent_id t = Some 1%Z /\ id t = 2%Z.
Proof.
  destruct (create_under_parent_appends_child under_milk
              [(js "title", JStr (js "Rinse")); (js "parent_id", num 1)] kitchen
              (inject_Z 1) 1%Z milk)
    as [t [H1 [_ [H3 [H4 _]]]]]; try reflexivity; try discriminate.
  exists t. repeat split; assumption.
Defined.

(** X4. [POST /tasks] with a payload that breaks a rule of the validator:
    the handler answers 400 without a call to the store, and the message
    is one message per broken rule, joined by a semicolon and a space. *)
Theorem invalid_create_is_refused_before_the_store
        (req : TaskIndex.IndexRequest) (fields : list (jsstring * JSValue)) :
  TaskIndex.verb req = js "POST" ->
  TaskIndex.payload_in req = JObj fields ->
  create_violations (JObj fields) <> 0%nat ->
  exists errs,
    List.length errs = create_violations (JObj fields)
    /\ TaskIndex.handler req
       = TaskIndex.Other (Ret (errorResponse (join (js "; ") errs) 400)).
Proof.
  intros Hverb Hbody Hbad.
  rewrite (handler_post req Hverb), Hbody.
  destruct (validateCreateRequest (JObj fields)) as [errs|] eqn:Hv;
    [|rewrite validateCreateRequest_object in Hv; discriminate Hv].
  exists errs. pose proof (create_reports_every_violation fields errs Hv) as Hlen.
  split; [exact Hlen|].
  unfold TaskIndex.handle_post. rewrite Hv.
  destruct (List.length errs) as [|n] eqn:E; [congruence|reflexivity].
Qed.

(** [POST /tasks] with [{ title: 'Rinse', status: 'done' }]. *)
Lemma invalid_create_is_refused_before_the_store_witness :
  exists errs,
    List.length errs = 1%nat
    /\ TaskIndex.handler done_task
       = TaskIndex.Other (Ret (errorResponse (join (js "; ") errs) 400)).
Proof.
  apply (invalid_create_is_refused_before_the_store done_task
           [(js "title", JStr (js "Rinse")); (js "status", JStr (js "done"))]);
    try reflexivity.
  discriminate.
Defined.

(** ** Listing the tasks *)

Lemma insert_by_In (le : Task -> Task -> bool) (t u : Task) (ts : list Task) :
  In u (insert_by le t ts) <-> u = t \/ In u ts.
Proof.
  induction ts as [|x ts IH]; simpl.
  - intuition.
  - destruct (le t x); simpl; [intuition|]. rewrite IH. intuition.
Qed.

Lemma sort_by_In (le : Task -> Task -> bool) (u : Task) (ts : list Task) :
  In u (sort_by le ts) <-> In u ts.
Proof.
  induction ts as [|x ts IH]; simpl; [tauto|].
  rewrite insert_by_In, IH. intuition.
Qed.

Lemma str_leb_total (a : jsstring) :
  forall b, str_leb a b = false -> str_leb b a = true.
Proof.
  induction a as [|x a IH]; intros [|y b]; simpl; try discriminate; auto.
  destruct (x <? y) eqn:E1; [discriminate|].
  destruct (y <? x) eqn:E2; [reflexivity|]. apply IH.
Qed.

Lemma insert_by_sorted (le : Task -> Task -> bool) (t : Task) (ts : list Task) :
  (forall a b, le a b = false -> le b a = true) ->
  Sorted (fun a b => le a b = true) ts ->
  Sorted (fun a b => le a b = true) (insert_by le t ts).
Proof.
  intros Htot. induction ts as [|x ts IH]; intros Hs; simpl.
  - constructor; constructor.
  - destruct (le t x) eqn:E.
    + constructor; [exact Hs|]. constructor. exact E.
    + inversion Hs as [|? ? Hs' Hhd]; subst. constructor; [apply IH; exact Hs'|].
      destruct ts as [|y ts]; simpl.
      * constructor. apply Htot. exact E.
      * destruct (le t y); constructor.
        -- apply Htot. exact E.
        -- inversion Hhd; subst. assumption.
Qed.

Lemma sort_by_sorted (le : Task -> Task -> bool) (ts : list Task) :
  (forall a b, le a b = false -> le b a = true) ->
  Sorted (fun a b => le a b = true) (sort_by le ts).
Proof.
  intros Htot. induction ts as [|x ts IH]; simpl; [constructor|].
  apply insert_by_sorted; assumption.
Qed.

Lemma keeps_all_app (a b : list TaskIndex.Filter) (p q : Task -> bool) :
  TaskIndex.keeps_all a = Some p -> TaskIndex.keeps_all b = Some q ->
  exists r, TaskIndex.keeps_all (a ++ b) = Some r /\ forall t, r t = p t && q t.
Proof.
  revert p. induction a as [|f a IH]; intros p Ha Hb; simpl in *.
  - injection Ha as <-. exists q. split; [exact Hb|reflexivity].
  - destruct (TaskIndex.keeps f) as [pf|]; [|discriminate].
    destruct (TaskIndex.keeps_all a) as [pa|]; [|discriminate].
    injection Ha as <-.
    destruct (IH pa eq_refl Hb) as [r [-> Hr]].
    eexists. split; [reflexivity|]. intros t. cbv beta. rewrite Hr.
    now rewrite andb_assoc.
Qed.

Lemma not_in_names (s : jsstring) (names : list jsstring) :
  existsb (str_eqb s) names = false -> ~ In s names.
Proof.
  intros H Hin. assert (E : existsb (str_eqb s) names = true).
  { apply existsb_exists. exists s. split; [exact Hin|apply str_eqb_refl]. }
  congruence.
Qed.

Lemma in_names (s : jsstring) (names : list jsstring) :
  existsb (str_eqb s) names = true -> In s names.
Proof.
  intros H. apply existsb_exists in H as [x [Hin Hx]].
  apply str_eqb_eq in Hx. now subst x.
Qed.

Lemma status_filter_keeps (v : QueryValue) :
  exists p,
    TaskIndex.keeps_all
      (TaskIndex.text_filter [js "pending"; js "completed"] (js "status") v) = Some p
    /\ forall t, p t = true <->
                 (forall s, v = QString s -> In s [js "pending"; js "completed"] ->
                            status_text (status t) = s).
Proof.
  destruct v as [|s|l]; unfold TaskIndex.text_filter.
  - exists (fun _ => true). split; [reflexivity|]. intros t; split; [discriminate|reflexivity].
  - destruct (Breakdown.non_empty s && existsb (str_eqb s) [js "pending"; js "completed"])
             eqn:E.
    + apply andb_true_iff in E as [_ E]. apply in_names in E.
      cbn [TaskIndex.keeps_all TaskIndex.keeps].
      eexists. split; [reflexivity|]. intros t. cbv beta. rewrite andb_true_r. split.
      * intros H s' Hs' _. injection Hs' as <-. now apply str_eqb_eq.
      * intros H. rewrite (H s eq_refl E). apply str_eqb_refl.
    + exists (fun _ => true). split; [reflexivity|]. intros t; split; [|reflexivity].
      intros _ s' Hs' Hin. injection Hs' as <-. exfalso.
      apply andb_false_iff in E as [E|E].
      * destruct s; [|discriminate E]. destruct Hin as [H|[H|[]]]; discriminate H.
      * exact (not_in_names _ _ E Hin).
  - exists (fun _ => true). split; [reflexivity|]. intros t; split; [discriminate|reflexivity].
Qed.

Lemma priority_filter_keeps (v : QueryValue) :
  exists p,
    TaskIndex.keeps_all
      (TaskIndex.text_filter [js "low"; js "medium"; js "high"] (js "priority") v) = Some p
    /\ forall t, p t = true <->
                 (forall s, v = QString s -> In s [js "low"; js "medium"; js "high"] ->
                            priority_text (priority t) = s).
Proof.
  destruct v as [|s|l]; unfold TaskIndex.text_filter.
  - exists (fun _ => true). split; [reflexivity|]. intros t; split; [discriminate|reflexivity].
  - destruct (Breakdown.non_empty s
              && existsb (str_eqb s) [js "low"; js "medium"; js "high"]) eqn:E.
    + apply andb_true_iff in E as [_ E]. apply in_names in E.
      cbn [TaskIndex.keeps_all TaskIndex.keeps].
      eexists. split; [reflexivity|]. intros t. cbv beta. rewrite andb_true_r. split.
      * intros H s' Hs' _. injection Hs' as <-. now apply str_eqb_eq.
      * intros H. rewrite (H s eq_refl E). apply str_eqb_refl.
    + exists (fun _ => true). split; [reflexivity|]. intros t; split; [|reflexivity].
      intros _ s' Hs' Hin. injection Hs' as <-. exfalso.
      apply andb_false_iff in E as [E|E].
      * destruct s; [|discriminate E]. destruct Hin as [H|[H|[H|[]]]]; discriminate H.
      * exact (not_in_names _ _ E Hin).
  - exists (fun _ => true). split; [reflexivity|]. intros t; split; [discriminate|reflexivity].
Qed.

Lemma parent_filter_keeps (v : QueryValue) :
  (v = QUndefined \/ exists s, v = QString s
                               /\ (s = js "null" \/ exists z, parseInt s = Some z)) ->
  exists p,
    TaskIndex.keeps_all (TaskIndex.parent_filter v) = Some p
    /\ forall t, p t = true <->
                 ((v = QString (js "null") -> parent_id t = None)
                  /\ (forall s z, v = QString s -> s <> js "null" -> parseInt s = Some z ->
                                  parent_id t = Some z)).
Proof.
  intros [->|[s [-> H]]].
  - exists (fun _ => true). split; [reflexivity|]. intros t. split; [|reflexivity].
    intros _. split; [discriminate|]. intros s z H; discriminate H.
  - unfold TaskIndex.parent_filter. destruct (str_eqb s (js "null")) eqn:E.
    + apply str_eqb_eq in E. subst s.
      eexists. split; [reflexivity|]. intros t. cbv beta. rewrite andb_true_r. split.
      * intros Hp. split; [intros _; now destruct (parent_id t)|].
        intros s z Hs Hn. injection Hs as <-. now elim Hn.
      * intros [Hp _]. now rewrite (Hp eq_refl).
    + destruct H as [->|[z Hz]]; [rewrite str_eqb_refl in E; discriminate E|].
      rewrite Hz. cbn [TaskIndex.keeps_all TaskIndex.keeps].
      change (eq_filter (js "parent_id") z)
        with (Some (fun t : Task => match parent_id t with
                                    | Some p => (p =? z)%Z
                                    | None => false
                                    end)).
      eexists. split; [reflexivity|]. intros t. cbv beta. rewrite andb_true_r. split.
      * intros Hp. split.
        -- intros Hs. injection Hs as ->. rewrite str_eqb_refl in E. discriminate E.
        -- intros s' z' Hs' _ Hz'. injection Hs' as <-. rewrite Hz in Hz'.
           injection Hz' as <-. destruct (parent_id t) as [p|]; [|discriminate Hp].
           apply Z.eqb_eq in Hp. now subst p.
      * intros [_ Hp]. rewrite (Hp s z eq_refl) by
          (try assumption; intros ->; rewrite str_eqb_refl in E; discriminate E).
        apply Z.eqb_refl.
Qed.

Lemma handler_list (req : TaskIndex.IndexRequest) :
  TaskIndex.verb req = js "GET" ->
  TaskIndex.handler req = TaskIndex.handle_list req.
Proof. intros E. unfold TaskIndex.handler. now rewrite E. Qed.

(** X5. [GET /tasks], the store answering, with a [parent_id] parameter
    that is absent, the word null, or a text [parseInt] reads as a number:
    the answer is a 200 whose rows are exactly the rows of the table that
    pass every filter of the query (the status and the priority asked for,
    when they are names of the enumerations; no parent for the word null,
    the parent given otherwise), the latest first; the table is unchanged. *)
Theorem list_returns_the_rows_asked_for (req : TaskIndex.IndexRequest) (w : World) :
  TaskIndex.verb req = js "GET" ->
  match faults w with Some _ :: _ => False | _ => True end ->
  (TaskIndex.query_parent_id req = QUndefined
   \/ exists s, TaskIndex.query_parent_id req = QString s
                /\ (s = js "null" \/ exists z, parseInt s = Some z)) ->
  exists rows,
    fst (TaskIndex.run_index (TaskIndex.handler req) w)
    = successResponse (JArr (map (fun t => JObj (row t)) rows)) 200
    /\ table (snd (TaskIndex.run_index (TaskIndex.handler req) w)) = table w
    /\ Sorted (fun a b => str_leb (created_at b) (created_at a) = true) rows
    /\ forall t,
         In t rows <->
         In t (tasks (table w))
         /\ (forall s, TaskIndex.query_status req = QString s ->
                       In s [js "pending"; js "completed"] -> status_text (status t) = s)
         /\ (forall s, TaskIndex.query_priority req = QString s ->
                       In s [js "low"; js "medium"; js "high"] ->
                       priority_text (priority t) = s)
         /\ (TaskIndex.query_parent_id req = QString (js "null") -> parent_id t = None)
         /\ (forall s z, TaskIndex.query_parent_id req = QString s -> s <> js "null" ->
                         parseInt s = Some z -> parent_id t = Some z).
Proof.
  intros Hverb Hf Hpar. rewrite (handler_list req Hverb).
  destruct (status_filter_keeps (TaskIndex.query_status req)) as [p1 [K1 P1]].
  destruct (priority_filter_keeps (TaskIndex.query_priority req)) as [p2 [K2 P2]].
  destruct (parent_filter_keeps (TaskIndex.query_parent_id req) Hpar) as [p3 [K3 P3]].
  destruct (keeps_all_app _ _ p2 p3 K2 K3) as [p23 [K23 P23]].
  destruct (keeps_all_app _ _ p1 p23 K1 K23) as [p [K P]].
  set (le := fun a b : Task => str_leb (created_at b) (created_at a)).
  exists (sort_by le (filter p (tasks (table w)))).
  assert (Hexec : TaskIndex.exec_list (TaskIndex.list_query req) (table w)
                  = ok (JArr (map (fun t => JObj (row t))
                                  (sort_by le (filter p (tasks (table w))))))).
  { unfold TaskIndex.exec_list, TaskIndex.list_query. rewrite K. reflexivity. }
  split; [|split; [|split]].
  - unfold TaskIndex.run_index, TaskIndex.handle_list.
    destruct (faults w) as [|[e|] rest]; [|contradiction|]; cbn [fst]; rewrite Hexec;
      reflexivity.
  - unfold TaskIndex.run_index, TaskIndex.handle_list.
    destruct (faults w) as [|[e|] rest]; reflexivity.
  - apply (sort_by_sorted le). intros a b. unfold le. apply str_leb_total.
  - intros t. rewrite sort_by_In, filter_In, P, P23, !andb_true_iff, P1, P2, P3.
    tauto.
Qed.

(** [GET /tasks?parent_id=null] on the table where [draft] is a child of
    [write]: the rows are the top-level ones. *)
Lemma list_returns_the_rows_asked_for_witness :
  exists rows,
    fst (TaskIndex.run_index (TaskIndex.handler top_level) (desk [] (AiContent None)))
    = successResponse (JArr (map (fun t => JObj (row t)) rows)) 200
    /\ forall t, In t rows <-> In t [write; draft] /\ parent_id t = None.
Proof.
  destruct (list_returns_the_rows_asked_for top_level (desk [] (AiContent None)))
    as [rows [H1 [_ [_ H4]]]]; try reflexivity.
  { right. exists (js "null"). split; [reflexivity|now left]. }
  exists rows. split; [exact H1|]. intros t. rewrite H4. split.
  - intros [Hin [_ [_ [Hp _]]]]. split; [exact Hin|now apply Hp].
  - intros [Hin Hp]. split; [exact Hin|]. repeat split; try discriminate.
    + intros _. exact Hp.
    + intros s z Hs Hn. injection Hs as <-. now elim Hn.
Defined.

(** X6. [GET /tasks]: a [status] or [priority] parameter that is not a
    name of its enumeration (an unknown word, the empty text, a repeated
    parameter) is ignored, the request is handled as if the parameter were
    absent. *)
Theorem unknown_filter_values_are_ignored
        (qs qp qpar : QueryValue) (body : JSValue) :
  (forall s, qs = QString s -> ~ In s [js "pending"; js "completed"]) ->
  (forall s, qp = QString s -> ~ In s [js "low"; js "medium"; js "high"]) ->
  TaskIndex.handler (TaskIndex.mkIndexRequest (js "GET") qs qp qpar body)
  = TaskIndex.handler (TaskIndex.mkIndexRequest (js "GET") QUndefined QUndefined qpar body).
Proof.
  intros Hs Hp.
  assert (E1 : TaskIndex.text_filter [js "pending"; js "completed"] (js "status") qs = []).
  { destruct qs as [|s|l]; try reflexivity. unfold TaskIndex.text_filter.
    destruct (existsb (str_eqb s) [js "pending"; js "completed"]) eqn:E.
    - apply in_names in E. elim (Hs s eq_refl E).
    - now rewrite andb_false_r. }
  assert (E2 : TaskIndex.text_filter [js "low"; js "medium"; js "high"] (js "priority") qp
               = []).
  { destruct qp as [|s|l]; try reflexivity. unfold TaskIndex.text_filter.
    destruct (existsb (str_eqb s) [js "low"; js "medium"; js "high"]) eqn:E.
    - apply in_names in E. elim (Hp s eq_refl E).
    - now rewrite andb_false_r. }
  unfold TaskIndex.handler, TaskIndex.handle_list, TaskIndex.list_query.
  cbn [TaskIndex.verb TaskIndex.query_status TaskIndex.query_priority
       TaskIndex.query_parent_id].
  rewrite E1, E2. reflexivity.
Qed.

(** [GET /tasks?status=done&priority=] *)
Lemma unknown_filter_values_are_ignored_witness :
  TaskIndex.handler (TaskIndex.mkIndexRequest (js "GET") (QString (js "done"))
                                              (QString []) QUndefined JUndefined)
  = TaskIndex.handler (TaskIndex.mkIndexRequest (js "GET") QUndefined QUndefined
                                                QUndefined JUndefined).
Proof.
  apply unknown_filter_values_are_ignored.
  - intros s H. injection H as <-. intros [E|[E|[]]]; discriminate E.
  - intros s H. injection H as <-. intros [E|[E|[E|[]]]]; discriminate E.
Defined.

(** ** What a PATCH sends to the store *)

Lemma set_Forall (P : jsstring * JSValue -> Prop) (k : jsstring) (v : JSValue)
      (fields : list (jsstring * JSValue)) :
  Forall P fields -> P (k, v) -> Forall P (set k v fields).
Proof.
  intros Hall Hkv. induction Hall as [|[k' v'] rest Hx Hrest IH]; simpl.
  - constructor; [exact Hkv|constructor].
  - destruct (str_eqb k k') eqn:E.
    + apply str_eqb_eq in E. subst k'. constructor; assumption.
    + constructor; assumption.
Qed.

Lemma status_names (v : JSValue) :
  includes validStatuses v = true -> exists s, v = JStr (status_text s).
Proof.
  intros H. apply includes_true in H as [s [-> [<-|[<-|[]]]]];
    [now exists pending|now exists completed].
Qed.

Lemma priority_names (v : JSValue) :
  includes validPriorities v = true -> exists p, v = JStr (priority_text p).
Proof.
  intros H. apply includes_true in H as [s [-> [<-|[<-|[<-|[]]]]]];
    [now exists low|now exists medium|now exists high].
Qed.

Lemma update_title_validated (v : JSValue) (st : UpdateState) :
  Forall validated_entry (updateData st) ->
  Forall validated_entry (updateData (update_title v st)).
Proof.
  intros H. unfold update_title.
  destruct (negb (is_undefined v)); [|exact H].
  destruct (negb (is_string v)) eqn:Es; [exact H|].
  destruct (strlen (trimmed v) =? 0) eqn:El; [exact H|].
  destruct (200 <? length_of v); [exact H|].
  apply set_Forall; [exact H|]. left. split; [reflexivity|].
  exists (trimmed v). split; [reflexivity|].
  intros E. rewrite E in El. discriminate El.
Qed.

Lemma update_description_validated (v : JSValue) (st : UpdateState) :
  Forall validated_entry (updateData st) ->
  Forall validated_entry (updateData (update_description v st)).
Proof.
  intros H. unfold update_description.
  destruct (negb (is_undefined v)); [|exact H].
  destruct (negb (is_null v) && negb (is_string v)); [exact H|].
  destruct (truthy v && (1000 <? length_of v)); [exact H|].
  apply set_Forall; [exact H|]. right. left. split; [reflexivity|].
  unfold description_or_null. destruct v; auto.
  destruct (trim s) as [|c r]; [now left|]. right. exists (c :: r). split; [reflexivity|].
  discriminate.
Qed.

Lemma update_status_validated (v : JSValue) (st : UpdateState) :
  Forall validated_entry (updateData st) ->
  Forall validated_entry (updateData (update_status v st)).
Proof.
  intros H. unfold update_status.
  destruct (negb (is_undefined v)); [|exact H].
  destruct (includes validStatuses v) eqn:E; [|exact H].
  apply set_Forall; [exact H|]. right. right. left. split; [reflexivity|].
  now apply status_names.
Qed.

Lemma update_priority_validated (v : JSValue) (st : UpdateState) :
  Forall validated_entry (updateData st) ->
  Forall validated_entry (updateData (update_priority v st)).
Proof.
  intros H. unfold update_priority.
  destruct (negb (is_undefined v)); [|exact H].
  destruct (includes validPriorities v) eqn:E; [|exact H].
  apply set_Forall; [exact H|]. right. right. right. left. split; [reflexivity|].
  now apply priority_names.
Qed.

Lemma update_parent_id_validated (v : JSValue) (st : UpdateState) :
  Forall validated_entry (updateData st) ->
  Forall validated_entry (updateData (update_parent_id v st)).
Proof.
  intros H. unfold update_parent_id.
  destruct (negb (is_undefined v)); [|exact H].
  destruct (negb (is_null v) && (negb (is_number v) || negb (isInteger v))) eqn:E;
    [exact H|].
  apply set_Forall; [exact H|]. right. right. right. right. split; [reflexivity|].
  destruct v as [| | |q| | |]; try discriminate E; [now left|].
  right. exists q. split; [reflexivity|].
  cbn [is_null is_number typeof isInteger negb andb orb] in E.
  now destruct (number_is_integer q).
Qed.

Lemma validateUpdateRequest_validated (body : JSValue) (st : UpdateState) :
  validateUpdateRequest body = Normal st -> Forall validated_entry (updateData st).
Proof.
  unfold validateUpdateRequest. destruct (nullish body); [discriminate|].
  intros H. injection H as <-.
  apply update_parent_id_validated, update_priority_validated, update_status_validated,
    update_description_validated, update_title_validated.
  constructor.
Qed.

Lemma apply_update_calls (taskId : Z) (values : list (jsstring * JSValue))
      (calls : list StoreCall) (resp : Response) :
  Returns (apply_update taskId values) calls resp ->
  calls = [Update values (js "id") (num taskId)].
Proof.
  unfold apply_update. intros Hr.
  inversion Hr as [|? ? r ? ? Hk|]; subst; clear Hr.
  destruct (error r); [invert_returns; reflexivity|].
  destruct (negb (truthy (data r)) || length_is_zero (data r)); invert_returns; reflexivity.
Qed.

Lemma handle_patch_updates (taskId : Z) (body : JSValue) (calls : list StoreCall)
      (resp : Response) (values : list (jsstring * JSValue)) (column : jsstring)
      (value : JSValue) :
  Returns (handle_patch taskId body) calls resp ->
  In (Update values column value) calls ->
  column = js "id" /\ value = num taskId
  /\ values <> [] /\ Forall validated_entry values.
Proof.
  unfold handle_patch. intros Hr Hin.
  destruct (validateUpdateRequest body) as [st|] eqn:Hv; [|invert_returns; contradiction].
  pose proof (validateUpdateRequest_validated body st Hv) as Hall.
  cbv zeta in Hr.
  destruct (Nat.ltb 0 (List.length (errors st))); [invert_returns; contradiction|].
  destruct (Nat.eqb (List.length (updateData st)) 0) eqn:Hn;
    [invert_returns; contradiction|].
  assert (Hne : updateData st <> []) by (intros E; rewrite E in Hn; discriminate Hn).
  destruct (strict_eq (get (JObj (updateData st)) (js "parent_id")) (num taskId));
    [invert_returns; contradiction|].
  destruct (truthy (get (JObj (updateData st)) (js "parent_id"))).
  - inversion Hr as [|? ? r ? ? Hk|]; subst; clear Hr.
    destruct Hin as [Hin|Hin]; [discriminate Hin|].
    destruct (is_some (error r) || negb (truthy (data r)));
      [invert_returns; contradiction|].
    destruct (strict_eq (get (data r) (js "parent_id")) (num taskId));
      [invert_returns; contradiction|].
    apply apply_update_calls in Hk. subst calls0.
    destruct Hin as [Hin|[]]. injection Hin as <- <- <-. auto.
  - apply apply_update_calls in Hr. subst calls.
    destruct Hin as [Hin|[]]. injection Hin as <- <- <-. auto.
Qed.

(** X7. Whatever the store replies, an update the handler of
    [/tasks/{id}] issues is addressed to the row of the identifier of the
    route alone, is not empty, and assigns only the five columns of an
    update, each with a value the validator let through; [id],
    [created_at] and any other member of the payload never reach the
    store. *)
Theorem patch_sends_only_validated_columns
        (req : Request) (calls : list StoreCall) (resp : Response)
        (values : list (jsstring * JSValue)) (column : jsstring) (value : JSValue) :
  Returns (handler req) calls resp ->
  In (Update values column value) calls ->
  column = js "id"
  /\ (exists taskId, validateId (query_id req) = Some taskId /\ value = num taskId)
  /\ values <> []
  /\ Forall validated_entry values.
Proof.
  unfold handler. intros Hr Hin.
  destruct (validateId (query_id req)) as [taskId|]; [|invert_returns; contradiction].
  destruct (taskId =? 0)%Z; [invert_returns; contradiction|].
  destruct (str_eqb (method req) (js "GET")).
  { unfold handle_get in Hr.
    inversion Hr as [|? ? r ? ? Hk|]; subst; clear Hr.
    destruct Hin as [Hin|Hin]; [discriminate Hin|].
    destruct (error r) as [e|].
    - destruct (str_eqb (code e) (js "PGRST116")); invert_returns; contradiction.
    - inversion Hk as [|? ? r2 ? ? Hk2|]; subst; clear Hk.
      destruct Hin as [Hin|Hin]; [discriminate Hin|].
      invert_returns; contradiction. }
  destruct (str_eqb (method req) (js "PATCH")).
  { destruct (handle_patch_updates taskId (body req) calls resp values column value Hr Hin)
      as [H1 [H2 [H3 H4]]].
    repeat split; try assumption. now exists taskId. }
  destruct (str_eqb (method req) (js "DELETE")).
  { unfold handle_delete in Hr.
    inversion Hr as [|? ? r ? ? Hk|]; subst; clear Hr.
    destruct Hin as [Hin|Hin]; [discriminate Hin|].
    cbv zeta in Hk.
    destruct (is_some (error r) || negb (truthy (data r)));
      [invert_returns; contradiction|].
    inversion Hk as [|? ? r2 ? ? Hk2|]; subst; clear Hk.
    destruct Hin as [Hin|Hin]; [discriminate Hin|].
    destruct (error r2); invert_returns; contradiction. }
  invert_returns; contradiction.
Qed.

(** [PATCH /tasks/1] with [{ id: 9, status: 'completed', created_at:
    '2000-01-01' }], the store answering with the row: the update carries
    the status alone. *)
Lemma patch_sends_only_validated_columns_witness :
  let sent := Update [(js "status", JStr (js "completed"))] (js "id") (num 1) in
  let resp := successResponse (JObj (row milk)) 200 in
  Returns (handler finish_milk) [sent] resp
  /\ Forall validated_entry [(js "status", JStr (js "completed"))].
Proof.
  intros sent resp.
  assert (Hr : Returns (handler finish_milk) [sent] resp).
  { apply (Returns_Call _ _ (ok (JArr [JObj (row milk)]))). apply Returns_Ret. }
  split; [exact Hr|].
  apply (patch_sends_only_validated_columns finish_milk [sent] resp
           [(js "status", JStr (js "completed"))] (js "id") (num 1) Hr).
  left. reflexivity.
Defined.

(** ** What a PATCH changes *)

Lemma lookup_set_other (c k : jsstring) (v : JSValue) (fields : list (jsstring * JSValue)) :
  str_eqb c k = false -> lookup c (set k v fields) = lookup c fields.
Proof.
  intros Hc. induction fields as [|[k' v'] rest IH]; simpl.
  - now rewrite Hc.
  - destruct (str_eqb k k') eqn:E; simpl.
    + apply str_eqb_eq in E. subst k'. now rewrite Hc.
    + now rewrite IH.
Qed.

Lemma update_title_lookup (c : jsstring) (v : JSValue) (st : UpdateState) :
  v = JUndefined \/ str_eqb c (js "title") = false ->
  lookup c (updateData (update_title v st)) = lookup c (updateData st).
Proof.
  intros [->|Hc]; [reflexivity|]. unfold update_title.
  repeat match goal with |- context [if ?b then _ else _] => destruct b end;
    try reflexivity.
  now apply lookup_set_other.
Qed.

Lemma update_description_lookup (c : jsstring) (v : JSValue) (st : UpdateState) :
  v = JUndefined \/ str_eqb c (js "description") = false ->
  lookup c (updateData (update_description v st)) = lookup c (updateData st).
Proof.
  intros [->|Hc]; [reflexivity|]. unfold update_description.
  repeat match goal with |- context [if ?b then _ else _] => destruct b end;
    try reflexivity.
  now apply lookup_set_other.
Qed.

Lemma update_status_lookup (c : jsstring) (v : JSValue) (st : UpdateState) :
  v = JUndefined \/ str_eqb c (js "status") = false ->
  lookup c (updateData (update_status v st)) = lookup c (updateData st).
Proof.
  intros [->|Hc]; [reflexivity|]. unfold update_status.
  repeat match goal with |- context [if ?b then _ else _] => destruct b end;
    try reflexivity.
  now apply lookup_set_other.
Qed.

Lemma update_priority_lookup (c : jsstring) (v : JSValue) (st : UpdateState) :
  v = JUndefined \/ str_eqb c (js "priority") = false ->
  lookup c (updateData (update_priority v st)) = lookup c (updateData st).
Proof.
  intros [->|Hc]; [reflexivity|]. unfold update_priority.
  repeat match goal with |- context [if ?b then _ else _] => destruct b end;
    try reflexivity.
  now apply lookup_set_other.
Qed.

Lemma update_parent_id_lookup (c : jsstring) (v : JSValue) (st : UpdateState) :
  v = JUndefined \/ str_eqb c (js "parent_id") = false ->
  lookup c (updateData (update_parent_id v st)) = lookup c (updateData st).
Proof.
  intros [->|Hc]; [reflexivity|]. unfold update_parent_id.
  repeat match goal with |- context [if ?b then _ else _] => destruct b end;
    try reflexivity.
  now apply lookup_set_other.
Qed.

Lemma absent_or_other (body : JSValue) (c k : jsstring) :
  get body c = JUndefined -> get body k = JUndefined \/ str_eqb c k = false.
Proof.
  intros H. destruct (str_eqb c k) eqn:E; [|now right].
  apply str_eqb_eq in E. subst k. now left.
Qed.

(** A member the payload does not have is no column of the update. *)
Lemma unsent_is_not_updated (body : JSValue) (st : UpdateState) (c : jsstring) :
  validateUpdateRequest body = Normal st ->
  get body c = JUndefined ->
  lookup c (updateData st) = None.
Proof.
  unfold validateUpdateRequest. destruct (nullish body); [discriminate|].
  intros H Hc. injection H as <-.
  rewrite update_parent_id_lookup by now apply absent_or_other.
  rewrite update_priority_lookup by now apply absent_or_other.
  rewrite update_status_lookup by now apply absent_or_other.
  rewrite update_description_lookup by now apply absent_or_other.
  rewrite update_title_lookup by now apply absent_or_other.
  reflexivity.
Qed.

Lemma assign_column_fixed all k v t t' :
  assign_column all k v t = Some t' -> id t' = id t /\ created_at t' = created_at t.
Proof.
  unfold assign_column.
  repeat match goal with
         | |- context [if ?b then _ else _] => destruct b
         | |- context [match ?x with _ => _ end] => destruct x
         end; intros H; try discriminate H; injection H as <-; split; reflexivity.
Qed.

Lemma assign_column_untouched all k v t t' (c : jsstring) :
  assign_column all k v t = Some t' -> str_eqb c k = false ->
  lookup c (row t') = lookup c (row t).
Proof.
  unfold assign_column. intros H Hc.
  destruct (str_eqb k (js "title")) eqn:E1;
    [apply str_eqb_eq in E1; subst k|
     destruct (str_eqb k (js "description")) eqn:E2;
     [apply str_eqb_eq in E2; subst k|
      destruct (str_eqb k (js "status")) eqn:E3;
      [apply str_eqb_eq in E3; subst k|
       destruct (str_eqb k (js "priority")) eqn:E4;
       [apply str_eqb_eq in E4; subst k|
        destruct (str_eqb k (js "parent_id")) eqn:E5;
        [apply str_eqb_eq in E5; subst k|discriminate H]]]]];
    repeat match type of H with
           | context [if ?b then _ else _] => destruct b
           | context [match ?x with _ => _ end] => destruct x
           end; try discriminate H; injection H as <-;
    unfold row; cbn [lookup id title description status priority parent_id created_at];
    rewrite ?Hc;
    repeat match goal with |- context [if ?b then _ else _] => destruct b end;
    reflexivity.
Qed.

Lemma assign_columns_untouched all values (c : jsstring) :
  forall t t',
    assign_columns all values t = Some t' -> lookup c values = None ->
    lookup c (row t') = lookup c (row t).
Proof.
  induction values as [|[k v] rest IH]; intros t t' H Hc; simpl in H.
  - now injection H as <-.
  - simpl in Hc. destruct (str_eqb c k) eqn:E; [discriminate Hc|].
    destruct (assign_column all k v t) as [t1|] eqn:E1; [|discriminate H].
    rewrite (IH _ _ H Hc). eapply assign_column_untouched; eassumption.
Qed.

Lemma assign_columns_fixed all values :
  forall t t',
    assign_columns all values t = Some t' -> id t' = id t /\ created_at t' = created_at t.
Proof.
  induction values as [|[k v] rest IH]; intros t t' H; simpl in H.
  - injection H as <-. split; reflexivity.
  - destruct (assign_column all k v t) as [t1|] eqn:E1; [|discriminate H].
    destruct (IH _ _ H) as [H1 H2]. destruct (assign_column_fixed _ _ _ _ _ E1) as [H3 H4].
    split; congruence.
Qed.

Lemma update_rows_pointwise all values f ts :
  forall ts' changed,
    update_rows all values f ts = Some (ts', changed) ->
    Forall2 (fun t t' => if f t then assign_columns all values t = Some t' else t' = t)
            ts ts'.
Proof.
  induction ts as [|t ts IH]; intros ts' changed H; simpl in H.
  - injection H as <- <-. constructor.
  - destruct (update_rows all values f ts) as [[ts1 changed1]|]; [|discriminate].
    destruct (f t) eqn:E.
    + destruct (assign_columns all values t) as [t1|] eqn:E1; [|discriminate].
      injection H as <- <-. constructor; [now rewrite E|]. eapply IH. reflexivity.
    + injection H as <- <-. constructor; [now rewrite E|]. eapply IH. reflexivity.
Qed.

Lemma Forall2_same {A : Type} (R : A -> A -> Prop) (l : list A) :
  (forall a, R a a) -> Forall2 R l l.
Proof. intros H. induction l; constructor; auto. Qed.

Lemma Forall2_weaken {A B : Type} (R S : A -> B -> Prop) (l : list A) (l' : list B) :
  (forall a b, R a b -> S a b) -> Forall2 R l l' -> Forall2 S l l'.
Proof. intros H HR. induction HR; constructor; auto. Qed.

Lemma exec_update_by_num (values : list (jsstring * JSValue)) (z : Z) (tb : Table) :
  exec (Update values (js "id") (num z)) tb
  = match update_rows (tasks tb) values (fun t => (id t =? z)%Z) (tasks tb) with
    | Some (ts', changed) =>
      (ok (JArr (map (fun t => JObj (row t)) changed)), mkTable ts' (next_id tb) (now tb))
    | None => (refused, tb)
    end.
Proof. unfold exec, with_filter. rewrite as_bigint_num. reflexivity. Qed.

Lemma run_apply_update_table (z : Z) (values : list (jsstring * JSValue)) (w : World) :
  table (snd (run (apply_update z values) w)) = table w
  \/ exists ts' changed,
      update_rows (tasks (table w)) values (fun t => (id t =? z)%Z) (tasks (table w))
      = Some (ts', changed)
      /\ table (snd (run (apply_update z values) w))
         = mkTable ts' (next_id (table w)) (now (table w)).
Proof.
  unfold apply_update. cbn [run]. unfold answer.
  destruct (faults w) as [|[e|] rest]; [| now left |];
    rewrite exec_update_by_num;
    (destruct (update_rows (tasks (table w)) values (fun t => (id t =? z)%Z)
                           (tasks (table w))) as [[ts' changed]|];
     [right; exists ts', changed; split; [reflexivity|];
      cbn [error ok data];
      destruct (negb (truthy (JArr (map (fun t => JObj (row t)) changed)))
                || length_is_zero (JArr (map (fun t => JObj (row t)) changed)));
      reflexivity
     |now left]).
Qed.

Lemma run_apply_update_rel (z : Z) (values : list (jsstring * JSValue)) (w : World) :
  next_id (table (snd (run (apply_update z values) w))) = next_id (table w)
  /\ Forall2 (fun t t' =>
               id t' = id t /\ created_at t' = created_at t
               /\ (id t <> z -> t' = t)
               /\ (forall c, lookup c values = None ->
                             lookup c (row t') = lookup c (row t)))
            (tasks (table w)) (tasks (table (snd (run (apply_update z values) w)))).
Proof.
  destruct (run_apply_update_table z values w) as [->|[ts' [changed [Hu ->]]]].
  - split; [reflexivity|]. apply Forall2_same. intros a. repeat split; reflexivity.
  - split; [reflexivity|]. cbn [tasks].
    apply update_rows_pointwise in Hu.
    eapply Forall2_weaken; [|exact Hu]. cbv beta. intros t t' H.
    destruct (id t =? z)%Z eqn:E.
    + destruct (assign_columns_fixed _ _ _ _ H) as [H1 H2].
      repeat split; try assumption.
      * intros Hne. apply Z.eqb_eq in E. contradiction.
      * intros c Hc. eapply assign_columns_untouched; eassumption.
    + subst t'. repeat split; reflexivity.
Qed.

(** X8. [PATCH /tasks/{id}], whatever the payload and the store failures:
    the table has the same rows in the same places afterwards, each with
    the identifier and the creation time it had; a row of another
    identifier is unchanged, and so is every column of the addressed row
    that the payload does not mention. *)
Theorem patch_changes_only_what_was_sent (req : Request) (w : World) (taskId : Z) :
  str_eqb (method req) (js "PATCH") = true ->
  validateId (query_id req) = Some taskId ->
  next_id (table (snd (run (handler req) w))) = next_id (table w)
  /\ Forall2 (fun t t' =>
               id t' = id t /\ created_at t' = created_at t
               /\ (id t <> taskId -> t' = t)
               /\ (forall c, get (body req) c = JUndefined ->
                             get (JObj (row t')) c = get (JObj (row t)) c))
            (tasks (table w)) (tasks (table (snd (run (handler req) w)))).
Proof.
  intros Hm Hid. rewrite (handler_patch req taskId Hm Hid).
  assert (Hsame : forall w' : World,
             table w' = table w ->
             next_id (table w') = next_id (table w)
             /\ Forall2 (fun t t' =>
                          id t' = id t /\ created_at t' = created_at t
                          /\ (id t <> taskId -> t' = t)
                          /\ (forall c, get (body req) c = JUndefined ->
                                        get (JObj (row t')) c = get (JObj (row t)) c))
                       (tasks (table w)) (tasks (table w'))).
  { intros w' ->. split; [reflexivity|]. apply Forall2_same.
    intros a. repeat split; reflexivity. }
  unfold handle_patch.
  destruct (validateUpdateRequest (body req)) as [st|] eqn:Hv; [|now apply Hsame].
  cbv zeta.
  assert (Hupd : forall w' : World,
             table w' = table w ->
             next_id (table (snd (run (apply_update taskId (updateData st)) w')))
             = next_id (table w)
             /\ Forall2 (fun t t' =>
                          id t' = id t /\ created_at t' = created_at t
                          /\ (id t <> taskId -> t' = t)
                          /\ (forall c, get (body req) c = JUndefined ->
                                        get (JObj (row t')) c = get (JObj (row t)) c))
                       (tasks (table w))
                       (tasks (table (snd (run (apply_update taskId (updateData st)) w'))))).
  { intros w' Hw'.
    destruct (run_apply_update_rel taskId (updateData st) w') as [H1 H2].
    rewrite Hw' in H1, H2. split; [exact H1|].
    eapply Forall2_weaken; [|exact H2]. cbv beta.
    intros t t' [Ha [Hb [Hc Hd]]]. repeat split; try assumption.
    intros c Hcol. unfold get. rewrite (Hd c); [reflexivity|].
    now apply (unsent_is_not_updated (body req)). }
  destruct (Nat.ltb 0 (List.length (errors st))); [now apply Hsame|].
  destruct (Nat.eqb (List.length (updateData st)) 0); [now apply Hsame|].
  destruct (strict_eq (get (JObj (updateData st)) (js "parent_id")) (num taskId));
    [now apply Hsame|].
  destruct (truthy (get (JObj (updateData st)) (js "parent_id"))); [|now apply Hupd].
  cbn [run].
  pose proof (answer_read_only
                (SelectSingle (js "id, parent_id") (js "id")
                              (get (JObj (updateData st)) (js "parent_id"))) w eq_refl)
    as Hread.
  destruct (answer _ w) as [r w'] eqn:Ha. cbn [snd] in Hread.
  destruct (is_some (error r) || negb (truthy (data r))); [now apply Hsame|].
  destruct (strict_eq (get (data r) (js "parent_id")) (num taskId)); [now apply Hsame|].
  now apply Hupd.
Qed.

(** [PATCH /tasks/1] with [{ id: 9, status: 'completed', created_at:
    '2000-01-01' }] on the table that holds task 1. *)
Lemma patch_changes_only_what_was_sent_witness :
  next_id (table (snd (run (handler finish_milk) kitchen))) = next_id (table kitchen)
  /\ Forall2 (fun t t' =>
               id t' = id t /\ created_at t' = created_at t
               /\ (id t <> 1%Z -> t' = t)
               /\ (forall c, get (body finish_milk) c = JUndefined ->
                             get (JObj (row t')) c = get (JObj (row t)) c))
            (tasks (table kitchen)) (tasks (table (snd (run (handler finish_milk) kitchen)))).
Proof.
  apply (patch_changes_only_what_was_sent finish_milk kitchen 1%Z); reflexivity.
Defined.

(** ** What a PATCH writes *)

Lemma set_fresh (k : jsstring) (v : JSValue) (fields : list (jsstring * JSValue)) :
  lookup k fields = None -> set k v fields = fields ++ [(k, v)].
Proof.
  induction fields as [|[k' v'] rest IH]; simpl; [reflexivity|].
  destruct (str_eqb k k'); [discriminate|]. intros H. now rewrite IH.
Qed.

Lemma assign_columns_app all (l : list (jsstring * JSValue)) k v :
  forall t,
    assign_columns all (l ++ [(k, v)]) t
    = match assign_columns all l t with
      | Some t1 => assign_column all k v t1
      | None => None
      end.
Proof.
  induction l as [|[k' v'] rest IH]; intros t; simpl.
  - now destruct (assign_column all k v t).
  - destruct (assign_column all k' v' t); [apply IH|reflexivity].
Qed.

Lemma assign_fresh all k v st t0 t :
  lookup k (updateData st) = None ->
  assign_columns all (updateData st) t0 = Some t ->
  assign_columns all (updateData (assign k v st)) t0 = assign_column all k v t.
Proof.
  intros Hk H. unfold assign. cbn [updateData].
  rewrite (set_fresh k v _ Hk), assign_columns_app, H. reflexivity.
Qed.

Lemma assign_not_empty k v st : updateData (assign k v st) <> [].
Proof.
  unfold assign. cbn [updateData]. intros E.
  apply (set_not_empty k v (updateData st)). now rewrite E.
Qed.

Lemma title_step all (v : JSValue) (st : UpdateState) (t0 t : Task) :
  is_undefined v || title_rule v = true ->
  lookup (js "title") (updateData st) = None ->
  assign_columns all (updateData st) t0 = Some t ->
  errors (update_title v st) = errors st
  /\ (v <> JUndefined \/ updateData st <> [] -> updateData (update_title v st) <> [])
  /\ assign_columns all (updateData (update_title v st)) t0
     = Some (mkTask (id t) (match v with JStr s => trim s | _ => title t end)
                    (description t) (status t) (priority t) (parent_id t) (created_at t)).
Proof.
  intros Hrule Hk H.
  destruct v as [| | | |s| |]; try discriminate Hrule.
  - split; [reflexivity|]. split; [intros [E|E]; [now elim E|exact E]|].
    cbn [update_title is_undefined negb]. rewrite H. now destruct t.
  - cbn [is_undefined title_rule orb] in Hrule. apply andb_true_iff in Hrule as [Ha Hb].
    unfold update_title. cbn [is_undefined is_string typeof negb trimmed length_of].
    apply negb_true_iff in Ha. rewrite Ha.
    rewrite N.ltb_antisym, Hb. cbn [negb].
    split; [reflexivity|]. split; [intros _; apply assign_not_empty|].
    rewrite (assign_fresh all _ _ st t0 t Hk H). reflexivity.
Qed.

Lemma description_step all (v : JSValue) (st : UpdateState) (t0 t : Task) :
  description_rule v = true ->
  lookup (js "description") (updateData st) = None ->
  assign_columns all (updateData st) t0 = Some t ->
  errors (update_description v st) = errors st
  /\ (v <> JUndefined \/ updateData st <> [] -> updateData (update_description v st) <> [])
  /\ assign_columns all (updateData (update_description v st)) t0
     = Some (mkTask (id t) (title t)
                    (match v with
                     | JUndefined => description t
                     | _ => match description_or_null v with
                            | JStr x => Some x
                            | _ => None
                            end
                     end)
                    (status t) (priority t) (parent_id t) (created_at t)).
Proof.
  intros Hrule Hk H.
  destruct v as [| | | |s| |]; try discriminate Hrule.
  - split; [reflexivity|]. split; [intros [E|E]; [now elim E|exact E]|].
    cbn [update_description is_undefined negb]. rewrite H. now destruct t.
  - split; [reflexivity|]. split; [intros _; apply assign_not_empty|].
    change (update_description JNull st) with (assign (js "description") JNull st).
    rewrite (assign_fresh all _ _ st t0 t Hk H). reflexivity.
  - cbn [description_rule] in Hrule.
    assert (E : update_description (JStr s) st
                = assign (js "description") (description_or_null (JStr s)) st).
    { unfold update_description.
      cbn [is_undefined is_null is_string typeof negb andb length_of].
      rewrite N.ltb_antisym, Hrule. cbn [negb]. now rewrite andb_false_r. }
    rewrite E.
    split; [reflexivity|]. split; [intros _; apply assign_not_empty|].
    rewrite (assign_fresh all _ _ st t0 t Hk H).
    unfold description_or_null. destruct (trim s); reflexivity.
Qed.

Lemma status_step all (v : JSValue) (st : UpdateState) (t0 t : Task) :
  enum_rule validStatuses v = true ->
  lookup (js "status") (updateData st) = None ->
  assign_columns all (updateData st) t0 = Some t ->
  errors (update_status v st) = errors st
  /\ (v <> JUndefined \/ updateData st <> [] -> updateData (update_status v st) <> [])
  /\ assign_columns all (updateData (update_status v st)) t0
     = Some (mkTask (id t) (title t) (description t)
                    (match status_of v with Some s => s | None => status t end)
                    (priority t) (parent_id t) (created_at t)).
Proof.
  intros Hrule Hk H.
  destruct v as [| | | |s| |]; try discriminate Hrule.
  - split; [reflexivity|]. split; [intros [E|E]; [now elim E|exact E]|].
    cbn [update_status is_undefined negb]. rewrite H. now destruct t.
  - assert (E : update_status (JStr s) st = assign (js "status") (JStr s) st).
    { unfold update_status. cbn [is_undefined negb includes].
      cbn [enum_rule] in Hrule. now rewrite Hrule. }
    rewrite E.
    split; [reflexivity|]. split; [intros _; apply assign_not_empty|].
    rewrite (assign_fresh all _ _ st t0 t Hk H).
    apply in_names in Hrule. destruct Hrule as [<-|[<-|[]]]; reflexivity.
Qed.

Lemma priority_step all (v : JSValue) (st : UpdateState) (t0 t : Task) :
  enum_rule validPriorities v = true ->
  lookup (js "priority") (updateData st) = None ->
  assign_columns all (updateData st) t0 = Some t ->
  errors (update_priority v st) = errors st
  /\ (v <> JUndefined \/ updateData st <> [] -> updateData (update_priority v st) <> [])
  /\ assign_columns all (updateData (update_priority v st)) t0
     = Some (mkTask (id t) (title t) (description t) (status t)
                    (match priority_of v with Some p => p | None => priority t end)
                    (parent_id t) (created_at t)).
Proof.
  intros Hrule Hk H.
  destruct v as [| | | |s| |]; try discriminate Hrule.
  - split; [reflexivity|]. split; [intros [E|E]; [now elim E|exact E]|].
    cbn [update_priority is_undefined negb]. rewrite H. now destruct t.
  - assert (E : update_priority (JStr s) st = assign (js "priority") (JStr s) st).
    { unfold update_priority. cbn [is_undefined negb includes].
      cbn [enum_rule] in Hrule. now rewrite Hrule. }
    rewrite E.
    split; [reflexivity|]. split; [intros _; apply assign_not_empty|].
    rewrite (assign_fresh all _ _ st t0 t Hk H).
    apply in_names in Hrule. destruct Hrule as [<-|[<-|[<-|[]]]]; reflexivity.
Qed.

Lemma parent_id_step all (v : JSValue) (st : UpdateState) (t0 t : Task) :
  (v = JUndefined \/ v = JNull
   \/ exists q p, v = JNum q /\ q == inject_Z p /\ has_id p all = true) ->
  lookup (js "parent_id") (updateData st) = None ->
  assign_columns all (updateData st) t0 = Some t ->
  errors (update_parent_id v st) = errors st
  /\ (v <> JUndefined \/ updateData st <> [] -> updateData (update_parent_id v st) <> [])
  /\ get (JObj (updateData (update_parent_id v st))) (js "parent_id") = v
  /\ assign_columns all (updateData (update_parent_id v st)) t0
     = Some (mkTask (id t) (title t) (description t) (status t) (priority t)
                    (match v with JUndefined => parent_id t | _ => as_bigint v end)
                    (created_at t)).
Proof.
  intros Hv Hk H. destruct Hv as [->|[->|[q [p [-> [Hq Hin]]]]]].
  - split; [reflexivity|]. split; [intros [E|E]; [now elim E|exact E]|].
    split; [unfold get; cbn [update_parent_id is_undefined negb]; now rewrite Hk|].
    cbn [update_parent_id is_undefined negb]. rewrite H. now destruct t.
  - change (update_parent_id JNull st) with (assign (js "parent_id") JNull st).
    split; [reflexivity|]. split; [intros _; apply assign_not_empty|].
    split; [apply get_set_same|].
    rewrite (assign_fresh all _ _ st t0 t Hk H). reflexivity.
  - destruct (integer_of_Qeq q p Hq) as [Hi Hb].
    rewrite (update_parent_id_integer q st Hi).
    split; [reflexivity|]. split; [intros _; apply assign_not_empty|].
    split; [apply get_set_same|].
    rewrite (assign_fresh all _ _ st t0 t Hk H), Hb.
    apply assign_parent; assumption.
Qed.

Lemma rules_hold (a b c d e : bool) :
  broken [a; b; c; d; e] = 0%nat ->
  a = true /\ b = true /\ c = true /\ d = true /\ e = true.
Proof. destruct a, b, c, d, e; try discriminate; repeat split. Qed.

(** The update a payload that breaks no rule amounts to, on a row. *)
Lemma validated_update all (body : JSValue) (t : Task) :
  nullish body = false ->
  update_violations body = 0%nat ->
  (get body (js "parent_id") = JUndefined \/ get body (js "parent_id") = JNull
   \/ exists q p, get body (js "parent_id") = JNum q /\ q == inject_Z p
                  /\ has_id p all = true) ->
  exists st,
    validateUpdateRequest body = Normal st
    /\ errors st = []
    /\ get (JObj (updateData st)) (js "parent_id") = get body (js "parent_id")
    /\ ((exists c, In c [js "title"; js "description"; js "status"; js "priority";
                        js "parent_id"] /\ get body c <> JUndefined)
        -> updateData st <> [])
    /\ assign_columns all (updateData st) t
       = Some (mkTask (id t)
                 (match get body (js "title") with JStr s => trim s | _ => title t end)
                 (match get body (js "description") with
                  | JUndefined => description t
                  | _ => match description_or_null (get body (js "description")) with
                         | JStr x => Some x
                         | _ => None
                         end
                  end)
                 (match status_of (get body (js "status")) with
                  | Some s => s
                  | None => status t
                  end)
                 (match priority_of (get body (js "priority")) with
                  | Some p => p
                  | None => priority t
                  end)
                 (match get body (js "parent_id") with
                  | JUndefined => parent_id t
                  | _ => as_bigint (get body (js "parent_id"))
                  end)
                 (created_at t)).
Proof.
  intros Hbody Hrules Hparent.
  unfold update_violations in Hrules.
  destruct (rules_hold _ _ _ _ _ Hrules) as [R1 [R2 [R3 [R4 _]]]].
  unfold validateUpdateRequest. rewrite Hbody.
  set (v1 := get body (js "title")) in *.
  set (v2 := get body (js "description")) in *.
  set (v3 := get body (js "status")) in *.
  set (v4 := get body (js "priority")) in *.
  set (v5 := get body (js "parent_id")) in *.
  set (st0 := mkUpdateState [] []).
  destruct (title_step all v1 st0 t t R1 eq_refl eq_refl) as [E1 [N1 A1]].
  set (st1 := update_title v1 st0) in *.
  assert (L2 : lookup (js "description") (updateData st1) = None).
  { unfold st1. now rewrite update_title_lookup by now right. }
  destruct (description_step all v2 st1 t _ R2 L2 A1) as [E2 [N2 A2]].
  cbn [id title description status priority parent_id created_at] in A2.
  set (st2 := update_description v2 st1) in *.
  assert (L3 : lookup (js "status") (updateData st2) = None).
  { unfold st2, st1. rewrite update_description_lookup by now right.
    now rewrite update_title_lookup by now right. }
  destruct (status_step all v3 st2 t _ R3 L3 A2) as [E3 [N3 A3]].
  cbn [id title description status priority parent_id created_at] in A3.
  set (st3 := update_status v3 st2) in *.
  assert (L4 : lookup (js "priority") (updateData st3) = None).
  { unfold st3, st2, st1. rewrite update_status_lookup by now right.
    rewrite update_description_lookup by now right.
    now rewrite update_title_lookup by now right. }
  destruct (priority_step all v4 st3 t _ R4 L4 A3) as [E4 [N4 A4]].
  cbn [id title description status priority parent_id created_at] in A4.
  set (st4 := update_priority v4 st3) in *.
  assert (L5 : lookup (js "parent_id") (updateData st4) = None).
  { unfold st4, st3, st2, st1. rewrite update_priority_lookup by now right.
    rewrite update_status_lookup by now right.
    rewrite update_description_lookup by now right.
    now rewrite update_title_lookup by now right. }
  destruct (parent_id_step all v5 st4 t _ Hparent L5 A4) as [E5 [N5 [G5 A5]]].
  cbn [id title description status priority parent_id created_at] in A5.
  exists (update_parent_id v5 st4).
  split; [reflexivity|]. split; [now rewrite E5, E4, E3, E2, E1|]. split; [exact G5|].
  split; [|exact A5].
  intros [c [Hc Hdef]].
  apply N5. destruct (str_eqb c (js "parent_id")) eqn:C5.
  { left. apply str_eqb_eq in C5. now subst c. }
  right. apply N4. destruct (str_eqb c (js "priority")) eqn:C4.
  { left. apply str_eqb_eq in C4. now subst c. }
  right. apply N3. destruct (str_eqb c (js "status")) eqn:C3.
  { left. apply str_eqb_eq in C3. now subst c. }
  right. apply N2. destruct (str_eqb c (js "description")) eqn:C2.
  { left. apply str_eqb_eq in C2. now subst c. }
  right. apply N1. left.
  destruct Hc as [<-|[<-|[<-|[<-|[<-|[]]]]]]; try exact Hdef;
    rewrite str_eqb_refl in *; discriminate.
Qed.









(** ** PATCH in front of a row or a parent that is not there *)

Lemma update_rows_none all values (f : Task -> bool) (ts : list Task) :
  filter f ts = [] -> update_rows all values f ts = Some (ts, []).
Proof.
  induction ts as [|u ts IH]; simpl; [reflexivity|].
  destruct (f u) eqn:E; [discriminate|]. intros H. now rewrite (IH H).
Qed.

Lemma run_apply_update_missing (z : Z) (values : list (jsstring * JSValue)) (w : World) :
  faults w = [] ->
  has_id z (tasks (table w)) = false ->
  fst (run (apply_update z values) w) = errorResponse msg_not_found 404
  /\ tasks (table (snd (run (apply_update z values) w))) = tasks (table w).
Proof.
  intros Hf Hno. unfold apply_update. cbn [run]. unfold answer. rewrite Hf.
  rewrite exec_update_by_num, (update_rows_none _ _ _ _ (has_id_filter z _ Hno)).
  split; reflexivity.
Qed.

(** X11. [PATCH /tasks/{id}] when no row has the identifier, with a
    payload that breaks no rule, has one of the five fields at least and
    names no parent, the store answering: the answer is the 404 of the
    missing task and the rows of the table are unchanged. *)
Theorem patch_of_a_missing_task_is_not_found (req : Request) (w : World) (taskId : Z) :
  str_eqb (method req) (js "PATCH") = true ->
  validateId (query_id req) = Some taskId ->
  nullish (body req) = false ->
  update_violations (body req) = 0%nat ->
  (exists c, In c [js "title"; js "description"; js "status"; js "priority";
                   js "parent_id"] /\ get (body req) c <> JUndefined) ->
  (get (body req) (js "parent_id") = JUndefined
   \/ get (body req) (js "parent_id") = JNull) ->
  has_id taskId (tasks (table w)) = false ->
  faults w = [] ->
  fst (run (handler req) w) = errorResponse msg_not_found 404
  /\ tasks (table (snd (run (handler req) w))) = tasks (table w).
Proof.
  intros Hm Hid Hbody Hrules Hsome Hpar Hno Hf.
  destruct (validated_update [] (body req) (mkTask 0 [] None pending medium None [])
                             Hbody Hrules) as [st [Hv [He [Hg [Hn _]]]]].
  { destruct Hpar as [H|H]; auto. }
  specialize (Hn Hsome).
  rewrite (handler_patch req taskId Hm Hid).
  unfold handle_patch. rewrite Hv. cbv zeta. rewrite He, Hg.
  cbn [List.length Nat.ltb Nat.leb].
  destruct (updateData st) as [|kv rest] eqn:Hd; [now elim Hn|].
  cbn [List.length Nat.eqb]. rewrite <- Hd in *. clear Hd kv rest.
  destruct Hpar as [Hp|Hp]; rewrite Hp; cbn [strict_eq truthy];
    exact (run_apply_update_missing taskId _ w Hf Hno).
Qed.

(** [PATCH /tasks/9] with [{ status: 'completed' }] on the table that holds
    task 1 alone. *)
Lemma patch_of_a_missing_task_is_not_found_witness :
  fst (run (handler finish_nine) kitchen) = errorResponse msg_not_found 404
  /\ tasks (table (snd (run (handler finish_nine) kitchen))) = tasks (table kitchen).
Proof.
  apply (patch_of_a_missing_task_is_not_found finish_nine kitchen 9%Z); try reflexivity.
  - exists (js "status"). split; [simpl; tauto|discriminate].
  - now left.
Defined.

(** X12. [PATCH /tasks/{id}] whose [parent_id] is a non-zero integer that
    no row of the table has as its identifier: whatever the other fields
    and the store failures, the answer is a 400 and the table is
    unchanged; when the payload breaks no rule and the parent named is
    not the task itself, the message is the one of the missing parent. *)
Theorem patch_under_a_missing_parent_is_refused
        (req : Request) (w : World) (taskId : Z) (fields : list (jsstring * JSValue))
        (q : Q) (p : Z) :
  str_eqb (method req) (js "PATCH") = true ->
  validateId (query_id req) = Some taskId ->
  body req = JObj fields ->
  get (JObj fields) (js "parent_id") = JNum q ->
  q == inject_Z p -> p <> 0%Z ->
  has_id p (tasks (table w)) = false ->
  statusCode (fst (run (handler req) w)) = 400
  /\ table (snd (run (handler req) w)) = table w
  /\ (update_violations (JObj fields) = 0%nat -> p <> taskId ->
      fst (run (handler req) w) = errorResponse msg_parent_missing 400).
Proof.
  intros Hm Hid Hbody Hget Hq Hz Hno.
  destruct (integer_of_Qeq _ _ Hq) as [Hint _].
  rewrite (handler_patch req taskId Hm Hid), Hbody.
  assert (Hcount : update_violations (JObj fields) = 0%nat ->
                   errors (before_parent_id (JObj fields)) = []).
  { intros H0.
    pose proof (update_reports_every_violation fields _
                  (validateUpdateRequest_object fields)) as Hc.
    rewrite Hget, (update_parent_id_integer _ _ Hint), H0 in Hc.
    cbn [errors assign] in Hc.
    destruct (errors (before_parent_id (JObj fields))); [reflexivity|discriminate Hc]. }
  unfold handle_patch.
  rewrite validateUpdateRequest_object.
  rewrite Hget, (update_parent_id_integer _ _ Hint).
  set (st := before_parent_id (JObj fields)) in *.
  cbn [errors updateData assign].
  destruct (Nat.ltb 0 (List.length (errors st))) eqn:Herr.
  { cbn. repeat split. intros Hr _. rewrite (Hcount Hr) in Herr. discriminate Herr. }
  destruct (Nat.eqb (List.length (set (js "parent_id") (JNum q) (updateData st))) 0)
    eqn:Hlen.
  { apply Nat.eqb_eq in Hlen. now destruct (set_not_empty _ _ _ Hlen). }
  rewrite get_set_same.
  destruct (strict_eq (JNum q) (num taskId)) eqn:Hself.
  { cbn. repeat split. intros _ Hne. exfalso. apply Hne.
    apply strict_eq_num in Hself. rewrite Hq in Hself.
    unfold Qeq, inject_Z in Hself; simpl in Hself. lia. }
  rewrite (truthy_nonzero q p Hq Hz).
  cbn [run].
  destruct (faults w) as [|[e|] rest] eqn:Hf.
  - rewrite answer_no_fault by (rewrite Hf; exact I).
    rewrite (exec_select_by_id _ _ _ _ Hq), (has_id_filter p _ Hno).
    cbn. now destruct (table w).
  - rewrite (answer_fault _ _ e rest Hf). cbn. repeat split.
  - rewrite answer_no_fault by (rewrite Hf; exact I).
    rewrite (exec_select_by_id _ _ _ _ Hq), (has_id_filter p _ Hno).
    cbn. now destruct (table w).
Qed.

(** [PATCH /tasks/1] with [{ parent_id: 7 }] on the table that holds task 1
    alone. *)
Lemma patch_under_a_missing_parent_is_refused_witness :
  fst (run (handler move_under_seven) kitchen) = errorResponse msg_parent_missing 400
  /\ table (snd (run (handler move_under_seven) kitchen)) = table kitchen.
Proof.
  destruct (patch_under_a_missing_parent_is_refused move_under_seven kitchen 1%Z
              [(js "parent_id", num 7)] (inject_Z 7) 7%Z)
    as [_ [H2 H3]]; try reflexivity; try discriminate.
  split; [apply H3; [reflexivity|discriminate]|exact H2].
Defined.

(** ** Reading a task with its subtasks *)

Lemma project_all_star (ts : list Task) :
  project_all (js "*") ts = Some (map (fun t => JObj (row t)) ts).
Proof.
  induction ts as [|t ts IH]; [reflexivity|].
  cbn [project_all map]. now rewrite project_star, IH.
Qed.

Lemma exec_select_children_rows (z : Z) (tb : Table) :
  exec (SelectOrdered (js "*") (js "parent_id") (num z) (js "created_at") true) tb
  = (ok (JArr (map (fun t => JObj (row t))
                   (sort_by (fun a b => str_leb (created_at a) (created_at b))
                            (filter (fun u => match parent_id u with
                                              | Some p => (p =? z)%Z
                                              | None => false
                                              end) (tasks tb))))), tb).
Proof.
  unfold exec, with_filter. rewrite as_bigint_num.
  change (eq_filter (js "parent_id") z)
    with (Some (fun u : Task => match parent_id u with
                                | Some p => (p =? z)%Z
                                | None => false
                                end)).
  cbv iota beta.
  change (order_rows (js "created_at") true ?l)
    with (Some (sort_by (fun a b => str_leb (created_at a) (created_at b)) l)).
  cbv iota beta. now rewrite project_all_star.
Qed.

(** X13. [GET /tasks/{id}] on a row that is there, the store answering:
    the answer is a 200 whose data is the row with one more member,
    [subtasks], which holds exactly the rows of the table whose parent is
    the task, the oldest first; the table is unchanged. *)
Theorem get_returns_the_task_with_its_children
        (req : Request) (w : World) (taskId : Z) (t : Task) :
  str_eqb (method req) (js "GET") = true ->
  validateId (query_id req) = Some taskId ->
  filter (fun u => (id u =? taskId)%Z) (tasks (table w)) = [t] ->
  faults w = [] ->
  exists children,
    fst (run (handler req) w)
    = successResponse
        (JObj (row t ++ [(js "subtasks", JArr (map (fun c => JObj (row c)) children))]))
        200
    /\ (forall c, In c children <-> In c (tasks (table w)) /\ parent_id c = Some taskId)
    /\ Sorted (fun a b => str_leb (created_at a) (created_at b) = true) children
    /\ table (snd (run (handler req) w)) = table w.
Proof.
  intros Hm Hid Hrow Hf. rewrite (handler_get req taskId Hm Hid).
  set (le := fun a b : Task => str_leb (created_at a) (created_at b)).
  set (mine := fun u : Task => match parent_id u with
                               | Some p => (p =? taskId)%Z
                               | None => false
                               end).
  exists (sort_by le (filter mine (tasks (table w)))).
  unfold handle_get. cbn [run].
  rewrite answer_no_fault by now rewrite Hf.
  rewrite exec_select_by_num, Hrow, project_star.
  cbn [fst snd ok error data run].
  rewrite answer_no_fault by (cbn; now rewrite Hf).
  cbn [table]. rewrite exec_select_children_rows.
  cbn [fst snd ok data truthy spread run table].
  rewrite subtasks_appended.
  split; [reflexivity|]. split; [|split; [|reflexivity]].
  - intros c. rewrite sort_by_In, filter_In. unfold mine. split.
    + intros [Hin Hp]. split; [exact Hin|].
      destruct (parent_id c) as [p|]; [|discriminate Hp].
      apply Z.eqb_eq in Hp. now subst p.
    + intros [Hin Hp]. split; [exact Hin|]. rewrite Hp. apply Z.eqb_refl.
  - apply (sort_by_sorted le). intros a b. unfold le. apply str_leb_total.
Qed.

(** [GET /tasks/1] on the table where [draft] is a child of [write]. *)
Lemma get_returns_the_task_with_its_children_witness :
  exists children,
    fst (run (handler read_one) (desk [] (AiContent None)))
    = successResponse
        (JObj (row write ++ [(js "subtasks", JArr (map (fun c => JObj (row c)) children))]))
        200
    /\ (forall c, In c children <-> In c [write; draft] /\ parent_id c = Some 1%Z).
Proof.
  destruct (get_returns_the_task_with_its_children read_one (desk [] (AiContent None))
              1%Z write) as [children [H1 [H2 _]]]; try reflexivity.
  exists children. split; assumption.
Defined.

(** X14. [GET /tasks/{id}] when no row has the identifier, the store
    answering: the answer is the 404 of the missing task, and the table
    is unchanged. *)
Theorem get_of_a_missing_task_is_not_found (req : Request) (w : World) (taskId : Z) :
  str_eqb (method req) (js "GET") = true ->
  validateId (query_id req) = Some taskId ->
  has_id taskId (tasks (table w)) = false ->
  faults w = [] ->
  fst (run (handler req) w) = errorResponse msg_not_found 404
  /\ table (snd (run (handler req) w)) = table w.
Proof.
  intros Hm Hid Hno Hf. rewrite (handler_get req taskId Hm Hid).
  unfold handle_get. cbn [run].
  rewrite answer_no_fault by now rewrite Hf.
  rewrite exec_select_by_num, (has_id_filter taskId _ Hno).
  split; reflexivity.
Qed.

(** [GET /tasks/9] on the table that holds task 1 alone. *)
Lemma get_of_a_missing_task_is_not_found_witness :
  fst (run (handler read_nine) kitchen) = errorResponse msg_not_found 404
  /\ table (snd (run (handler read_nine) kitchen)) = table kitchen.
Proof.
  apply (get_of_a_missing_task_is_not_found read_nine kitchen 9%Z); reflexivity.
Defined.

(** ** What a DELETE removes *)

Lemma filter_shorter (f : Task -> bool) (ts : list Task) :
  filter f ts <> [] ->
  (List.length (filter (fun t => negb (f t)) ts) < List.length ts)%nat.
Proof.
  intros H. pose proof (filter_length f ts) as E.
  destruct (filter f ts); [now elim H|]. simpl in E. lia.
Qed.

Lemma existsb_eqb_In (p : Z) (gone : list Z) :
  existsb (Z.eqb p) gone = true <-> In p gone.
Proof.
  rewrite existsb_exists. split.
  - intros [x [Hin Hx]]. apply Z.eqb_eq in Hx. now subst x.
  - intros Hin. exists p. split; [exact Hin|apply Z.eqb_refl].
Qed.

(** With fuel for every row, the cascade stops when no row is left whose
    parent is gone. *)
Lemma cascade_closed (fuel : nat) :
  forall (gone : list Z) (ts : list Task),
    (List.length ts <= fuel)%nat ->
    forall u, In u (cascade fuel gone ts) ->
      (forall p, parent_id u = Some p -> ~ In p gone)
      /\ (forall d, In d ts -> ~ In d (cascade fuel gone ts) ->
                    parent_id u <> Some (id d)).
Proof.
  induction fuel as [|fuel IH]; intros gone ts Hlen u Hu.
  - destruct ts; [destruct Hu|simpl in Hlen; lia].
  - cbn [cascade] in *.
    set (orphan := fun t : Task => match parent_id t with
                                   | Some p => existsb (Z.eqb p) gone
                                   | None => false
                                   end) in *.
    destruct (filter orphan ts) as [|d0 dead] eqn:Hdead.
    + split.
      * intros p Hp Hin.
        assert (Ho : In u (filter orphan ts)).
        { apply filter_In. split; [exact Hu|]. unfold orphan. rewrite Hp.
          now apply existsb_eqb_In. }
        rewrite Hdead in Ho. destruct Ho.
      * intros d Hd Hnot. contradiction.
    + assert (Hshort : (List.length (filter (fun t => negb (orphan t)) ts) <= fuel)%nat).
      { pose proof (filter_shorter orphan ts) as Hs. rewrite Hdead in Hs.
        assert (d0 :: dead <> []) by discriminate. specialize (Hs H). lia. }
      destruct (IH _ _ Hshort u Hu) as [H1 H2].
      assert (Hkept : In u (filter (fun t => negb (orphan t)) ts))
        by (eapply cascade_subset; exact Hu).
      apply filter_In in Hkept as [Hin Hno].
      split.
      * intros p Hp Hgone. unfold orphan in Hno. rewrite Hp in Hno.
        apply existsb_eqb_In in Hgone. rewrite Hgone in Hno. discriminate Hno.
      * intros d Hd Hnot Hp.
        destruct (orphan d) eqn:Ho.
        -- apply (H1 (id d) Hp). apply in_map. rewrite <- Hdead.
           apply filter_In. now split.
        -- apply (H2 d); try assumption. apply filter_In. split; [exact Hd|].
           unfold orphan in Ho |- *. cbv beta. now rewrite Ho.
Qed.

(** The cascade removes rows of the subtree only. *)
Lemma cascade_removes_descendants (all : list Task) (z : Z) (fuel : nat) :
  forall (gone : list Z) (ts : list Task),
    (forall d, In d ts -> In d all) ->
    (forall p, In p gone -> exists e, Descends all z e /\ id e = p) ->
    forall d, In d ts -> In d (cascade fuel gone ts) \/ Descends all z d.
Proof.
  induction fuel as [|fuel IH]; intros gone ts Hsub Hgone d Hd; [now left|].
  cbn [cascade].
  set (orphan := fun t : Task => match parent_id t with
                                 | Some p => existsb (Z.eqb p) gone
                                 | None => false
                                 end) in *.
  assert (Horphan : forall x, In x ts -> orphan x = true -> Descends all z x).
  { intros x Hx Ho. unfold orphan in Ho.
    destruct (parent_id x) as [p|] eqn:Hp; [|discriminate Ho].
    apply existsb_eqb_In in Ho. destruct (Hgone p Ho) as [e [He Hid]].
    apply (Descends_child all z x e); [now apply Hsub|exact He|].
    now rewrite Hid. }
  destruct (filter orphan ts) as [|d0 dead] eqn:Hdead; [now left|].
  destruct (orphan d) eqn:Ho; [right; now apply Horphan|].
  apply IH.
  - intros x Hx. apply filter_In in Hx as [Hx _]. now apply Hsub.
  - intros p Hp. apply in_map_iff in Hp as [x [Hid Hx]].
    rewrite <- Hdead in Hx. apply filter_In in Hx as [Hx Hox].
    exists x. split; [now apply Horphan|exact Hid].
  - apply filter_In. split; [exact Hd|]. unfold orphan in Ho |- *. cbv beta. now rewrite Ho.
Qed.

Lemma Descends_In (ts : list Task) (z : Z) (d : Task) : Descends ts z d -> In d ts.
Proof. intros H. destruct H; assumption. Qed.

Lemma delete_rows_drops_subtree (z : Z) (ts : list Task) (u : Task) :
  Descends ts z u -> ~ In u (delete_rows (fun t => (id t =? z)%Z) ts).
Proof.
  set (f := fun t : Task => (id t =? z)%Z).
  assert (Hlen : (List.length (filter (fun t => negb (f t)) ts) <= List.length ts)%nat).
  { pose proof (filter_length f ts). lia. }
  intros Hd. induction Hd as [d Hd Hid|d e Hd He IH Hp]; intros Hu.
  - destruct (delete_rows_spec f ts d Hu) as [_ Hf].
    unfold f in Hf. rewrite Hid, Z.eqb_refl in Hf. discriminate Hf.
  - pose proof (Descends_In ts z e He) as Hine.
    unfold delete_rows in Hu.
    destruct (cascade_closed _ _ _ Hlen d Hu) as [H1 H2].
    destruct (f e) eqn:Hfe.
    + apply (H1 (id e) Hp). apply in_map. apply filter_In. now split.
    + apply (H2 e); [|exact IH|exact Hp].
      apply filter_In. split; [exact Hine|]. now rewrite Hfe.
Qed.

(** The rows a deletion of the task [z] leaves: none of its subtree,
    every other one. *)
Lemma delete_rows_subtree (z : Z) (ts : list Task) :
  (forall u, In u (delete_rows (fun t => (id t =? z)%Z) ts) ->
             In u ts /\ ~ Descends ts z u)
  /\ (forall d, In d ts ->
                In d (delete_rows (fun t => (id t =? z)%Z) ts) \/ Descends ts z d).
Proof.
  split.
  - intros u Hu. split; [now apply (delete_rows_spec _ ts u Hu)|].
    intros Hd. exact (delete_rows_drops_subtree z ts u Hd Hu).
  - intros d Hd. destruct (id d =? z)%Z eqn:Hf.
    + right. apply Descends_self; [exact Hd|]. now apply Z.eqb_eq.
    + unfold delete_rows.
      apply (cascade_removes_descendants ts z).
      * intros x Hx. now apply filter_In in Hx as [Hx _].
      * intros p Hp. apply in_map_iff in Hp as [x [Hid Hx]].
        apply filter_In in Hx as [Hx Hfx]. exists x. split; [|exact Hid].
        apply Descends_self; [exact Hx|]. now apply Z.eqb_eq.
      * apply filter_In. split; [exact Hd|]. now rewrite Hf.
Qed.

(** X15. [DELETE /tasks/{id}] on a row that is there, the store
    answering: the answer is a 200, and the rows left in the table are
    the rows that are not in the subtree of the task (the task, its
    children, their children and so on, as the cascade of the schema
    removes them): none of the subtree is left, and every other row is. *)
Theorem delete_removes_the_subtree (req : Request) (w : World) (taskId : Z) (t : Task) :
  str_eqb (method req) (js "DELETE") = true ->
  validateId (query_id req) = Some taskId ->
  filter (fun u => (id u =? taskId)%Z) (tasks (table w)) = [t] ->
  faults w = [] ->
  statusCode (fst (run (handler req) w)) = 200
  /\ (forall u, In u (tasks (table (snd (run (handler req) w)))) ->
                In u (tasks (table w)) /\ ~ Descends (tasks (table w)) taskId u)
  /\ (forall d, In d (tasks (table w)) ->
                In d (tasks (table (snd (run (handler req) w))))
                \/ Descends (tasks (table w)) taskId d).
Proof.
  intros Hm Hid Hrow Hf. rewrite (handler_delete req taskId Hm Hid).
  unfold handle_delete. cbn [run].
  rewrite answer_no_fault by now rewrite Hf.
  rewrite exec_select_by_num, Hrow, project_id_title.
  cbn [fst snd ok error data is_some truthy negb orb run].
  rewrite answer_no_fault by (cbn; now rewrite Hf).
  cbn [table]. rewrite exec_delete_by_num.
  cbn [fst snd ok error data run table tasks statusCode successResponse].
  split; [reflexivity|]. apply delete_rows_subtree.
Qed.

(** [DELETE /tasks/2] on the chain of three: [write] stays, [draft] and
    its child [outline] go. *)
Lemma delete_removes_the_subtree_witness :
  statusCode (fst (run (handler drop_draft) shelf)) = 200
  /\ (forall u, In u (tasks (table (snd (run (handler drop_draft) shelf)))) ->
                In u (tasks (table shelf)) /\ ~ Descends (tasks (table shelf)) 2 u)
  /\ (forall d, In d (tasks (table shelf)) ->
                In d (tasks (table (snd (run (handler drop_draft) shelf))))
                \/ Descends (tasks (table shelf)) 2 d).
Proof.
  apply (delete_removes_the_subtree drop_draft shelf 2%Z draft); reflexivity.
Defined.

(** ** What a breakdown adds to the table *)

Lemma drop_while_fixed (p : char16 -> bool) (s : jsstring) :
  match s with [] => True | c :: _ => p c = false end -> drop_while p s = s.
Proof. destruct s as [|c r]; [reflexivity|]. simpl. now intros ->. Qed.

Lemma drop_while_head (p : char16 -> bool) (s : jsstring) :
  match drop_while p s with [] => True | c :: _ => p c = false end.
Proof.
  induction s as [|c r IH]; simpl; [exact I|].
  destruct (p c) eqn:E; [exact IH|exact E].
Qed.

Lemma drop_while_keeps_last (p : char16 -> bool) (c : char16) (l : jsstring) :
  p c = false -> exists x, drop_while p (l ++ [c]) = x ++ [c].
Proof.
  intros Hc. induction l as [|a l IH]; simpl.
  - rewrite Hc. now exists [].
  - destruct (p a); [exact IH|]. now exists (a :: l).
Qed.

Lemma drop_while_end_head (p q : char16 -> bool) (s : jsstring) :
  match s with [] => True | c :: _ => p c = false end ->
  match drop_while_end q s with
  | [] => True
  | c :: _ => p c = false
  end.
Proof.
  unfold drop_while_end. destruct s as [|c r]; [intros _; exact I|]. intros Hc.
  simpl rev.
  destruct (q c) eqn:Hq.
  - destruct (rev (drop_while q (rev r ++ [c]))) as [|c' r'] eqn:E; [exact I|].
    assert (Hlast : forall l : jsstring,
               match rev (drop_while q (l ++ [c])) with
               | [] => True
               | c' :: _ => c' = c
               end).
    { induction l as [|a l IH]; simpl.
      - now rewrite Hq.
      - destruct (q a); [exact IH|]. simpl. rewrite rev_app_distr. reflexivity. }
    specialize (Hlast (rev r)). rewrite E in Hlast. now subst c'.
  - destruct (drop_while_keeps_last q c (rev r) Hq) as [x ->].
    rewrite rev_app_distr. exact Hc.
Qed.

Lemma trim_idempotent (s : jsstring) : trim (trim s) = trim s.
Proof.
  unfold trim.
  pose proof (drop_while_head is_space s) as Hh.
  set (a := drop_while is_space s) in *.
  pose proof (drop_while_end_head is_space is_space a Hh) as Hb.
  rewrite (drop_while_fixed is_space _ Hb).
  unfold drop_while_end. rewrite rev_involutive.
  rewrite (drop_while_fixed is_space (drop_while is_space (rev a)));
    [reflexivity|apply drop_while_head].
Qed.

Lemma clean_titles_trimmed (items : list JSValue) :
  forall ss, Breakdown.clean_titles items = Normal ss -> Forall (fun s => trim s = s) ss.
Proof.
  induction items as [|v items IH]; intros ss H; simpl in H.
  - injection H as <-. constructor.
  - destruct v; simpl in H; try discriminate H.
    destruct (Breakdown.clean_titles items) as [rest|]; [|discriminate H].
    injection H as <-. constructor; [apply trim_idempotent|now apply IH].
Qed.

Lemma clean_subtasks_trimmed (v : JSValue) (subtasks : list jsstring) :
  Breakdown.clean_subtasks v = Normal subtasks ->
  Forall (fun s => trim s = s /\ s <> []) subtasks.
Proof.
  unfold Breakdown.clean_subtasks. destruct v; try discriminate.
  destruct (Breakdown.clean_titles items) as [ss|] eqn:E; [|discriminate].
  intros H. injection H as <-.
  pose proof (clean_titles_trimmed items ss E) as Ht.
  apply Forall_forall. intros s Hs. apply filter_In in Hs as [Hin Hne].
  split; [exact (proj1 (Forall_forall _ _) Ht s Hin)|].
  now destruct s.
Qed.

Lemma assign_parent_cases all (v : JSValue) (t t' : Task) :
  assign_column all (js "parent_id") v t = Some t' ->
  (v = JNull /\ parent_id t' = None
   \/ exists p, v <> JNull /\ as_bigint v = Some p /\ has_id p all = true
                /\ parent_id t' = Some p)
  /\ title t' = title t /\ status t' = status t /\ priority t' = priority t.
Proof.
  unfold assign_column.
  change (str_eqb (js "parent_id") (js "title")) with false.
  change (str_eqb (js "parent_id") (js "description")) with false.
  change (str_eqb (js "parent_id") (js "status")) with false.
  change (str_eqb (js "parent_id") (js "priority")) with false.
  change (str_eqb (js "parent_id") (js "parent_id")) with true.
  cbv iota.
  destruct v; intros H;
    try (injection H as <-; split; [left; split; reflexivity|repeat split]);
    (destruct (as_bigint _) as [p|] eqn:Eb; [|discriminate H];
     destruct (has_id p all) eqn:Eh; [|discriminate H];
     injection H as <-;
     split; [right; exists p; repeat split; try assumption; discriminate|repeat split]).
Qed.

Lemma new_task_subtask all (fresh : Z) (stamp x d : jsstring) (fid : JSValue) (t : Task) :
  new_task all fresh stamp
           (JObj [ (js "title", JStr x); (js "description", JStr d);
                   (js "status", JStr (js "pending"));
                   (js "priority", JStr (js "medium"));
                   (js "parent_id", fid) ]) = Some t ->
  title t = x /\ status t = pending /\ priority t = medium
  /\ (fid = JNull /\ parent_id t = None
      \/ exists p, fid <> JNull /\ as_bigint fid = Some p /\ has_id p all = true
                   /\ parent_id t = Some p).
Proof.
  intros H.
  assert (E : assign_column all (js "parent_id") fid
                            (mkTask fresh x (Some d) pending medium None stamp) = Some t).
  { destruct (assign_column all (js "parent_id") fid
                            (mkTask fresh x (Some d) pending medium None stamp))
      as [t1|] eqn:E1.
    - rewrite <- H. symmetry.
      transitivity (match assign_column all (js "parent_id") fid
                            (mkTask fresh x (Some d) pending medium None stamp) with
                    | Some t' => Some t'
                    | None => None
                    end); [reflexivity|now rewrite E1].
    - exfalso.
      assert (H' : match assign_column all (js "parent_id") fid
                         (mkTask fresh x (Some d) pending medium None stamp) with
                   | Some t' => Some t'
                   | None => None
                   end = Some t) by exact H.
      rewrite E1 in H'. discriminate H'. }
  destruct (assign_parent_cases all fid _ t E) as [Hp [H1 [H2 H3]]].
  repeat split; assumption.
Qed.

Lemma new_tasks_subtasks all (stamp d : jsstring) (fid : JSValue) (titles : list jsstring) :
  forall (fresh : Z) (ts : list Task),
    new_tasks all fresh stamp
      (map (fun subtask =>
              JObj [ (js "title", JStr (trim subtask)); (js "description", JStr d);
                     (js "status", JStr (js "pending"));
                     (js "priority", JStr (js "medium"));
                     (js "parent_id", fid) ]) titles) = Some ts ->
    Forall (fun t =>
              (exists x, In x titles /\ title t = trim x)
              /\ status t = pending /\ priority t = medium
              /\ (fid = JNull /\ parent_id t = None
                  \/ exists p, fid <> JNull /\ as_bigint fid = Some p
                               /\ has_id p all = true /\ parent_id t = Some p)) ts.
Proof.
  induction titles as [|x titles IH]; intros fresh ts H; cbn [map new_tasks] in H.
  - injection H as <-. constructor.
  - destruct (new_task all fresh stamp _) as [t|] eqn:Et; [|discriminate H].
    destruct (new_tasks all (fresh + 1)%Z stamp _) as [rest|] eqn:Er; [|discriminate H].
    injection H as <-.
    destruct (new_task_subtask _ _ _ _ _ _ _ Et) as [H1 [H2 [H3 H4]]].
    constructor.
    + repeat split; try assumption. exists x. split; [now left|exact H1].
    + specialize (IH _ _ Er). eapply Forall_impl; [|exact IH].
      intros a [[y [Hy Ha]] Hrest]. split; [|exact Hrest].
      exists y. split; [now right|exact Ha].
Qed.

Lemma In_firstn {A : Type} (n : nat) (x : A) :
  forall l, In x (firstn n l) -> In x l.
Proof.
  induction n as [|n IH]; intros [|a l] H; simpl in H; try contradiction.
  destruct H as [H|H]; [now left|right; now apply IH].
Qed.

Lemma adds_nothing (w w' : World) (finalTaskId : JSValue) (resp : Response) :
  table w' = table w -> statusCode resp <> 201 ->
  adds_subtasks w finalTaskId (resp, w').
Proof.
  intros Hw Hs. exists []. cbn [fst snd]. rewrite Hw, app_nil_r.
  split; [reflexivity|]. split; [reflexivity|]. intros E. contradiction.
Qed.

Lemma adds_subtasks_after (w w1 : World) (finalTaskId : JSValue)
      (out : Response * World) :
  table w1 = table w -> adds_subtasks w1 finalTaskId out -> adds_subtasks w finalTaskId out.
Proof. unfold adds_subtasks. now intros ->. Qed.

Section BreakdownCoverage.

Variable DEEPSEEK_API_KEY : JSValue.
Variable ToNumber : JSValue -> Completion (option Q).
Variable ToString : JSValue -> jsstring.
Variable thrown_message : jsstring.

Lemma persist_run (finalTaskId : JSValue) (finalTaskTitle : jsstring)
      (subtasks : list jsstring) (w : World) :
  Forall (fun s => trim s = s /\ s <> []) subtasks ->
  adds_subtasks w finalTaskId (run (Breakdown.persist finalTaskId finalTaskTitle subtasks) w).
Proof.
  intros Hclean. unfold Breakdown.persist.
  destruct (Nat.eqb (List.length subtasks) 0) eqn:H0;
    [apply adds_nothing; [reflexivity|discriminate]|].
  destruct (Nat.ltb (List.length subtasks) 3) eqn:H3;
    [apply adds_nothing; [reflexivity|discriminate]|].
  apply Nat.ltb_ge in H3. cbv zeta. cbn [run].
  set (rows := map _ (firstn 5 subtasks)).
  assert (Hexec : forall rest : list (option StoreError),
             adds_subtasks w finalTaskId
               (run (match error (fst (exec (Insert rows) (table w))) with
                     | Some insertError =>
                       Ret (errorResponse
                              (if Breakdown.non_empty (message insertError)
                               then message insertError
                               else Breakdown.msg_insert_failed) 500)
                     | None =>
                       Ret (successResponse
                              (if truthy (data (fst (exec (Insert rows) (table w))))
                               then data (fst (exec (Insert rows) (table w)))
                               else JArr []) 201)
                     end)
                    (mkWorld (snd (exec (Insert rows) (table w))) rest (generator w)
                             (journal w ++ [Insert rows])))).
  { intros rest. cbn [exec].
    destruct (new_tasks (tasks (table w)) (next_id (table w)) (now (table w)) rows)
      as [ts|] eqn:Hnew.
    - exists ts. cbn [error ok data truthy run fst snd table tasks statusCode payload
                      successResponse].
      split; [reflexivity|]. split; [intros E; now elim E|]. intros _.
      split; [reflexivity|].
      pose proof (new_tasks_length _ _ _ _ _ Hnew) as Hlen.
      unfold rows in Hlen. rewrite length_map, length_firstn in Hlen.
      split; [lia|].
      unfold rows in Hnew. apply new_tasks_subtasks in Hnew.
      eapply Forall_impl; [|exact Hnew]. cbv beta.
      intros t [[x [Hx Ht]] [Hs [Hp Hpar]]].
      assert (Hin : In x subtasks) by (eapply In_firstn; exact Hx).
      destruct (proj1 (Forall_forall _ _) Hclean x Hin) as [Htrim Hne].
      rewrite Htrim in Ht. unfold subtask_of. rewrite Ht.
      repeat split; assumption.
    - apply adds_nothing; [reflexivity|discriminate]. }
  destruct (faults w) as [|[e|] rest] eqn:Hf.
  - rewrite answer_no_fault by (rewrite Hf; exact I). cbn [fst snd]. apply Hexec.
  - rewrite (answer_fault _ w e rest Hf).
    apply adds_nothing; [reflexivity|cbn; discriminate].
  - rewrite answer_no_fault by (rewrite Hf; exact I). cbn [fst snd]. apply Hexec.
Qed.

Lemma generate_run (finalTaskId : JSValue) (finalTaskTitle : jsstring) (w : World) :
  adds_subtasks w finalTaskId
    (run (Breakdown.generate DEEPSEEK_API_KEY thrown_message finalTaskId finalTaskTitle) w).
Proof.
  unfold Breakdown.generate.
  destruct (negb (truthy DEEPSEEK_API_KEY));
    [apply adds_nothing; [reflexivity|discriminate]|].
  cbn [run].
  destruct (generator w) as [m|[[|c s]|]];
    try (apply adds_nothing; [reflexivity|discriminate]).
  destruct (Breakdown.clean_subtasks (Breakdown.parse_subtasks (c :: s)))
    as [subtasks|] eqn:E; [|apply adds_nothing; [reflexivity|discriminate]].
  apply persist_run. eapply clean_subtasks_trimmed. exact E.
Qed.

(** X16. [POST /tasks/breakdown], whatever the request, the store
    failures and the reply of the generator: either the answer is no 201
    and the table has the rows it had, or the answer is a 201 and the
    table has three to five rows more, at its end, which are the rows the
    answer carries; each of them is pending, of medium priority, with a
    trimmed title that is not empty, and is a child of the row of the
    table the request gave the identifier of, or has no parent when the
    request gave a title instead. *)
Theorem breakdown_adds_subtasks_or_nothing (req : Request) (w : World) :
  exists (finalTaskId : JSValue) (added : list Task),
    (if truthy (get (body req) (js "taskId"))
     then Breakdown.numId_of (get (body req) (js "taskId")) = Some finalTaskId
          \/ added = []
     else finalTaskId = JNull)
    /\ tasks (table (snd (run (Breakdown.handler DEEPSEEK_API_KEY ToNumber ToString
                                                  thrown_message req) w)))
       = tasks (table w) ++ added
    /\ (statusCode (fst (run (Breakdown.handler DEEPSEEK_API_KEY ToNumber ToString
                                                 thrown_message req) w)) <> 201 ->
        added = [])
    /\ (statusCode (fst (run (Breakdown.handler DEEPSEEK_API_KEY ToNumber ToString
                                                 thrown_message req) w)) = 201 ->
        payload (fst (run (Breakdown.handler DEEPSEEK_API_KEY ToNumber ToString
                                             thrown_message req) w))
        = JArr (map (fun t => JObj (row t)) added)
        /\ (3 <= List.length added <= 5)%nat
        /\ Forall (subtask_of (tasks (table w)) finalTaskId) added).
Proof.
  assert (Hnone : forall (fid : JSValue) (resp : Response),
             statusCode resp <> 201 ->
             exists added : list Task,
               tasks (table w) = tasks (table w) ++ added
               /\ (statusCode resp <> 201 -> added = [])
               /\ (statusCode resp = 201 ->
                   payload resp = JArr (map (fun t => JObj (row t)) added)
                   /\ (3 <= List.length added <= 5)%nat
                   /\ Forall (subtask_of (tasks (table w)) fid) added)).
  { intros fid resp Hs. exact (adds_nothing w w fid resp eq_refl Hs). }
  unfold Breakdown.handler.
  destruct (negb (str_eqb (method req) (js "POST"))).
  { exists JNull, []. rewrite app_nil_r.
    split; [destruct (truthy _); auto|]. cbn. repeat split; try discriminate. }
  destruct (nullish (body req)).
  { exists JNull, []. rewrite app_nil_r.
    split; [destruct (truthy _); auto|]. cbn. repeat split; try discriminate. }
  cbv zeta.
  destruct (truthy (get (body req) (js "taskId"))).
  - destruct (Breakdown.numId_of (get (body req) (js "taskId"))) as [numId|].
    2:{ exists JNull, []. rewrite app_nil_r. split; [now right|].
        cbn. repeat split; try discriminate. }
    destruct (Breakdown.not_positive ToNumber numId) as [[|]|].
    1,3: exists numId, []; rewrite app_nil_r; split; [now right|];
         cbn; repeat split; try discriminate.
    cbn [run].
    pose proof (answer_read_only (SelectSingle (js "*") (js "id") numId) w eq_refl)
      as Hread.
    destruct (answer (SelectSingle (js "*") (js "id") numId) w) as [r w1].
    cbn [snd] in Hread.
    destruct (is_some (error r) || negb (truthy (data r))).
    + exists numId, []. cbn [run fst snd]. rewrite Hread, app_nil_r.
      split; [now right|]. cbn. repeat split; try discriminate.
    + destruct (adds_subtasks_after w w1 numId _ Hread
                  (generate_run numId
                     (Breakdown.text_of ToString (get (data r) (js "title"))) w1))
        as [added Hadded].
      exists numId, added. split; [now left|exact Hadded].
  - destruct (truthy (get (body req) (js "taskTitle"))).
    2:{ exists JNull, []. rewrite app_nil_r. split; [reflexivity|].
        cbn. repeat split; try discriminate. }
    destruct (get (body req) (js "taskTitle"));
      try (exists JNull, []; rewrite app_nil_r; split; [reflexivity|];
           cbn; repeat split; discriminate).
    destruct (Nat.eqb (List.length (trim s)) 0).
    { exists JNull, []. rewrite app_nil_r. split; [reflexivity|].
      cbn. repeat split; try discriminate. }
    destruct (generate_run JNull (trim s) w) as [added Hadded].
    exists JNull, added. split; [reflexivity|exact Hadded].
Qed.

End BreakdownCoverage.

(** ** The reply of the generator *)

Lemma drop_while_spaces (p : char16 -> bool) (ws r : jsstring) :
  forallb p ws = true -> drop_while p (ws ++ r) = drop_while p r.
Proof.
  induction ws as [|c ws IH]; simpl; [reflexivity|].
  intros H. apply andb_true_iff in H as [-> H]. now apply IH.
Qed.

Lemma drop_while_end_last (p : char16 -> bool) (l : jsstring) (b : char16) :
  p b = false -> drop_while_end p (l ++ [b]) = l ++ [b].
Proof.
  intros Hb. unfold drop_while_end. rewrite rev_app_distr. simpl. rewrite Hb.
  simpl. now rewrite rev_involutive.
Qed.

Lemma drop_while_end_spaces (p : char16 -> bool) (l ws : jsstring) (b : char16) :
  p b = false -> forallb p ws = true ->
  drop_while_end p ((l ++ [b]) ++ ws) = l ++ [b].
Proof.
  intros Hb Hws. unfold drop_while_end. rewrite rev_app_distr.
  rewrite drop_while_spaces by (rewrite forallb_forall in *; intros x Hx;
                                apply Hws; now apply in_rev).
  rewrite rev_app_distr. simpl. rewrite Hb. simpl. now rewrite rev_involutive.
Qed.

Lemma starts_with_app (p x : jsstring) : Json.starts_with p (p ++ x) = true.
Proof.
  induction p as [|c p IH]; simpl; [reflexivity|]. now rewrite N.eqb_refl, IH.
Qed.

(** X17. A reply that is a bracketed text inside a code block marked
    [json] (the opening mark, white space, the text from its opening
    bracket to its closing one, white space, the closing mark) is cleaned
    to the bracketed text itself; when that text is a JSON array, the
    parser returns this array. *)
Theorem fenced_array_is_read_as_the_array (ws1 ws2 inner : jsstring) :
  forallb is_space ws1 = true ->
  forallb is_space ws2 = true ->
  Breakdown.clean_response
    (js "```json" ++ ws1 ++ (91 :: inner ++ [93]) ++ ws2 ++ Breakdown.fence)
  = 91 :: inner ++ [93]
  /\ (forall items,
        Json.parse (91 :: inner ++ [93]) = Some (JArr items) ->
        Breakdown.parse_subtasks
          (js "```json" ++ ws1 ++ (91 :: inner ++ [93]) ++ ws2 ++ Breakdown.fence)
        = JArr items).
Proof.
  intros H1 H2.
  set (t := 91 :: inner ++ [93]).
  assert (Hclean : Breakdown.clean_response
                     (js "```json" ++ ws1 ++ t ++ ws2 ++ Breakdown.fence) = t).
  { unfold Breakdown.clean_response.
    change (js "```json") with [96; 96; 96; 106; 115; 111; 110].
    change Breakdown.fence with [96; 96; 96].
    set (rest := ws1 ++ t ++ ws2 ++ [96; 96; 96]).
    assert (Htrim : trim ([96; 96; 96; 106; 115; 111; 110] ++ rest)
                    = [96; 96; 96; 106; 115; 111; 110] ++ rest).
    { unfold trim. cbn [app drop_while]. change (is_space 96) with false. cbv iota.
      unfold rest.
      replace (96 :: 96 :: 96 :: 106 :: 115 :: 111 :: 110
                  :: ws1 ++ t ++ ws2 ++ [96; 96; 96])
        with (([96; 96; 96; 106; 115; 111; 110] ++ ws1 ++ t ++ ws2 ++ [96; 96]) ++ [96])
        by (cbn [app]; rewrite <- !app_assoc; reflexivity).
      now apply drop_while_end_last. }
    match goal with
    | |- context [Breakdown.strip_json_fence ?a] =>
      replace a with ([96; 96; 96; 106; 115; 111; 110] ++ rest)
        by (symmetry; exact Htrim)
    end.
    assert (Hjson : Breakdown.strip_json_fence ([96; 96; 96; 106; 115; 111; 110] ++ rest)
                    = t ++ ws2 ++ [96; 96; 96]).
    { unfold Breakdown.strip_json_fence. cbn [app].
      change (Breakdown.starts_with_ci (js "```json")
                (96 :: 96 :: 96 :: 106 :: 115 :: 111 :: 110 :: rest)) with true.
      cbv iota. cbn [skipn]. unfold rest.
      rewrite (drop_while_spaces is_space ws1 _ H1). reflexivity. }
    match goal with
    | |- context [Breakdown.strip_fence ?a] =>
      replace a with (t ++ ws2 ++ [96; 96; 96]) by (symmetry; exact Hjson)
    end.
    assert (Hfence : Breakdown.strip_fence (t ++ ws2 ++ [96; 96; 96])
                     = t ++ ws2 ++ [96; 96; 96]) by reflexivity.
    match goal with
    | |- context [Breakdown.strip_closing_fence ?a] =>
      replace a with (t ++ ws2 ++ [96; 96; 96]) by (symmetry; exact Hfence)
    end.
    assert (Hclose : Breakdown.strip_closing_fence (t ++ ws2 ++ [96; 96; 96]) = t).
    { unfold Breakdown.strip_closing_fence, Breakdown.ends_with.
      change Breakdown.fence with [96; 96; 96].
      replace (t ++ ws2 ++ [96; 96; 96]) with ((t ++ ws2) ++ [96; 96; 96])
        by now rewrite app_assoc.
      rewrite rev_app_distr.
      change (rev [96; 96; 96]) with [96; 96; 96].
      rewrite starts_with_app.
      rewrite length_app. cbn [List.length].
      replace (List.length (t ++ ws2) + 3 - 3)%nat with (List.length (t ++ ws2) + 0)%nat
        by lia.
      rewrite firstn_app_2. cbn [firstn]. rewrite app_nil_r.
      unfold t.
      replace ((91 :: inner ++ [93]) ++ ws2) with (((91 :: inner) ++ [93]) ++ ws2)
        by reflexivity.
      now apply drop_while_end_spaces. }
    match goal with
    | |- context [trim ?a] => replace a with t by (symmetry; exact Hclose)
    end.
    unfold trim, t. cbn [drop_while]. change (is_space 91) with false. cbv iota.
    replace (91 :: inner ++ [93]) with ((91 :: inner) ++ [93]) by reflexivity.
    now apply drop_while_end_last. }
  split; [exact Hclean|].
  intros items Hparse. unfold Breakdown.parse_subtasks. cbv zeta.
  match goal with
  | |- context [Json.parse ?a] => replace a with t by (symmetry; exact Hclean)
  end.
  match goal with
  | |- context [Json.parse ?a] =>
    replace (Json.parse a) with (Some (JArr items)) by (symmetry; exact Hparse)
  end.
  reflexivity.
Qed.

(** The reply [```json], a line feed, [['A','B','C','D']] with quotation
    marks, a line feed, [```]. *)
Lemma fenced_array_is_read_as_the_array_witness :
  Breakdown.parse_subtasks fenced_steps
  = JArr [JStr (js "A"); JStr (js "B"); JStr (js "C"); JStr (js "D")].
Proof.
  apply (proj2 (fenced_array_is_read_as_the_array
                  [10] [10] (jsq "'A','B','C','D'") eq_refl eq_refl)).
  vm_compute. reflexivity.
Defined.

(** ** The failures of a breakdown *)

Lemma clean_titles_throws (items : list JSValue) :
  existsb (fun v => negb (is_string v)) items = true ->
  Breakdown.clean_titles items = Throw.
Proof.
  induction items as [|v items IH]; simpl; [discriminate|].
  destruct v; simpl; try reflexivity.
  intros H. rewrite (IH H). reflexivity.
Qed.

Section BreakdownFailures.

Variable DEEPSEEK_API_KEY : JSValue.
Variable ToNumber : JSValue -> Completion (option Q).
Variable ToString : JSValue -> jsstring.
Variable thrown_message : jsstring.

(** X18. [POST /tasks/breakdown] with a title, when the reply of the
    generator is read as an array with an element that is not a string
    (numbers, objects, null): the clean-up of the titles throws, the
    answer is the 500 of the outer handler with the message of the error,
    no call reaches the store and the world is as it was. *)
Theorem breakdown_of_a_reply_with_a_non_string_is_caught
        (req : Request) (w : World) (s reply : jsstring) (items : list JSValue) :
  str_eqb (method req) (js "POST") = true ->
  truthy (get (body req) (js "taskId")) = false ->
  get (body req) (js "taskTitle") = JStr s ->
  trim s <> [] ->
  truthy DEEPSEEK_API_KEY = true ->
  generator w = AiContent (Some reply) ->
  reply <> [] ->
  Breakdown.parse_subtasks reply = JArr items ->
  existsb (fun v => negb (is_string v)) items = true ->
  run (Breakdown.handler DEEPSEEK_API_KEY ToNumber ToString thrown_message req) w
  = (errorResponse thrown_message 500, w).
Proof.
  intros Hm Hid Htitle Hs Hkey Hgen Hreply Hparse Hbad.
  unfold Breakdown.handler. rewrite Hm. cbn [negb].
  assert (Hbody : nullish (body req) = false).
  { destruct (body req); try reflexivity; discriminate Htitle. }
  rewrite Hbody. cbv zeta. rewrite Hid, Htitle.
  assert (Hts : truthy (JStr s) = true).
  { destruct s; [now elim Hs|reflexivity]. }
  rewrite Hts.
  destruct (trim s) as [|c r] eqn:Et; [now elim Hs|]. cbn [List.length Nat.eqb].
  unfold Breakdown.generate. rewrite Hkey. cbn [negb run]. rewrite Hgen.
  destruct reply as [|c0 r0]; [now elim Hreply|].
  rewrite Hparse. unfold Breakdown.clean_subtasks.
  rewrite (clean_titles_throws items Hbad). reflexivity.
Qed.

(** X19. Without a key of the generator ([DEEPSEEK_API_KEY] empty or not
    set), [POST /tasks/breakdown] creates nothing: whatever the request
    and the store failures, the answer is no 201 and the table is
    unchanged; a request with a title that is not blank is answered with
    the 500 of the missing key, without a call to the store. *)
Theorem breakdown_without_a_key_creates_nothing (req : Request) (w : World) :
  truthy DEEPSEEK_API_KEY = false ->
  statusCode (fst (run (Breakdown.handler DEEPSEEK_API_KEY ToNumber ToString
                                          thrown_message req) w)) <> 201
  /\ table (snd (run (Breakdown.handler DEEPSEEK_API_KEY ToNumber ToString
                                        thrown_message req) w)) = table w
  /\ (forall s,
        str_eqb (method req) (js "POST") = true ->
        truthy (get (body req) (js "taskId")) = false ->
        get (body req) (js "taskTitle") = JStr s ->
        trim s <> [] ->
        run (Breakdown.handler DEEPSEEK_API_KEY ToNumber ToString thrown_message req) w
        = (errorResponse Breakdown.msg_no_key 500, w)).
Proof.
  intros Hkey.
  assert (Hgen : forall fid title, Breakdown.generate DEEPSEEK_API_KEY thrown_message fid title
                                   = Ret (errorResponse Breakdown.msg_no_key 500)).
  { intros fid title. unfold Breakdown.generate. now rewrite Hkey. }
  split; [|split].
  - unfold Breakdown.handler.
    destruct (negb (str_eqb (method req) (js "POST"))); [cbn; discriminate|].
    destruct (nullish (body req)); [cbn; discriminate|]. cbv zeta.
    destruct (truthy (get (body req) (js "taskId"))).
    + destruct (Breakdown.numId_of (get (body req) (js "taskId"))) as [numId|];
        [|cbn; discriminate].
      destruct (Breakdown.not_positive ToNumber numId) as [[|]|];
        try (cbn; discriminate).
      cbn [run].
      destruct (answer (SelectSingle (js "*") (js "id") numId) w) as [r w1].
      destruct (is_some (error r) || negb (truthy (data r))); [cbn; discriminate|].
      rewrite Hgen. cbn. discriminate.
    + destruct (truthy (get (body req) (js "taskTitle"))); [|cbn; discriminate].
      destruct (get (body req) (js "taskTitle")); try (cbn; discriminate).
      destruct (Nat.eqb (List.length (trim s)) 0); [cbn; discriminate|].
      rewrite Hgen. cbn. discriminate.
  - unfold Breakdown.handler.
    destruct (negb (str_eqb (method req) (js "POST"))); [reflexivity|].
    destruct (nullish (body req)); [reflexivity|]. cbv zeta.
    destruct (truthy (get (body req) (js "taskId"))).
    + destruct (Breakdown.numId_of (get (body req) (js "taskId"))) as [numId|];
        [|reflexivity].
      destruct (Breakdown.not_positive ToNumber numId) as [[|]|]; try reflexivity.
      cbn [run].
      pose proof (answer_read_only (SelectSingle (js "*") (js "id") numId) w eq_refl)
        as Hread.
      destruct (answer (SelectSingle (js "*") (js "id") numId) w) as [r w1].
      cbn [snd] in Hread.
      destruct (is_some (error r) || negb (truthy (data r))); [exact Hread|].
      rewrite Hgen. exact Hread.
    + destruct (truthy (get (body req) (js "taskTitle"))); [|reflexivity].
      destruct (get (body req) (js "taskTitle")); try reflexivity.
      destruct (Nat.eqb (List.length (trim s)) 0); [reflexivity|].
      rewrite Hgen. reflexivity.
  - intros s Hm Hid Htitle Hs.
    unfold Breakdown.handler. rewrite Hm. cbn [negb].
    assert (Hbody : nullish (body req) = false).
    { destruct (body req); try reflexivity; discriminate Htitle. }
    rewrite Hbody. cbv zeta. rewrite Hid, Htitle.
    assert (Hts : truthy (JStr s) = true).
    { destruct s; [now elim Hs|reflexivity]. }
    rewrite Hts.
    destruct (trim s) as [|c r] eqn:Et; [now elim Hs|]. cbn [List.length Nat.eqb].
    rewrite Hgen. reflexivity.
Qed.

(** X20. [POST /tasks/breakdown] with a [taskId] that is a positive
    integer no row of the table has as its identifier: whatever the key,
    the generator and the store failures, the answer is the 404 of the
    missing task and the table is unchanged. *)
Theorem breakdown_of_a_missing_task_is_not_found
        (req : Request) (w : World) (q : Q) (z : Z) :
  str_eqb (method req) (js "POST") = true ->
  get (body req) (js "taskId") = JNum q ->
  q == inject_Z z -> (0 < z)%Z ->
  has_id z (tasks (table w)) = false ->
  fst (run (Breakdown.handler DEEPSEEK_API_KEY ToNumber ToString thrown_message req) w)
  = errorResponse Breakdown.msg_task_not_found 404
  /\ table (snd (run (Breakdown.handler DEEPSEEK_API_KEY ToNumber ToString
                                        thrown_message req) w)) = table w.
Proof.
  intros Hm Hid Hq Hz Hno.
  unfold Breakdown.handler. rewrite Hm. cbn [negb].
  assert (Hbody : nullish (body req) = false).
  { destruct (body req); try reflexivity; discriminate Hid. }
  rewrite Hbody. cbv zeta. rewrite Hid.
  rewrite (truthy_nonzero q z Hq) by lia.
  cbn [Breakdown.numId_of Breakdown.not_positive].
  assert (Hpos : Qle_bool q 0 = false).
  { destruct (Qle_bool q 0) eqn:E; [|reflexivity].
    apply Qle_bool_iff in E. rewrite Hq in E.
    unfold Qle, inject_Z in E; simpl in E. lia. }
  rewrite Hpos. cbn [run].
  destruct (faults w) as [|[e|] rest] eqn:Hf.
  - rewrite answer_no_fault by (rewrite Hf; exact I).
    rewrite (exec_select_by_id _ q z _ Hq), (has_id_filter z _ Hno).
    cbn. now destruct (table w).
  - rewrite (answer_fault _ w e rest Hf). split; reflexivity.
  - rewrite answer_no_fault by (rewrite Hf; exact I).
    rewrite (exec_select_by_id _ q z _ Hq), (has_id_filter z _ Hno).
    cbn. now destruct (table w).
Qed.

End BreakdownFailures.

(** [POST /tasks/breakdown] with a title and the reply [[1, 2, 3]]. *)
Lemma breakdown_of_a_reply_with_a_non_string_is_caught_witness :
  run (breakdown (by_title "Plan")) (desk [] (AiContent (Some numbers_reply)))
  = (errorResponse (js "TypeError") 500, desk [] (AiContent (Some numbers_reply))).
Proof.
  apply (breakdown_of_a_reply_with_a_non_string_is_caught
           (JStr (js "sk-sample")) (fun _ => Normal None) (fun _ => []) (js "TypeError")
           (by_title "Plan") (desk [] (AiContent (Some numbers_reply)))
           (js "Plan") numbers_reply [num 1; num 2; num 3]);
    try reflexivity; try discriminate.
Defined.

(** [POST /tasks/breakdown] with a title, without a key. *)
Lemma breakdown_without_a_key_creates_nothing_witness :
  statusCode (fst (run (breakdown_without_key (by_title "Plan"))
                       (desk [] (AiContent (Some three_steps))))) <> 201
  /\ table (snd (run (breakdown_without_key (by_title "Plan"))
                     (desk [] (AiContent (Some three_steps)))))
     = table (desk [] (AiContent (Some three_steps))).
Proof.
  destruct (breakdown_without_a_key_creates_nothing
              JUndefined (fun _ => Normal None) (fun _ => []) (js "TypeError")
              (by_title "Plan") (desk [] (AiContent (Some three_steps))) eq_refl)
    as [H1 [H2 _]].
  split; assumption.
Defined.

(** [POST /tasks/breakdown] with [{ taskId: 9 }] on the table of two. *)
Lemma breakdown_of_a_missing_task_is_not_found_witness :
  fst (run (breakdown (by_id 9)) (desk [] (AiContent (Some three_steps))))
  = errorResponse Breakdown.msg_task_not_found 404
  /\ table (snd (run (breakdown (by_id 9)) (desk [] (AiContent (Some three_steps)))))
     = table (desk [] (AiContent (Some three_steps))).
Proof.
  apply (breakdown_of_a_missing_task_is_not_found
           (JStr (js "sk-sample")) (fun _ => Normal None) (fun _ => []) (js "TypeError")
           (by_id 9) (desk [] (AiContent (Some three_steps))) (inject_Z 9) 9%Z);
    try reflexivity.
Defined.

(** ** One request after another *)

Lemma run_faults_nil {A : Type} (p : Prog A) :
  forall w, faults w = [] -> faults (snd (run p w)) = [].
Proof.
  induction p as [a|c k IH|prompt k IH]; intros w Hf; cbn [run].
  - exact Hf.
  - rewrite answer_no_fault by now rewrite Hf. apply IH. cbn. now rewrite Hf.
  - now apply IH.
Qed.

Lemma run_get_existing (taskId : Z) (w : World) (t : Task) :
  filter (fun u => (id u =? taskId)%Z) (tasks (table w)) = [t] ->
  faults w = [] ->
  fst (run (handle_get taskId) w)
  = successResponse
      (JObj (row t ++
             [(js "subtasks",
               JArr (map (fun c => JObj (row c))
                         (sort_by (fun a b => str_leb (created_at a) (created_at b))
                                  (filter (fun u => match parent_id u with
                                                    | Some p => (p =? taskId)%Z
                                                    | None => false
                                                    end) (tasks (table w))))))]))
      200.
Proof.
  intros Hrow Hf. unfold handle_get. cbn [run].
  rewrite answer_no_fault by now rewrite Hf.
  rewrite exec_select_by_num, Hrow, project_star.
  cbn [fst snd ok error data run].
  rewrite answer_no_fault by (cbn; now rewrite Hf).
  cbn [table]. rewrite exec_select_children_rows.
  cbn [fst snd ok data truthy spread run table].
  now rewrite subtasks_appended.
Qed.

Lemma run_get_missing (taskId : Z) (w : World) :
  has_id taskId (tasks (table w)) = false ->
  faults w = [] ->
  fst (run (handle_get taskId) w) = errorResponse msg_not_found 404.
Proof.
  intros Hno Hf. unfold handle_get. cbn [run].
  rewrite answer_no_fault by now rewrite Hf.
  now rewrite exec_select_by_num, (has_id_filter taskId _ Hno).
Qed.

Lemma filter_none (f : Task -> bool) (ts : list Task) :
  Forall (fun u => f u = false) ts -> filter f ts = [].
Proof.
  induction 1 as [|u ts Hu _ IH]; [reflexivity|]. simpl. now rewrite Hu.
Qed.

(** X21. A task read after it was created: after a [POST /tasks] with a
    payload the validator accepts and that names no parent, on a table
    whose identifiers come from the sequence and where no row refers to
    an identifier not given yet, the store answering, a
    [GET /tasks/{id}] with the identifier of the created row answers 200
    with the row the POST answered and an empty list of subtasks. *)
Theorem created_task_is_read_back
        (post : TaskIndex.IndexRequest) (fields : list (jsstring * JSValue))
        (read : Request) (w : World) :
  TaskIndex.verb post = js "POST" ->
  TaskIndex.payload_in post = JObj fields ->
  validateCreateRequest (JObj fields) = Normal [] ->
  truthy (get (JObj fields) (js "parent_id")) = false ->
  faults w = [] ->
  serial (table w) ->
  Forall (fun u => parent_id u <> Some (next_id (table w))) (tasks (table w)) ->
  str_eqb (method read) (js "GET") = true ->
  validateId (query_id read) = Some (next_id (table w)) ->
  exists t,
    fst (TaskIndex.run_index (TaskIndex.handler post) w)
    = successResponse (JObj (row t)) 201
    /\ fst (run (handler read) (snd (TaskIndex.run_index (TaskIndex.handler post) w)))
       = successResponse (JObj (row t ++ [(js "subtasks", JArr [])])) 200.
Proof.
  intros Hverb Hbody Hv Hp Hf [Hnext Hids] Hrefs Hm Hid.
  destruct (new_task_insertData fields (tasks (table w)) (next_id (table w))
                                (now (table w)) None Hv Hp)
    as [t [Hnew [Hidt [_ [Hpar _]]]]].
  exists t. rewrite (handler_post post Hverb), Hbody.
  unfold TaskIndex.run_index, TaskIndex.handle_post. rewrite Hv, Hp.
  cbn [List.length Nat.ltb Nat.leb].
  destruct (run_create (JObj fields) w t Hf Hnew) as [H1 H2].
  split; [exact H1|].
  rewrite (handler_get read _ Hm Hid).
  set (w1 := snd (run (TaskIndex.create (JObj fields)) w)) in *.
  assert (Hf1 : faults w1 = []) by (apply run_faults_nil; exact Hf).
  assert (Hrow : filter (fun u => (id u =? next_id (table w))%Z) (tasks (table w1)) = [t]).
  { rewrite H2, filter_app, filter_none.
    - simpl. now rewrite Hidt, Z.eqb_refl.
    - eapply Forall_impl; [|exact Hids]. cbv beta. intros u Hu.
      apply Z.eqb_neq. lia. }
  rewrite (run_get_existing _ w1 t Hrow Hf1).
  rewrite H2, filter_app, filter_none.
  - simpl. rewrite Hpar. reflexivity.
  - eapply Forall_impl; [|exact Hrefs]. cbv beta. intros u Hu.
    destruct (parent_id u) as [p|]; [|reflexivity].
    apply Z.eqb_neq. intros E. apply Hu. now rewrite E.
Qed.

(** [POST /tasks] with [{ title: '  Call Ann ', priority: 'high' }], then
    [GET /tasks/2], on the table that holds task 1. *)
Lemma created_task_is_read_back_witness :
  exists t,
    fst (TaskIndex.run_index (TaskIndex.handler call_ann) kitchen)
    = successResponse (JObj (row t)) 201
    /\ fst (run (handler read_two)
                (snd (TaskIndex.run_index (TaskIndex.handler call_ann) kitchen)))
       = successResponse (JObj (row t ++ [(js "subtasks", JArr [])])) 200.
Proof.
  apply (created_task_is_read_back call_ann
           [(js "title", JStr (js "  Call Ann ")); (js "priority", JStr (js "high"))]
           read_two kitchen); try reflexivity.
  - split; [reflexivity|]. repeat constructor.
  - repeat constructor. discriminate.
Defined.

(** X22. A task read after it was deleted: after a [DELETE /tasks/{id}]
    on a row that is there, the store answering, a [GET /tasks/{id}] with
    the same identifier answers the 404 of the missing task. *)
Theorem deleted_task_is_not_found
        (drop read : Request) (w : World) (taskId : Z) (t : Task) :
  str_eqb (method drop) (js "DELETE") = true ->
  validateId (query_id drop) = Some taskId ->
  filter (fun u => (id u =? taskId)%Z) (tasks (table w)) = [t] ->
  faults w = [] ->
  str_eqb (method read) (js "GET") = true ->
  validateId (query_id read) = Some taskId ->
  statusCode (fst (run (handler drop) w)) = 200
  /\ fst (run (handler read) (snd (run (handler drop) w)))
     = errorResponse msg_not_found 404.
Proof.
  intros Hm Hid Hrow Hf Hm' Hid'.
  rewrite (handler_get read taskId Hm' Hid').
  assert (Hf1 : faults (snd (run (handler drop) w)) = [])
    by (apply run_faults_nil; exact Hf).
  rewrite (handler_delete drop taskId Hm Hid) in *.
  assert (Hrun : statusCode (fst (run (handle_delete taskId) w)) = 200
                 /\ tasks (table (snd (run (handle_delete taskId) w)))
                    = delete_rows (fun u => (id u =? taskId)%Z) (tasks (table w))).
  { unfold handle_delete. cbn [run].
    rewrite answer_no_fault by now rewrite Hf.
    rewrite exec_select_by_num, Hrow, project_id_title.
    cbn [fst snd ok error data is_some truthy negb orb run].
    rewrite answer_no_fault by (cbn; now rewrite Hf).
    cbn [table]. rewrite exec_delete_by_num. split; reflexivity. }
  destruct Hrun as [H1 H2]. split; [exact H1|].
  apply run_get_missing; [|exact Hf1].
  rewrite H2. unfold has_id.
  destruct (existsb _ _) eqn:E; [|reflexivity].
  apply existsb_exists in E as [u [Hu Hidu]].
  destruct (delete_rows_spec _ _ u Hu) as [_ Hno]. cbv beta in Hno. congruence.
Qed.

(** [DELETE /tasks/1], then [GET /tasks/1], on the table that holds task 1. *)
Lemma deleted_task_is_not_found_witness :
  statusCode (fst (run (handler drop_one) kitchen)) = 200
  /\ fst (run (handler read_one) (snd (run (handler drop_one) kitchen)))
     = errorResponse msg_not_found 404.
Proof.
  apply (deleted_task_is_not_found drop_one read_one kitchen 1%Z milk); reflexivity.
Defined.

(** ** Identifiers written in decimal *)

Lemma js_cons (c : ascii) (s : string) :
  N_of_ascii c < 128 -> js (String c s) = N_of_ascii c :: js s.
Proof.
  intros H. unfold js. cbn [list_ascii_of_string map utf16_of_utf8].
  apply N.ltb_lt in H. change 0x80 with 128. now rewrite H.
Qed.

Lemma decimal_digits (d : Decimal.uint) :
  forallb is_digit (js (NilEmpty.string_of_uint d)) = true
  /\ forall a,
      fold_left (fun x c => x * 10 + (c - 48)) (js (NilEmpty.string_of_uint d)) a
      = N.of_nat (Nat.of_uint_acc d (N.to_nat a)).
Proof.
  induction d as [|d [IH1 IH2]|d [IH1 IH2]|d [IH1 IH2]|d [IH1 IH2]|d [IH1 IH2]
                  |d [IH1 IH2]|d [IH1 IH2]|d [IH1 IH2]|d [IH1 IH2]|d [IH1 IH2]];
    cbn [NilEmpty.string_of_uint Nat.of_uint_acc];
    [split; [reflexivity|intros a; cbn; now rewrite N2Nat.id]|..];
    (rewrite js_cons by (vm_compute; reflexivity);
     split; [cbn [forallb]; rewrite IH1; reflexivity|];
     intros a; cbn [fold_left]; rewrite IH2; f_equal; f_equal;
     rewrite Nat.tail_mul_spec;
     match goal with
     | |- context [N_of_ascii ?c - 48] =>
       let k := fresh "k" in
       set (k := N_of_ascii c - 48); vm_compute in k; subst k
     end; lia).
Qed.

Lemma decimal_value (n : nat) :
  forallb is_digit (Breakdown.decimal n) = true
  /\ Json.digits_value (Breakdown.decimal n) = N.of_nat n.
Proof.
  unfold Breakdown.decimal, Json.digits_value.
  pose proof (Unsigned.of_to n) as Hn. unfold Nat.of_uint in Hn.
  destruct (Nat.to_uint n) as [|d|d|d|d|d|d|d|d|d|d] eqn:E;
    cbn [NilZero.string_of_uint];
    try (destruct (decimal_digits (Nat.to_uint n)) as [H1 H2];
         rewrite E in H1, H2; split; [exact H1|];
         rewrite H2; cbn [N.to_nat]; now rewrite Hn).
  cbn in Hn. subst n. split; reflexivity.
Qed.

(** X23. The identifier of the route read back: for every positive
    integer below [2 ^ 53], where a Number holds every integer,
    [validateId] applied to its decimal text (what the page writes in the
    path of its requests) returns that integer. *)
Theorem validateId_reads_a_decimal_identifier (n : nat) :
  (0 < n)%nat ->
  N.of_nat n < 2 ^ 53 ->
  validateId (QString (Breakdown.decimal n)) = Some (Z.of_nat n).
Proof.
  intros Hn Hsafe. destruct (decimal_value n) as [Hd Hv].
  assert (Hp : parseInt (Breakdown.decimal n) = Some (Z.of_nat n)).
  { rewrite <- (app_nil_r (Breakdown.decimal n)).
    rewrite (parseInt_decimal_prefix (Breakdown.decimal n) []); try assumption.
    - rewrite Hv, (to_double_exact _ Hsafe). now rewrite nat_N_Z.
    - rewrite Hv. lia.
    - reflexivity. }
  unfold validateId. rewrite Hp.
  destruct (Breakdown.decimal n) as [|c r] eqn:E.
  - unfold Json.digits_value in Hv. cbn in Hv. lia.
  - destruct (Z.of_nat n <=? 0)%Z eqn:Hle; [|reflexivity].
    apply Z.leb_le in Hle. lia.
Qed.

(** The identifier 42. *)
Lemma validateId_reads_a_decimal_identifier_witness :
  validateId (QString (js "42")) = Some 42%Z.
Proof.
  apply (validateId_reads_a_decimal_identifier 42); [lia|reflexivity].
Defined.

(** ** The value the parser leaves in [subtasks] *)

Lemma parse_elements_array (fuel : nat) :
  forall s acc v r, Json.parse_elements fuel s acc = Some (v, r) -> Breakdown.is_array v = true.
Proof.
  induction fuel as [|fuel IH]; intros s acc v r H; [discriminate H|].
  cbn [Json.parse_elements] in H.
  destruct (Json.parse_value fuel s) as [[v0 r0]|]; [|discriminate H].
  destruct (Json.skip_ws r0) as [|c r1]; [discriminate H|].
  destruct (c =? 44); [now apply IH in H|].
  destruct (c =? 93); [|discriminate H].
  injection H as <- _. reflexivity.
Qed.

Lemma parse_bracketed (r : jsstring) (v : JSValue) :
  Json.parse (91 :: r) = Some v -> Breakdown.is_array v = true.
Proof.
  unfold Json.parse.
  match goal with
  | |- context [Json.parse_value ?f ?s] =>
    replace f with (S (2 * List.length r + 3)) by (cbn [List.length]; lia);
    destruct (Json.parse_value (S (2 * List.length r + 3)) s) as [[v0 rest]|] eqn:E
  end; [|intros H; discriminate H].
  cbn [Json.parse_value] in E.
  change (Json.skip_ws (91 :: r)) with (91 :: r) in E.
  change (91 =? 91) with true in E. cbv iota in E.
  intros H. destruct (Json.skip_ws rest); [|discriminate H]. injection H as <-.
  destruct (Json.skip_ws r) as [|c1 r1]; [discriminate E|].
  destruct (c1 =? 93).
  - injection E as <- _. reflexivity.
  - eapply parse_elements_array. exact E.
Qed.

Lemma match_array_bracket (s m : jsstring) :
  Breakdown.match_array s = Some m -> exists r, m = 91 :: r.
Proof.
  unfold Breakdown.match_array.
  pose proof (drop_while_head (fun c => negb (c =? 91)) s) as Hh.
  destruct (drop_while (fun c => negb (c =? 91)) s) as [|b r]; [discriminate|].
  apply negb_false_iff, N.eqb_eq in Hh. subst b.
  destruct (Breakdown.up_to 93 r) as [x|]; [|discriminate].
  intros H. injection H as <-. now exists x.
Qed.

Lemma replace_all_keeps_bracket (starts : jsstring -> jsstring -> bool)
      (pat : jsstring) (r : jsstring) :
  starts pat (91 :: r) = false ->
  exists x, Breakdown.replace_all starts pat [] (91 :: r) = 91 :: x.
Proof.
  intros H. unfold Breakdown.replace_all. cbn [Breakdown.replace_all_from].
  rewrite H. eexists. reflexivity.
Qed.

Lemma trim_bracketed (r : jsstring) (v : JSValue) :
  Json.parse (trim (91 :: r)) = Some v -> Breakdown.is_array v = true.
Proof.
  unfold trim. cbn [drop_while]. change (is_space 91) with false. cbv iota.
  pose proof (drop_while_end_head (fun c => negb (c =? 91)) is_space (91 :: r) eq_refl)
    as Hh.
  destruct (drop_while_end is_space (91 :: r)) as [|c x]; [discriminate|].
  apply negb_false_iff, N.eqb_eq in Hh. subst c. apply parse_bracketed.
Qed.

Lemma second_attempt_array (reply : jsstring) :
  Breakdown.is_array (Breakdown.second_attempt reply) = true.
Proof.
  unfold Breakdown.second_attempt.
  destruct (Breakdown.match_array reply) as [m|] eqn:E; [|reflexivity].
  destruct (match_array_bracket _ _ E) as [r ->]. cbv zeta.
  destruct (replace_all_keeps_bracket Breakdown.starts_with_ci (js "```json") r eq_refl)
    as [x ->].
  destruct (replace_all_keeps_bracket Json.starts_with Breakdown.fence x eq_refl)
    as [y ->].
  destruct (Json.parse (trim (91 :: y))) as [v|] eqn:Ep; [|reflexivity].
  eapply trim_bracketed. exact Ep.
Qed.

Lemma clean_titles_strings (items : list JSValue) :
  existsb (fun v => negb (is_string v)) items = false ->
  exists ss, Breakdown.clean_titles items = Normal ss.
Proof.
  induction items as [|v items IH]; simpl; [now exists []|].
  intros H. apply orb_false_iff in H as [Hv H]. destruct (IH H) as [ss ->].
  destruct v; try discriminate Hv. simpl. eexists. reflexivity.
Qed.

(** X24. Whatever the reply of the generator, the value the three layers
    of the parser leave in [subtasks] is an array, so the clean-up of the
    titles throws (and the request ends in the 500 of the outer handler)
    exactly when an element of that array is not a string. *)
Theorem parsed_subtasks_are_an_array (reply : jsstring) :
  exists items,
    Breakdown.parse_subtasks reply = JArr items
    /\ (Breakdown.clean_subtasks (JArr items) = Throw
        <-> existsb (fun v => negb (is_string v)) items = true).
Proof.
  assert (Harr : Breakdown.is_array (Breakdown.parse_subtasks reply) = true).
  { unfold Breakdown.parse_subtasks. cbv zeta.
    destruct (Json.parse (Breakdown.clean_response reply)) as [parsed|];
      [|apply second_attempt_array].
    destruct (Breakdown.is_array parsed) eqn:Ea; [exact Ea|].
    destruct (Breakdown.match_array (Breakdown.clean_response reply)) as [m|] eqn:Em;
      [|reflexivity].
    destruct (match_array_bracket _ _ Em) as [r ->].
    destruct (Json.parse (91 :: r)) as [v|] eqn:Ep; [|apply second_attempt_array].
    eapply parse_bracketed. exact Ep. }
  destruct (Breakdown.parse_subtasks reply) as [| | | | |items|]; try discriminate Harr.
  exists items. split; [reflexivity|].
  unfold Breakdown.clean_subtasks. split.
  - intros H. destruct (existsb (fun v => negb (is_string v)) items) eqn:E;
      [reflexivity|].
    destruct (clean_titles_strings items E) as [ss Hs]. rewrite Hs in H. discriminate H.
  - intros H. now rewrite (clean_titles_throws items H).
Qed.

(** ** The page after a request *)






(** ** The tree the page renders *)

Lemma map_get_set (k k' : Z) (n : Page.Node) (m : Page.TaskMap) :
  Page.map_get k (Page.map_set k' n m)
  = if (k =? k')%Z then Some n else Page.map_get k m.
Proof.
  induction m as [|[k0 n0] m IH]; simpl.
  - reflexivity.
  - destruct (k' =? k0)%Z eqn:E0; simpl.
    + apply Z.eqb_eq in E0. subst k0. now destruct (k =? k')%Z.
    + rewrite IH. destruct (k =? k0)%Z eqn:E1; [|reflexivity].
      apply Z.eqb_eq in E1. subst k0.
      destruct (k =? k')%Z eqn:E2; [|reflexivity].
      apply Z.eqb_eq in E2. subst k'. rewrite Z.eqb_refl in E0. discriminate E0.
Qed.

Lemma nodes_get (l : list Task) :
  forall (m : Page.TaskMap) (k : Z),
    (forall n, Page.map_get k m = Some n -> Page.children n = []) ->
    (Page.map_has k (fold_left (fun m task =>
                                  Page.map_set (id task) (Page.mkNode task []) m) l m)
     = has_id k l || Page.map_has k m)
    /\ (forall n, Page.map_get k (fold_left (fun m task =>
                                               Page.map_set (id task) (Page.mkNode task []) m)
                                            l m) = Some n ->
                  Page.children n = []).
Proof.
  induction l as [|t l IH]; intros m k Hm; cbn [fold_left].
  - split; [reflexivity|exact Hm].
  - destruct (IH (Page.map_set (id t) (Page.mkNode t []) m) k) as [H1 H2].
    { intros n. rewrite map_get_set. destruct (k =? id t)%Z; [|apply Hm].
      intros H. now injection H as <-. }
    split; [|exact H2]. rewrite H1. unfold Page.map_has. rewrite map_get_set.
    unfold has_id. cbn [existsb]. rewrite (Z.eqb_sym (id t) k).
    destruct (k =? id t)%Z; [now rewrite orb_true_r|reflexivity].
Qed.

Lemma nodes_of_has (l : list Task) (k : Z) :
  Page.map_has k (Page.nodes_of l) = has_id k l.
Proof.
  unfold Page.nodes_of. destruct (nodes_get l [] k) as [H _]; [discriminate|].
  rewrite H. apply orb_false_r.
Qed.

Lemma nodes_of_children (l : list Task) (k : Z) (n : Page.Node) :
  Page.map_get k (Page.nodes_of l) = Some n -> Page.children n = [].
Proof.
  unfold Page.nodes_of. destruct (nodes_get l [] k) as [_ H]; [discriminate|]. apply H.
Qed.

(** The second loop, from any state whose map has the keys of [m0]. *)
Lemma place_all (m0 : Page.TaskMap) (l : list Task) :
  forall (roots : list Z) (m : Page.TaskMap),
    (forall k, Page.map_has k m = Page.map_has k m0) ->
    fst (fold_left Page.place l (roots, m))
    = roots ++ map id (filter (fun t => negb (Page.nested t m0)) l)
    /\ forall k,
        Page.map_get k (snd (fold_left Page.place l (roots, m)))
        = match Page.map_get k m with
          | Some n =>
            Some (Page.mkNode
                    (Page.task_of n)
                    (Page.children n
                     ++ map id (filter (fun t => Page.nested t m0 && Page.is_child_of t k) l)))
          | None => None
          end.
Proof.
  induction l as [|t l IH]; intros roots m Hkeys; cbn [fold_left].
  - split; [now rewrite app_nil_r|]. intros k. cbn [filter map snd].
    destruct (Page.map_get k m) as [[tk ck]|]; [|reflexivity].
    cbn. now rewrite app_nil_r.
  - assert (Hnested : Page.nested t m = Page.nested t m0).
    { unfold Page.nested. destruct (parent_id t); [|reflexivity]. now rewrite Hkeys. }
    destruct (Page.nested t m0) eqn:En.
    + pose proof En as En0. unfold Page.nested in En0.
      destruct (parent_id t) as [p|] eqn:Hp; [|discriminate En0].
      apply andb_true_iff in En0 as [_ Hhas].
      rewrite <- Hkeys in Hhas. unfold Page.map_has in Hhas.
      destruct (Page.map_get p m) as [np|] eqn:Hget; [|discriminate Hhas].
      assert (Hplace : Page.place (roots, m) t = (roots, Page.push_child p (id t) m)).
      { unfold Page.place. now rewrite Hnested, Hp. }
      rewrite Hplace.
      assert (Hpush : forall k, Page.map_get k (Page.push_child p (id t) m)
                                = if (k =? p)%Z
                                  then Some (Page.mkNode (Page.task_of np)
                                                         (Page.children np ++ [id t]))
                                  else Page.map_get k m).
      { intros k. unfold Page.push_child. rewrite Hget. apply map_get_set. }
      destruct (IH roots (Page.push_child p (id t) m)) as [H1 H2].
      { intros k. rewrite <- Hkeys. unfold Page.map_has. rewrite Hpush.
        destruct (k =? p)%Z eqn:E; [|reflexivity].
        apply Z.eqb_eq in E. subst k. now rewrite Hget. }
      split.
      * rewrite H1. cbn [filter]. now rewrite En.
      * intros k. rewrite H2, Hpush. cbn [filter]. rewrite En. cbn [andb].
        unfold Page.is_child_of at 2. rewrite Hp, (Z.eqb_sym p k).
        destruct (k =? p)%Z eqn:E; [|reflexivity].
        apply Z.eqb_eq in E. subst k. rewrite Hget.
        cbn [Page.task_of Page.children map]. now rewrite <- app_assoc.
    + assert (Hplace : Page.place (roots, m) t = (roots ++ [id t], m)).
      { unfold Page.place. now rewrite Hnested. }
      rewrite Hplace.
      destruct (IH (roots ++ [id t]) m Hkeys) as [H1 H2].
      split.
      * rewrite H1. cbn [filter]. rewrite En. cbn [negb map]. now rewrite <- app_assoc.
      * intros k. rewrite H2. cbn [filter]. now rewrite En.
Qed.

Lemma organizeTasks_shape (taskList : list Task) :
  fst (Page.organizeTasks taskList)
  = map id (filter (fun t => negb (Page.nested t (Page.nodes_of taskList))) taskList)
  /\ (forall k, Page.map_has k (Page.nodes_of taskList) = has_id k taskList)
  /\ (forall k,
        has_id k taskList = true ->
        exists n,
          Page.map_get k (snd (Page.organizeTasks taskList)) = Some n
          /\ Page.children n
             = map id (filter (fun t => Page.nested t (Page.nodes_of taskList)
                                        && Page.is_child_of t k) taskList)).
Proof.
  unfold Page.organizeTasks.
  destruct (place_all (Page.nodes_of taskList) taskList [] (Page.nodes_of taskList))
    as [H1 H2]; [reflexivity|].
  split; [exact H1|]. split; [intros k; apply nodes_of_has|].
  intros k Hk. rewrite <- nodes_of_has in Hk. unfold Page.map_has in Hk.
  specialize (H2 k).
  destruct (Page.map_get k (Page.nodes_of taskList)) as [n0|] eqn:E; [|discriminate Hk].
  eexists. split; [exact H2|].
  cbn [Page.children]. now rewrite (nodes_of_children taskList k n0 E).
Qed.


(** X28. Tasks whose parents lead back to themselves are not rendered:
    for a set of identifiers such that every task of the list with an
    identifier of the set has a parent (not 0) that is in the list and in
    the set, [renderTask] reaches no node of the set from the roots of
    [organizeTasks]. *)
Theorem closed_loop_is_not_rendered (taskList : list Task) (loop : Z -> Prop) :
  (forall t, In t taskList -> loop (id t) ->
             exists p, parent_id t = Some p /\ p <> 0%Z
                       /\ has_id p taskList = true /\ loop p) ->
  forall k, Page.Rendered (Page.organizeTasks taskList) k -> ~ loop k.
Proof.
  intros Hloop k Hk.
  destruct (organizeTasks_shape taskList) as [Hroots [Hhas Hchildren]].
  assert (Hnested : forall t, In t taskList -> loop (id t) ->
                              Page.nested t (Page.nodes_of taskList) = true).
  { intros t Ht Hl. destruct (Hloop t Ht Hl) as [p [Hp [Hz [Hin _]]]].
    unfold Page.nested. rewrite Hp, Hhas, Hin.
    apply Z.eqb_neq in Hz. now rewrite Hz. }
  induction Hk as [k Hroot|k parent n Hparent IH Hget Hin]; intros Hl.
  - rewrite Hroots in Hroot. apply in_map_iff in Hroot as [t [<- Ht]].
    apply filter_In in Ht as [Ht Hn]. rewrite (Hnested t Ht Hl) in Hn. discriminate Hn.
  - assert (Hp : has_id parent taskList = true).
    { rewrite <- Hhas. unfold Page.map_has.
      destruct (place_all (Page.nodes_of taskList) taskList [] (Page.nodes_of taskList))
        as [_ H2]; [reflexivity|].
      unfold Page.organizeTasks in Hget. rewrite H2 in Hget.
      destruct (Page.map_get parent (Page.nodes_of taskList)); [reflexivity|discriminate]. }
    destruct (Hchildren parent Hp) as [n' [Hget' Hc]].
    rewrite Hget in Hget'. injection Hget' as <-.
    rewrite Hc in Hin. apply in_map_iff in Hin as [t [<- Ht]].
    apply filter_In in Ht as [Ht Hn]. apply andb_true_iff in Hn as [_ Hchild].
    destruct (Hloop t Ht Hl) as [p [Hpar [_ [_ Hlp]]]].
    unfold Page.is_child_of in Hchild. rewrite Hpar in Hchild.
    apply Z.eqb_eq in Hchild. subst p. exact (IH Hlp).
Qed.

(** Two tasks that are the parent of each other: none is rendered, the
    page has no root. *)
Lemma closed_loop_is_not_rendered_witness :
  fst (Page.organizeTasks [ping; pong]) = []
  /\ ~ Page.Rendered (Page.organizeTasks [ping; pong]) 1
  /\ ~ Page.Rendered (Page.organizeTasks [ping; pong]) 2.
Proof.
  assert (H : forall k, Page.Rendered (Page.organizeTasks [ping; pong]) k ->
                        ~ (k = 1 \/ k = 2)%Z).
  { apply (closed_loop_is_not_rendered [ping; pong] (fun k => k = 1 \/ k = 2)%Z).
    intros t [<-|[<-|[]]] _.
    - exists 2%Z. repeat split; try discriminate. now right.
    - exists 1%Z. repeat split; try discriminate. now left. }
  split; [reflexivity|]. split; intros Hr; apply (H _ Hr); [now left|now right].
Defined.

(** ** A task added from the page *)

Lemma strlen_zero (s : jsstring) : (strlen s =? 0) = true <-> s = [].
Proof.
  unfold strlen. destruct s; simpl; split; try reflexivity; try discriminate.
Qed.

(** X29. A task added from the page: [addTask] sends no request for a
    blank text; for another text of at most 200 characters once trimmed,
    the store answering, [POST /tasks] answers 201 and appends one row to
    the table, whose title is the trimmed text, which is pending, of
    medium priority, without description and without parent; for a longer
    text the handler answers the 400 of the title length without a call
    to the store. *)
Theorem page_add_creates_the_trimmed_title
        (post : TaskIndex.IndexRequest) (newTask : jsstring) (w : World) :
  TaskIndex.verb post = js "POST" ->
  Page.add_body newTask = Some (TaskIndex.payload_in post) ->
  faults w = [] ->
  trim newTask <> []
  /\ (strlen (trim newTask) <= 200 ->
      exists t,
        fst (TaskIndex.run_index (TaskIndex.handler post) w)
        = successResponse (JObj (row t)) 201
        /\ tasks (table (snd (TaskIndex.run_index (TaskIndex.handler post) w)))
           = tasks (table w) ++ [t]
        /\ title t = trim newTask /\ description t = None
        /\ status t = pending /\ priority t = medium /\ parent_id t = None)
  /\ (200 < strlen (trim newTask) ->
      TaskIndex.handler post
      = TaskIndex.Other (Ret (errorResponse msg_title_long 400))).
Proof.
  intros Hverb Hbody Hf. unfold Page.add_body in Hbody.
  destruct (truthy (JStr (trim newTask))) eqn:Ht; [|discriminate Hbody].
  injection Hbody as Hbody.
  assert (Hne : trim newTask <> []).
  { intros E. rewrite E in Ht. discriminate Ht. }
  split; [exact Hne|].
  rewrite (handler_post post Hverb), <- Hbody.
  set (fields := [(js "title", JStr (trim newTask)); (js "status", JStr (js "pending"))]).
  assert (Hlen0 : (strlen (trim (trim newTask)) =? 0) = false).
  { rewrite trim_idempotent. destruct (strlen (trim newTask) =? 0) eqn:E; [|reflexivity].
    apply strlen_zero in E. contradiction. }
  assert (Hv : validateCreateRequest (JObj fields)
               = Normal (if 200 <? strlen (trim newTask) then [msg_title_long] else [])).
  { rewrite validateCreateRequest_object.
    change (get (JObj fields) (js "title")) with (JStr (trim newTask)).
    change (get (JObj fields) (js "description")) with JUndefined.
    change (get (JObj fields) (js "status")) with (JStr (js "pending")).
    change (get (JObj fields) (js "priority")) with JUndefined.
    change (get (JObj fields) (js "parent_id")) with JUndefined.
    unfold create_title_errors. rewrite Ht.
    cbn [is_string typeof negb orb trimmed length_of]. rewrite Hlen0.
    destruct (200 <? strlen (trim newTask)); reflexivity. }
  split.
  - intros Hle. apply N.ltb_ge in Hle. rewrite Hle in Hv.
    destruct (new_task_insertData fields (tasks (table w)) (next_id (table w))
                                  (now (table w)) None Hv eq_refl)
      as [t [Hnew [_ [H2 [H3 [_ [H5 [_ [H7 [H8 _]]]]]]]]]].
    exists t.
    unfold TaskIndex.run_index, TaskIndex.handle_post. rewrite Hv.
    change (truthy (get (JObj fields) (js "parent_id"))) with false.
    cbn [List.length Nat.ltb Nat.leb].
    destruct (run_create (JObj fields) w t Hf Hnew) as [R1 R2].
    split; [exact R1|]. split; [exact R2|].
    split; [rewrite H2; apply trim_idempotent|].
    split; [now destruct (description t)|].
    split; [exact (H7 pending eq_refl)|]. split; [exact (H8 eq_refl)|exact H3].
  - intros Hgt. apply N.ltb_lt in Hgt. rewrite Hgt in Hv.
    unfold TaskIndex.handle_post. rewrite Hv. reflexivity.
Qed.

(** [addTask] with the text [  Water plants ] on the table that holds task 1. *)
Lemma page_add_creates_the_trimmed_title_witness :
  exists t,
    fst (TaskIndex.run_index (TaskIndex.handler add_plants) kitchen)
    = successResponse (JObj (row t)) 201
    /\ title t = js "Water plants" /\ status t = pending.
Proof.
  destruct (page_add_creates_the_trimmed_title add_plants (js "  Water plants ") kitchen)
    as [_ [H _]]; try reflexivity.
  destruct H as [t [H1 [_ [H3 [_ [H5 _]]]]]]; [vm_compute; discriminate|].
  exists t. split; [exact H1|]. split; assumption.
Defined.

(** ** A breakdown that succeeds *)

Lemma new_tasks_children all (stamp d : jsstring) (q : Q) (z : Z) (titles : list jsstring) :
  q == inject_Z z -> has_id z all = true ->
  forall fresh,
  exists ts,
    new_tasks all fresh stamp
      (map (fun subtask =>
              JObj [ (js "title", JStr (trim subtask)); (js "description", JStr d);
                     (js "status", JStr (js "pending"));
                     (js "priority", JStr (js "medium"));
                     (js "parent_id", JNum q) ]) titles) = Some ts
    /\ map title ts = map trim titles
    /\ Forall (fun a => parent_id a = Some z /\ status a = pending
                        /\ priority a = medium /\ description a = Some d) ts.
Proof.
  intros Hq Hin. induction titles as [|x titles IH]; intros fresh.
  - exists []. repeat split; constructor.
  - destruct (IH (fresh + 1)%Z) as [ts [Hts [Ht Hall]]].
    exists (mkTask fresh (trim x) (Some d) pending medium (Some z) stamp :: ts).
    cbn [map new_tasks]. rewrite Hts.
    assert (Hnew : new_task all fresh stamp
                     (JObj [ (js "title", JStr (trim x)); (js "description", JStr d);
                             (js "status", JStr (js "pending"));
                             (js "priority", JStr (js "medium"));
                             (js "parent_id", JNum q) ])
                   = Some (mkTask fresh (trim x) (Some d) pending medium (Some z) stamp)).
    { transitivity (match assign_column all (js "parent_id") (JNum q)
                            (mkTask fresh (trim x) (Some d) pending medium None stamp) with
                    | Some t' => Some t'
                    | None => None
                    end); [reflexivity|].
      now rewrite (assign_parent all q z _ Hq Hin). }
    rewrite Hnew. split; [reflexivity|]. split.
    + cbn [map title]. now rewrite Ht.
    + constructor; [repeat split|exact Hall].
Qed.

Section BreakdownSuccess.

Variable DEEPSEEK_API_KEY : JSValue.
Variable ToNumber : JSValue -> Completion (option Q).
Variable ToString : JSValue -> jsstring.
Variable thrown_message : jsstring.


End BreakdownSuccess.


(** ** The number of subtasks a breakdown creates *)

Lemma new_tasks_titles all (stamp : jsstring) (fid : JSValue) (ttl : jsstring)
      (titles : list jsstring) :
  forall (fresh : Z) (ts : list Task),
    new_tasks all fresh stamp (map (subtask_row fid ttl) titles) = Some ts ->
    map title ts = map trim titles.
Proof.
  induction titles as [|x titles IH]; intros fresh ts H; cbn [map new_tasks] in H.
  - injection H as <-. reflexivity.
  - destruct (new_task all fresh stamp (subtask_row fid ttl x)) as [t|] eqn:Et;
      [|discriminate H].
    destruct (new_tasks all (fresh + 1)%Z stamp (map (subtask_row fid ttl) titles))
      as [rest|] eqn:Er; [|discriminate H].
    injection H as <-.
    destruct (new_task_subtask _ _ _ _ _ _ _ Et) as [H1 _].
    cbn [map]. rewrite H1. f_equal. eapply IH. exact Er.
Qed.

(** The rows the store creates for titles without a parent. *)
Lemma new_tasks_top_level all (stamp ttl : jsstring) (titles : list jsstring) :
  forall fresh,
  exists ts,
    new_tasks all fresh stamp (map (subtask_row JNull ttl) titles) = Some ts
    /\ map title ts = map trim titles
    /\ Forall (fun a => parent_id a = None /\ status a = pending
                        /\ priority a = medium
                        /\ description a = Some (Breakdown.description_for ttl)) ts.
Proof.
  induction titles as [|x titles IH]; intros fresh.
  - exists []. repeat split; constructor.
  - destruct (IH (fresh + 1)%Z) as [ts [Hts [Ht Hall]]].
    exists (mkTask fresh (trim x) (Some (Breakdown.description_for ttl)) pending medium
                   None stamp :: ts).
    cbn [map new_tasks]. rewrite Hts.
    assert (Hnew : new_task all fresh stamp (subtask_row JNull ttl x)
                   = Some (mkTask fresh (trim x) (Some (Breakdown.description_for ttl))
                                  pending medium None stamp)) by reflexivity.
    rewrite Hnew. split; [reflexivity|]. split.
    + cbn [map title]. now rewrite Ht.
    + constructor; [repeat split|exact Hall].
Qed.

(** The rows the store creates for titles under the task [z]. *)
Lemma new_tasks_under all (stamp ttl : jsstring) (q : Q) (z : Z)
      (titles : list jsstring) :
  q == inject_Z z -> has_id z all = true ->
  forall fresh,
  exists ts,
    new_tasks all fresh stamp (map (subtask_row (JNum q) ttl) titles) = Some ts
    /\ map title ts = map trim titles
    /\ Forall (fun a => parent_id a = Some z /\ status a = pending
                        /\ priority a = medium
                        /\ description a = Some (Breakdown.description_for ttl)) ts.
Proof.
  intros Hq Hin fresh.
  exact (new_tasks_children all stamp (Breakdown.description_for ttl) q z titles
                            Hq Hin fresh).
Qed.

Lemma cleaned_titles_fixed (titles : list jsstring) (n : nat) :
  Forall (fun s => trim s = s /\ s <> []) titles ->
  map trim (firstn n titles) = firstn n titles.
Proof.
  intros Htrim. rewrite <- (map_id (firstn n titles)) at 2. apply map_ext_in.
  intros x Hx. apply In_firstn in Hx.
  exact (proj1 (proj1 (Forall_forall _ _) Htrim x Hx)).
Qed.

(** Fewer than three titles: the count check answers, nothing is sent. *)
Lemma persist_few (fid : JSValue) (ttl : jsstring) (titles : list jsstring) :
  (List.length titles < 3)%nat ->
  Breakdown.persist fid ttl titles = Ret (count_refusal (List.length titles)).
Proof.
  intros Hlt. unfold Breakdown.persist, count_refusal.
  destruct (Nat.eqb (List.length titles) 0); [reflexivity|].
  apply Nat.ltb_lt in Hlt. now rewrite Hlt.
Qed.

(** Three titles or more: one bulk insert of the rows for the first five. *)
Lemma persist_enough (fid : JSValue) (ttl : jsstring) (titles : list jsstring) :
  (3 <= List.length titles)%nat ->
  Breakdown.persist fid ttl titles
  = Call (Insert (map (subtask_row fid ttl) (firstn 5 titles))) (fun r =>
      match error r with
      | Some insertError =>
        Ret (errorResponse
               (if Breakdown.non_empty (message insertError) then message insertError
                else Breakdown.msg_insert_failed) 500)
      | None =>
        Ret (successResponse (if truthy (data r) then data r else JArr []) 201)
      end).
Proof.
  intros Hle. unfold Breakdown.persist.
  destruct (List.length titles) as [|[|[|n]]] eqn:El; try lia.
  reflexivity.
Qed.

(** The run of the bulk insert when the store creates the rows. *)
Lemma run_persist_enough (fid : JSValue) (ttl : jsstring) (titles : list jsstring)
      (w : World) (added : list Task) :
  (3 <= List.length titles)%nat ->
  match faults w with [] | None :: _ => True | Some _ :: _ => False end ->
  new_tasks (tasks (table w)) (next_id (table w)) (now (table w))
            (map (subtask_row fid ttl) (firstn 5 titles)) = Some added ->
  run (Breakdown.persist fid ttl titles) w
  = (successResponse (JArr (map (fun a => JObj (row a)) added)) 201,
     mkWorld (mkTable (tasks (table w) ++ added)
                      (next_id (table w) + Z.of_nat (List.length added))%Z
                      (now (table w)))
             (tl (faults w)) (generator w)
             (journal w ++ [Insert (map (subtask_row fid ttl) (firstn 5 titles))])).
Proof.
  intros Hle Hf Hnew. rewrite (persist_enough _ _ _ Hle). cbn [run].
  rewrite (answer_no_fault _ _ Hf). cbn [exec]. rewrite Hnew. reflexivity.
Qed.

(** A 201 of the bulk insert: the store created the rows. *)
Lemma run_persist_created (fid : JSValue) (ttl : jsstring) (titles : list jsstring)
      (w : World) :
  statusCode (fst (run (Breakdown.persist fid ttl titles) w)) = 201 ->
  (3 <= List.length titles)%nat
  /\ match faults w with [] | None :: _ => True | Some _ :: _ => False end
  /\ exists added,
      new_tasks (tasks (table w)) (next_id (table w)) (now (table w))
                (map (subtask_row fid ttl) (firstn 5 titles)) = Some added.
Proof.
  destruct (Nat.ltb (List.length titles) 3) eqn:Hlt.
  - apply Nat.ltb_lt in Hlt. rewrite (persist_few _ _ _ Hlt).
    unfold count_refusal. cbn. discriminate.
  - apply Nat.ltb_ge in Hlt. rewrite (persist_enough _ _ _ Hlt). cbn [run].
    intros H. split; [exact Hlt|].
    destruct (faults w) as [|[e|] rest] eqn:Hf.
    + split; [exact I|].
      rewrite answer_no_fault in H by (rewrite Hf; exact I). cbn [exec] in H.
      destruct (new_tasks _ _ _ _) as [added|]; [now exists added|].
      cbn in H. discriminate H.
    + rewrite (answer_fault _ w e rest Hf) in H. cbn in H. discriminate H.
    + split; [exact I|].
      rewrite answer_no_fault in H by (rewrite Hf; exact I). cbn [exec] in H.
      destruct (new_tasks _ _ _ _) as [added|]; [now exists added|].
      cbn in H. discriminate H.
Qed.

Section BreakdownCount.

Variable DEEPSEEK_API_KEY : JSValue.
Variable ToNumber : JSValue -> Completion (option Q).
Variable ToString : JSValue -> jsstring.
Variable thrown_message : jsstring.

(** With a key and a reply the clean-up leaves titles of, the handler goes
    on to the count check with these titles. *)
Lemma run_generate_titles (fid : JSValue) (ttl reply : jsstring)
      (titles : list jsstring) (w : World) :
  truthy DEEPSEEK_API_KEY = true ->
  generator w = AiContent (Some reply) ->
  reply <> [] ->
  Breakdown.clean_subtasks (Breakdown.parse_subtasks reply) = Normal titles ->
  run (Breakdown.generate DEEPSEEK_API_KEY thrown_message fid ttl) w
  = run (Breakdown.persist fid ttl titles) w.
Proof.
  intros Hkey Hgen Hreply Hclean. unfold Breakdown.generate.
  rewrite Hkey. cbn [negb run]. rewrite Hgen.
  destruct reply as [|c r]; [now elim Hreply|]. now rewrite Hclean.
Qed.

(** A 201 behind the subject: there was a reply, and the clean-up left
    three titles of it at least. *)
Lemma run_generate_created (fid : JSValue) (ttl : jsstring) (w : World) :
  statusCode (fst (run (Breakdown.generate DEEPSEEK_API_KEY thrown_message fid ttl) w)) = 201 ->
  exists reply titles,
    truthy DEEPSEEK_API_KEY = true
    /\ generator w = AiContent (Some reply)
    /\ reply <> []
    /\ Breakdown.clean_subtasks (Breakdown.parse_subtasks reply) = Normal titles
    /\ statusCode (fst (run (Breakdown.persist fid ttl titles) w)) = 201.
Proof.
  unfold Breakdown.generate.
  destruct (truthy DEEPSEEK_API_KEY); cbn [negb]; [|cbn; discriminate].
  cbn [run].
  destruct (generator w) as [m|[[|c s]|]]; try (cbn; discriminate).
  destruct (Breakdown.clean_subtasks (Breakdown.parse_subtasks (c :: s)))
    as [titles|] eqn:E; [|cbn; discriminate].
  intros H. exists (c :: s), titles.
  repeat split; try assumption. discriminate.
Qed.

(** A request with a title and no identifier goes on with the title. *)
Lemma handler_by_title (req : Request) (s : jsstring) :
  str_eqb (method req) (js "POST") = true ->
  truthy (get (body req) (js "taskId")) = false ->
  get (body req) (js "taskTitle") = JStr s ->
  trim s <> [] ->
  Breakdown.handler DEEPSEEK_API_KEY ToNumber ToString thrown_message req
  = Breakdown.generate DEEPSEEK_API_KEY thrown_message JNull (trim s).
Proof.
  intros Hm Hid Htitle Hs. unfold Breakdown.handler. rewrite Hm. cbn [negb].
  assert (Hbody : nullish (body req) = false).
  { destruct (body req); try reflexivity; discriminate Htitle. }
  rewrite Hbody. cbv zeta. rewrite Hid, Htitle.
  assert (Htruthy : truthy (JStr s) = true).
  { destruct s as [|c r]; [now elim Hs|reflexivity]. }
  rewrite Htruthy.
  destruct (trim s) as [|c r]; [now elim Hs|reflexivity].
Qed.

(** A request with the identifier of a row that is there goes on with the
    title of the row, after one read of the store. *)
Lemma run_handler_by_id (req : Request) (w : World) (q : Q) (z : Z) (t : Task) :
  str_eqb (method req) (js "POST") = true ->
  get (body req) (js "taskId") = JNum q ->
  q == inject_Z z -> (0 < z)%Z ->
  filter (fun u => (id u =? z)%Z) (tasks (table w)) = [t] ->
  faults w = [] ->
  run (Breakdown.handler DEEPSEEK_API_KEY ToNumber ToString thrown_message req) w
  = run (Breakdown.generate DEEPSEEK_API_KEY thrown_message (JNum q) (title t))
        (mkWorld (table w) [] (generator w)
                 (journal w ++ [SelectSingle (js "*") (js "id") (JNum q)])).
Proof.
  intros Hm Hid Hq Hz Hrow Hf.
  unfold Breakdown.handler. rewrite Hm. cbn [negb].
  assert (Hbody : nullish (body req) = false).
  { destruct (body req); try reflexivity; discriminate Hid. }
  rewrite Hbody. cbv zeta. rewrite Hid.
  rewrite (truthy_nonzero q z Hq) by lia.
  cbn [Breakdown.numId_of Breakdown.not_positive].
  assert (Hpos : Qle_bool q 0 = false).
  { destruct (Qle_bool q 0) eqn:E; [|reflexivity].
    apply Qle_bool_iff in E. rewrite Hq in E.
    unfold Qle, inject_Z in E; simpl in E. lia. }
  rewrite Hpos. cbn [run].
  rewrite answer_no_fault by now rewrite Hf.
  rewrite (exec_select_by_id _ q z _ Hq), Hrow, project_star, Hf.
  cbn [fst snd ok error data is_some truthy negb orb tl].
  change (get (JObj (row t)) (js "title")) with (JStr (title t)).
  reflexivity.
Qed.

(** C1. [POST /tasks/breakdown], the returned array of a 201.  First, for
    every request, every table, every sequence of store failures and every
    reply of the generator: an answer 201 means the generator replied, the
    parser and the clean-up, whichever layer read the reply, left three
    titles or more, and the answer carries the rows created, which are the
    rows the table has more than before, three to five of them, one for
    each of the first five titles in their order; and the last call to the
    store was the bulk insert of the rows for these first five titles.
    Second, fewer than three titles: a request with a title, or with the
    identifier of a row that is there, is answered 400 by the count check,
    with its message, and no insert is sent: the table is the one before,
    and the journal of the store calls has nothing or the one read of the
    task.  Third, three titles or more, the store answering: the same
    requests are answered 201 with the rows of the first five titles and
    no more, so that more than five titles leave five rows; the journal
    has the one bulk insert of the rows for these titles. *)
Theorem C1_breakdown_creates_three_to_five :
  (forall (req : Request) (w : World),
      let out :=
        run (Breakdown.handler DEEPSEEK_API_KEY ToNumber ToString thrown_message req) w in
      statusCode (fst out) = 201 ->
      exists (reply : jsstring) (titles : list jsstring) (added : list Task),
        generator w = AiContent (Some reply)
        /\ Breakdown.clean_subtasks (Breakdown.parse_subtasks reply) = Normal titles
        /\ (3 <= List.length titles)%nat
        /\ fst out
           = successResponse (JArr (map (fun a => JObj (row a)) added)) 201
        /\ tasks (table (snd out))
           = tasks (table w) ++ added
        /\ map title added = firstn 5 titles
        /\ (3 <= List.length added <= 5)%nat
        /\ exists (finalTaskId : JSValue) (finalTaskTitle : jsstring)
                  (before : list StoreCall),
            journal (snd out)
            = before ++ [Insert (map (subtask_row finalTaskId finalTaskTitle)
                                     (firstn 5 titles))])
  /\ (forall (req : Request) (w : World) (s reply : jsstring)
             (titles : list jsstring),
         let out :=
           run (Breakdown.handler DEEPSEEK_API_KEY ToNumber ToString thrown_message req) w in
         str_eqb (method req) (js "POST") = true ->
         truthy (get (body req) (js "taskId")) = false ->
         get (body req) (js "taskTitle") = JStr s ->
         trim s <> [] ->
         truthy DEEPSEEK_API_KEY = true ->
         generator w = AiContent (Some reply) ->
         reply <> [] ->
         Breakdown.clean_subtasks (Breakdown.parse_subtasks reply) = Normal titles ->
         ((List.length titles < 3)%nat ->
          out = (count_refusal (List.length titles), w))
         /\ ((3 <= List.length titles)%nat ->
             faults w = [] ->
             exists added,
               fst out
               = successResponse (JArr (map (fun a => JObj (row a)) added)) 201
               /\ tasks (table (snd out))
                  = tasks (table w) ++ added
               /\ map title added = firstn 5 titles
               /\ List.length added = Nat.min 5 (List.length titles)
               /\ Forall (fun a => parent_id a = None /\ status a = pending
                                   /\ priority a = medium
                                   /\ description a
                                      = Some (Breakdown.description_for (trim s)))
                         added
               /\ journal (snd out)
                  = journal w
                    ++ [Insert (map (subtask_row JNull (trim s)) (firstn 5 titles))]))
  /\ (forall (req : Request) (w : World) (q : Q) (z : Z) (t : Task)
             (reply : jsstring) (titles : list jsstring),
         let out :=
           run (Breakdown.handler DEEPSEEK_API_KEY ToNumber ToString thrown_message req) w in
         str_eqb (method req) (js "POST") = true ->
         get (body req) (js "taskId") = JNum q ->
         q == inject_Z z -> (0 < z)%Z ->
         filter (fun u => (id u =? z)%Z) (tasks (table w)) = [t] ->
         faults w = [] ->
         truthy DEEPSEEK_API_KEY = true ->
         generator w = AiContent (Some reply) ->
         reply <> [] ->
         Breakdown.clean_subtasks (Breakdown.parse_subtasks reply) = Normal titles ->
         ((List.length titles < 3)%nat ->
          fst out = count_refusal (List.length titles)
          /\ table (snd out) = table w
          /\ journal (snd out)
             = journal w ++ [SelectSingle (js "*") (js "id") (JNum q)])
         /\ ((3 <= List.length titles)%nat ->
             exists added,
               fst out
               = successResponse (JArr (map (fun a => JObj (row a)) added)) 201
               /\ tasks (table (snd out))
                  = tasks (table w) ++ added
               /\ map title added = firstn 5 titles
               /\ List.length added = Nat.min 5 (List.length titles)
               /\ Forall (fun a => parent_id a = Some z /\ status a = pending
                                   /\ priority a = medium
                                   /\ description a
                                      = Some (Breakdown.description_for (title t)))
                         added
               /\ journal (snd out)
                  = journal w
                    ++ [SelectSingle (js "*") (js "id") (JNum q);
                        Insert (map (subtask_row (JNum q) (title t))
                                    (firstn 5 titles))])).
Proof.
  assert (Hcreated : forall (fid : JSValue) (ttl : jsstring) (w w1 : World),
             let out :=
               run (Breakdown.generate DEEPSEEK_API_KEY thrown_message fid ttl) w1 in
             table w1 = table w -> generator w1 = generator w ->
             statusCode (fst out) = 201 ->
             exists (reply : jsstring) (titles : list jsstring) (added : list Task),
               generator w = AiContent (Some reply)
               /\ Breakdown.clean_subtasks (Breakdown.parse_subtasks reply)
                  = Normal titles
               /\ (3 <= List.length titles)%nat
               /\ fst out
                  = successResponse (JArr (map (fun a => JObj (row a)) added)) 201
               /\ tasks (table (snd out))
                  = tasks (table w) ++ added
               /\ map title added = firstn 5 titles
               /\ (3 <= List.length added <= 5)%nat
               /\ exists (finalTaskId : JSValue) (finalTaskTitle : jsstring)
                         (before : list StoreCall),
                   journal (snd out)
                   = before ++ [Insert (map (subtask_row finalTaskId finalTaskTitle)
                                            (firstn 5 titles))]).
  { intros fid ttl w w1 out Htable Hgen H. subst out.
    destruct (run_generate_created fid ttl w1 H)
      as [reply [titles [Hkey [Hreply [Hne [Hclean Hp]]]]]].
    destruct (run_persist_created fid ttl titles w1 Hp) as [Hle [Hf [added Hnew]]].
    pose proof (clean_subtasks_trimmed _ _ Hclean) as Htrim.
    exists reply, titles, added.
    rewrite (run_generate_titles fid ttl reply titles w1 Hkey Hreply Hne Hclean).
    rewrite (run_persist_enough fid ttl titles w1 added Hle Hf Hnew).
    cbn [fst snd table tasks journal].
    pose proof (new_tasks_titles _ _ _ _ _ _ _ Hnew) as Ht.
    rewrite (cleaned_titles_fixed _ 5 Htrim) in Ht.
    assert (Hlen : List.length added = List.length (firstn 5 titles))
      by (rewrite <- Ht; now rewrite length_map).
    rewrite length_firstn in Hlen.
    rewrite <- Hgen, Htable.
    repeat split; try assumption; try lia.
    exists fid, ttl, (journal w1). reflexivity. }
  split; [|split].
  - intros req w out. subst out. unfold Breakdown.handler.
    destruct (negb (str_eqb (method req) (js "POST"))); [cbn; discriminate|].
    destruct (nullish (body req)); [cbn; discriminate|].
    destruct (truthy (get (body req) (js "taskId"))).
    + destruct (Breakdown.numId_of (get (body req) (js "taskId"))) as [numId|];
        [|cbn; discriminate].
      destruct (Breakdown.not_positive ToNumber numId) as [[|]|];
        try (cbn; discriminate).
      cbn [run].
      pose proof (answer_read_only (SelectSingle (js "*") (js "id") numId) w eq_refl)
        as Hread.
      assert (Hgen : generator (snd (answer (SelectSingle (js "*") (js "id") numId) w))
                     = generator w).
      { unfold answer. destruct (faults w) as [|[e|] rest];
          try destruct (exec _ (table w)); reflexivity. }
      destruct (answer (SelectSingle (js "*") (js "id") numId) w) as [r w1].
      cbn [snd] in Hread, Hgen.
      destruct (is_some (error r) || negb (truthy (data r)));
        [cbn; discriminate|].
      apply Hcreated; assumption.
    + destruct (truthy (get (body req) (js "taskTitle"))); [|cbn; discriminate].
      destruct (get (body req) (js "taskTitle")); try (cbn; discriminate).
      destruct (Nat.eqb (List.length (trim s)) 0); [cbn; discriminate|].
      apply Hcreated; reflexivity.
  - intros req w s reply titles out Hm Hid Htitle Hs Hkey Hgen Hreply Hclean.
    subst out. rewrite (handler_by_title req s Hm Hid Htitle Hs).
    rewrite (run_generate_titles JNull (trim s) reply titles w Hkey Hgen Hreply Hclean).
    pose proof (clean_subtasks_trimmed _ _ Hclean) as Htrim.
    split.
    + intros Hlt. now rewrite (persist_few _ _ _ Hlt).
    + intros Hle Hf.
      destruct (new_tasks_top_level (tasks (table w)) (now (table w)) (trim s)
                                    (firstn 5 titles) (next_id (table w)))
        as [added [Hnew [Ht Hall]]].
      exists added.
      rewrite (run_persist_enough JNull (trim s) titles w added Hle) by
          (try exact Hnew; now rewrite Hf).
      cbn [fst snd table tasks journal].
      rewrite (cleaned_titles_fixed _ 5 Htrim) in Ht.
      assert (Hlen : List.length added = List.length (firstn 5 titles))
        by (rewrite <- Ht; now rewrite length_map).
      rewrite length_firstn in Hlen.
      repeat split; assumption.
  - intros req w q z t reply titles out Hm Hid Hq Hz Hrow Hf Hkey Hgen Hreply Hclean.
    subst out. rewrite (run_handler_by_id req w q z t Hm Hid Hq Hz Hrow Hf).
    set (w1 := mkWorld (table w) [] (generator w)
                       (journal w ++ [SelectSingle (js "*") (js "id") (JNum q)])).
    rewrite (run_generate_titles (JNum q) (title t) reply titles w1 Hkey Hgen Hreply
                                 Hclean).
    pose proof (clean_subtasks_trimmed _ _ Hclean) as Htrim.
    split.
    + intros Hlt. rewrite (persist_few _ _ _ Hlt). cbn [run fst snd].
      repeat split.
    + intros Hle.
      destruct (new_tasks_under (tasks (table w)) (now (table w)) (title t) q z
                                (firstn 5 titles) Hq (filter_has_id z _ t Hrow)
                                (next_id (table w)))
        as [added [Hnew [Ht Hall]]].
      exists added.
      rewrite (run_persist_enough (JNum q) (title t) titles w1 added Hle I Hnew).
      cbn [fst snd table tasks journal w1].
      rewrite (cleaned_titles_fixed _ 5 Htrim) in Ht.
      assert (Hlen : List.length added = List.length (firstn 5 titles))
        by (rewrite <- Ht; now rewrite length_map).
      rewrite length_firstn in Hlen.
      rewrite <- app_assoc.
      repeat split; assumption.
Qed.

End BreakdownCount.

(** [POST /tasks/breakdown] with a title: a reply of seven steps leaves the
    first five, a reply of two steps is refused. *)
Lemma C1_witness :
  (exists added,
      fst (run (breakdown (by_title "Learn Rocq"))
               (desk [] (AiContent (Some seven_steps))))
      = successResponse (JArr (map (fun a => JObj (row a)) added)) 201
      /\ map title added = [js "a1"; js "b2"; js "c3"; js "d4"; js "e5"]
      /\ List.length added = 5%nat)
  /\ run (breakdown (by_title "Learn Rocq"))
         (desk [] (AiContent (Some (jsq "['a1','b2']"))))
     = (count_refusal 2, desk [] (AiContent (Some (jsq "['a1','b2']")))).
Proof.
  split.
  - destruct (proj1 (proj2 (C1_breakdown_creates_three_to_five
                              (JStr (js "sk-sample")) (fun _ => Normal None)
                              (fun _ => []) (js "TypeError")))
                    (by_title "Learn Rocq") (desk [] (AiContent (Some seven_steps)))
                    (js "Learn Rocq") seven_steps
                    [js "a1"; js "b2"; js "c3"; js "d4"; js "e5"; js "f6"; js "g7"])
      as [_ H]; try reflexivity; try (vm_compute; discriminate).
    destruct H as [added [H1 [_ [H3 [H4 _]]]]];
      [cbn [List.length]; lia|reflexivity|].
    exists added. repeat split; assumption.
  - refine (proj1 (proj1 (proj2 (C1_breakdown_creates_three_to_five
                                   (JStr (js "sk-sample")) (fun _ => Normal None)
                                   (fun _ => []) (js "TypeError")))
                         (by_title "Learn Rocq")
                         (desk [] (AiContent (Some (jsq "['a1','b2']"))))
                         (js "Learn Rocq") (jsq "['a1','b2']") [js "a1"; js "b2"]
                         _ _ _ _ _ _ _ _) _);
      try reflexivity; try (vm_compute; discriminate).
    cbn [List.length]. lia.
Defined.
